(** * Portfolio analytics pipeline: a shallow embedding and its properties

    The development follows the Python sources:
    - [portfolio_calculator.py] (class PortfolioCalculator): rating
      resolution, credit category, fund rating rollup, sensitivities,
      buckets, region and style mapping;
    - [portfolio_analyzer.py] (class PortfolioAnalyzer): top-N tables and
      group-by aggregations;
    - [api_bloomberg.py] and [data_loader.py]: the batch reference-data call
      and the enrichment step that consumes it.

    Conventions of the embedding.
    - A text cell of a DataFrame is an [option string]: [None] is the
      missing value (NaN / None), [Some s] holds [str(value)].  Strings are
      ASCII text.
    - A numeric input cell is an [option Q]: a spreadsheet cell holds a
      finite number or nothing.  Arithmetic is exact on rationals; binary64
      rounding is not modelled.  Columns computed by a division can hold
      the IEEE infinities and are of type [fnum].
    - A DataFrame is the list of its rows, in index order.
    - The sources pin no version of pandas.  Where a default of pandas
      that the code relies on differs between versions (the [observed]
      argument of a group-by on a categorical column, the dtype inferred
      for a column of texts), the default is a parameter of the
      definition and the properties are proved for either setting. *)

From Stdlib Require Import String Ascii List ZArith QArith Qround Qabs Lqa Lia Bool.
From Stdlib Require Import Permutation Sorted.
From stdpp Require Import gmap strings list fin_maps.

Open Scope string_scope.

(* ===================================================================== *)
(** * Part I: definitions *)
(* ===================================================================== *)

(** ** Python string primitives used by the rating code *)

Module Text.

(** [str.isspace] on one ASCII character: TAB, LF, VT, FF, CR, the four
    separators FS GS RS US, and the space. *)
Definition is_space (c : ascii) : bool :=
  let n := nat_of_ascii c in
  (Nat.leb 9 n && Nat.leb n 13) || (Nat.leb 28 n && Nat.leb n 32).

Fixpoint lstrip (s : string) : string :=
  match s with
  | EmptyString => EmptyString
  | String c s' => if is_space c then lstrip s' else s
  end.

Fixpoint rstrip (s : string) : string :=
  match s with
  | EmptyString => EmptyString
  | String c s' =>
      match rstrip s' with
      | EmptyString => if is_space c then EmptyString else String c EmptyString
      | t => String c t
      end
  end.

(** [s.strip()] *)
Definition strip (s : string) : string := rstrip (lstrip s).

Definition upper_char (c : ascii) : ascii :=
  let n := nat_of_ascii c in
  if Nat.leb 97 n && Nat.leb n 122 then ascii_of_nat (n - 32) else c.

(** [s.upper()] *)
Fixpoint upper (s : string) : string :=
  match s with
  | EmptyString => EmptyString
  | String c s' => String (upper_char c) (upper s')
  end.

(** [x in l] for a list of strings *)
Definition mem (x : string) (l : list string) : bool :=
  existsb (String.eqb x) l.

(** [cell == "literal"] on a text cell; a missing cell equals nothing. *)
Definition cell_is (c : option string) (lit : string) : bool :=
  match c with
  | Some s => String.eqb s lit
  | None => false
  end.

End Text.

(** ** Numbers: finite cells, IEEE special values, rounding *)

Module Num.

Local Open Scope Q_scope.

(** A numeric input cell: a finite number or the missing value. *)
Definition cell := option Q.

(** A computed float: NaN, the two infinities, or a finite value. *)
Inductive fnum : Type :=
| NaN
| NInf
| Fin (q : Q)
| PInf.

Definition of_cell (c : cell) : fnum :=
  match c with
  | Some q => Fin q
  | None => NaN
  end.

Definition Qltb (a b : Q) : bool := negb (Qle_bool b a).

(** [pd.isna] *)
Definition isna (x : fnum) : bool :=
  match x with NaN => true | _ => false end.


(** IEEE comparisons; every comparison with NaN is false. *)
Definition fleb (a b : fnum) : bool :=
  match a, b with
  | NaN, _ | _, NaN => false
  | NInf, _ => true
  | _, PInf => true
  | Fin x, Fin y => Qle_bool x y
  | _, _ => false
  end.

Definition fltb (a b : fnum) : bool :=
  match a, b with
  | NaN, _ | _, NaN => false
  | PInf, _ => false
  | _, NInf => false
  | Fin x, Fin y => Qltb x y
  | _, _ => true
  end.

Definition feqb (a b : fnum) : bool :=
  match a, b with
  | NInf, NInf | PInf, PInf => true
  | Fin x, Fin y => Qeq_bool x y
  | _, _ => false
  end.

(** Two floats denote the same value. *)
Definition feq (a b : fnum) : Prop :=
  match a, b with
  | NaN, NaN | NInf, NInf | PInf, PInf => True
  | Fin x, Fin y => x == y
  | _, _ => False
  end.

(** Cell arithmetic of pandas on finite cells: a missing operand gives a
    missing result. *)
Definition cmul (a b : cell) : cell :=
  match a, b with
  | Some x, Some y => Some (x * y)
  | _, _ => None
  end.

Definition cscale (a : cell) (k : Q) : cell :=
  match a with Some x => Some (x * k) | None => None end.

Definition cdivc (a : cell) (k : Q) : cell :=
  match a with Some x => Some (x / k) | None => None end.

(** [a / b] on two float columns holding finite cells.  A zero divisor
    gives NaN for a zero dividend and the infinity of the dividend's sign
    otherwise, as numpy does. *)
Definition cdiv (a b : cell) : fnum :=
  match a, b with
  | Some x, Some y =>
      if Qeq_bool y 0 then
        (if Qeq_bool x 0 then NaN else if Qltb 0 x then PInf else NInf)
      else Fin (x / y)
  | _, _ => NaN
  end.

(** [a * b] with a finite right operand. *)
Definition fmulq (a : fnum) (m : Q) : fnum :=
  match a with
  | NaN => NaN
  | Fin x => Fin (x * m)
  | PInf => if Qeq_bool m 0 then NaN else if Qltb 0 m then PInf else NInf
  | NInf => if Qeq_bool m 0 then NaN else if Qltb 0 m then NInf else PInf
  end.

Definition fadd (a b : fnum) : fnum :=
  match a, b with
  | NaN, _ | _, NaN => NaN
  | Fin x, Fin y => Fin (x + y)
  | PInf, NInf | NInf, PInf => NaN
  | PInf, _ | _, PInf => PInf
  | NInf, _ | _, NInf => NInf
  end.

(** [Series.fillna(0)] *)
Definition fillna0 (a : fnum) : fnum :=
  match a with NaN => Fin 0 | _ => a end.

Definition cfillna0 (a : cell) : Q :=
  match a with Some x => x | None => 0 end.

(** [Series.sum()]: missing values are skipped, the empty sum is 0. *)
Definition fsum (l : list fnum) : fnum :=
  fold_left fadd (List.filter (fun x => negb (isna x)) l) (Fin 0).

(** [Series.sum()] on a column of finite cells. *)
Definition csum (l : list cell) : Q :=
  fold_left Qplus (map cfillna0 l) 0.

(** [Series.count()]: the number of non-missing values. *)
Definition fcount (l : list fnum) : nat :=
  List.length (List.filter (fun x => negb (isna x)) l).

(** Rounding to the nearest integer, halves to the even neighbour. *)
Definition round_half_even (q : Q) : Z :=
  let f := Qfloor q in
  match Qcompare (q - inject_Z f) (1 # 2) with
  | Lt => f
  | Gt => (f + 1)%Z
  | Eq => if Z.even f then f else (f + 1)%Z
  end.

(** [round(x, 2)] as numpy computes it, [rint(x * 100) / 100], taken on
    the exact value.  The source rounds the binary64 product, which can
    fall on the other side of a half: the last cent shown may differ. *)
Definition round2 (q : Q) : Q := inject_Z (round_half_even (q * 100)) / 100.

Definition fround2 (x : fnum) : fnum :=
  match x with
  | Fin q => Fin (round2 q)
  | _ => x
  end.

End Num.

(** ** [pandas.cut] *)

Module Cut.
Import Num.

(** [bins.searchsorted(x, side)] on sorted bin edges: the number of
    leading edges strictly below [x] ([side = "left"]) or not above [x]
    ([side = "right"]). *)
Fixpoint searchsorted (side_left : bool) (bins : list fnum) (x : fnum) : nat :=
  match bins with
  | [] => 0
  | b :: bs =>
      if (if side_left then fltb b x else fleb b x)
      then S (searchsorted side_left bs x)
      else 0
  end.

(** [pd.cut(x, bins, labels=labels, right=right,
    include_lowest=include_lowest)] at one value.  pandas searches with
    side "left" when [right] is true and side "right" otherwise; an index
    of 0 or [len(bins)] means that the value is outside every interval,
    and its result is missing. *)
Definition cut (x : fnum) (bins : list fnum) (labels : list string)
           (right include_lowest : bool) : option string :=
  if isna x then None
  else
    let ids := searchsorted right bins x in
    let ids :=
      if include_lowest && feqb x (List.hd NaN bins) then 1 else ids in
    if Nat.eqb ids (List.length bins) || Nat.eqb ids 0 then None
    else List.nth_error labels (ids - 1).

End Cut.

(** ** The position table *)

Module Frame.
Import Num.

(** Descriptive columns. *)
Record Ident := {
  ISIN : option string;
  Long_Name : option string;
  Short_Name : option string;
  Sector : option string;
  Cntry_Risk : option string;          (* "Cntry (Risk)" *)
  Eqty_Ticker : option string;
  Industry_Sector : option string;
  Security_Type : option string;
  Theme : option string;
  Issuer : option string
}.

(** Rating columns.  The column "S&P LT Foreign Currency Issuer Credit
    Rating" may be absent from the table: [None] is the absent column,
    [Some c] the cell [c] of the present column. *)
Record RatingCols := {
  S_P : option string;                 (* "S&P" *)
  S_P_LT : option (option string);
  Rating : option string;
  S_P_Ajusted : option string;         (* "S&P Ajusted" *)
  Rating_Chiffre : cell;
  Credit_Category : option string
}.

(** Numeric source columns. *)
Record MarketCols := {
  Market_Value : cell;                 (* "Market Value (%)" *)
  Delta : cell;
  Prem : cell;                         (* "% Prem" *)
  Delta_pct : cell;                    (* "Delta (%)" *)
  Premium_pct : cell;                  (* "Premium (%)" *)
  Mod_Dur_to_Worst : cell;
  Effective_Duration : cell;
  OAD : cell;
  Interest_Sensitivity : cell;
  OAC : cell;
  Credit_Sensitivity : cell;
  Implied_Spread : cell;
  Implied_Volatility : cell;
  Years_to_Mat : cell
}.

(** Columns written by [_calculate_sensitivities]. *)
Record SensiCols := {
  SENSI_EQUITY : fnum;
  CONTRIB_SENSI_EQUITY : fnum;
  SENSI_EQUITY_XCV : fnum;
  CONTRIB_SENSI_EQUITY_XCV : fnum;
  contrib_modified_duration : cell;
  contrib_effective_duration : cell;
  contrib_taux_sensi : cell;
  contrib_credit_sensi : cell;
  contrib_implied_spread : cell
}.

Record BucketCols := {
  SENSI_BUCKET : option string;
  Vol_Bucket : option string;
  Maturity_Bucket : option string
}.

Record GeoCols := {
  REGION : option string;
  Style : option string
}.

Record Row := {
  ident : Ident;
  ratings : RatingCols;
  market : MarketCols;
  sensi : SensiCols;
  buckets : BucketCols;
  geo : GeoCols
}.

(** A DataFrame is the list of its rows. *)
Abbreviation DataFrame := (list Row).

(** Shorthands for the columns most often read. *)
Definition security_type (r : Row) : option string := Security_Type (ident r).
Definition market_value (r : Row) : cell := Market_Value (market r).
Definition sp_ajusted (r : Row) : option string := S_P_Ajusted (ratings r).

(** [df["Security Type"].isin(types)] at one row *)
Definition type_isin (types : list string) (r : Row) : bool :=
  match security_type r with
  | Some t => Text.mem t types
  | None => false
  end.

End Frame.

(** ** PortfolioCalculator *)

Module Calculator.
Import Text Num Cut Frame.

Local Open Scope Q_scope.

(** *** Lookup tables set up by [__init__] *)

(** A Python dict iterates in insertion order; [closest_number] below
    depends on it, so this table is kept as an ordered list of items. *)
Definition sp_rating_to_number : list (string * Z) :=
  [ ("AAA", 1); ("AA+", 2); ("AA", 3); ("AA-", 4); ("A+", 5); ("A", 6);
    ("A-", 7); ("BBB+", 8); ("BBB", 9); ("BBB-", 10); ("BB+", 11);
    ("BB", 12); ("BB-", 13); ("B+", 14); ("B", 15); ("B-", 16);
    ("CCC+", 17); ("CCC", 18); ("CCC-", 19); ("CC", 20); ("C", 21);
    ("D", 22) ]%Z.

Definition ordre_sp : list string :=
  [ "AAA"; "AAA-"; "AA+"; "AA"; "AA-"; "A+"; "A"; "A-";
    "BBB+"; "BBB"; "BBB-"; "BB+"; "BB"; "BB-";
    "B+"; "B"; "B-"; "CCC+"; "CCC"; "CCC-"; "CC"; "C"; "D"; "NR" ].

Definition ig_ratings : list string :=
  [ "AAA"; "AAA-"; "AA+"; "AA"; "AA-"; "A+"; "A"; "A-";
    "BBB+"; "BBB"; "BBB-" ].

Definition delta_par_defaut : gmap string Q :=
  list_to_map
    [ ("Common Stocks", 1); ("Corporate Bonds", 0); ("Currency Forwards", 0);
      ("Open-End Funds", 0); ("Warrants", 1); ("Cash", 0) ].

Definition pays_vers_region : gmap string string :=
  list_to_map
    [ ("BE", "Europe"); ("CA", "America"); ("CN", "Asia Ex-Jap");
      ("DE", "Europe"); ("ES", "Europe"); ("FR", "Europe");
      ("GB", "Europe"); ("IT", "Europe"); ("KR", "Asia Ex-Jap");
      ("LU", "Europe"); ("MX", "Others"); ("NL", "Europe");
      ("NZ", "Asia Ex-Jap"); ("TW", "Asia Ex-Jap"); ("US", "America");
      ("EU", "Europe"); ("HK", "Asia Ex-Jap"); ("JP", "Japan");
      ("CH", "Europe") ]%string.

Definition Sector_vers_Style : gmap string string :=
  list_to_map
    [ ("Technology", "Growth"); ("HealthCare", "Growth");
      ("Communications", "Growth"); ("Basic Materials", "Cyclical");
      ("Industrial", "Cyclical"); ("Energy", "Cyclical");
      ("Consumer, Cyclical", "Cyclical"); ("Financial", "Value");
      ("Utilities", "Value"); ("Consumer, Non-cyclical", "Value") ]%string.

(** [Series.map(d)] at one text cell: a missing or unknown key gives a
    missing value. *)
Definition map_dict {V} (d : gmap string V) (c : option string) : option V :=
  match c with
  | Some k => d !! k
  | None => None
  end.

(** *** [_apply_manual_corrections] *)

Definition corrections_row (r : Row) : Row :=
  let i := ident r in
  let msft := cell_is (ISIN i) "US06744EDH71" in
  let eqx := cell_is (ISIN i) "US29446YAC03" in
  let fr := match ISIN i with
            | Some s => mem s ["FR001400R1R6"; "FR001400M9F9"]
            | None => false
            end in
  {| ident :=
       {| ISIN := ISIN i;
          Long_Name := Long_Name i;
          Short_Name := if msft then Some "MICROSOFT" else Short_Name i;
          Sector := if msft then Some "Technology" else Sector i;
          Cntry_Risk := if fr then Some "FR"
                        else if msft then Some "US" else Cntry_Risk i;
          Eqty_Ticker := if eqx then Some "EQX US"
                         else if msft then Some "MSFT US" else Eqty_Ticker i;
          Industry_Sector := Industry_Sector i;
          Security_Type := Security_Type i;
          Theme := Theme i;
          Issuer := Issuer i |};
     ratings := ratings r; market := market r; sensi := sensi r;
     buckets := buckets r; geo := geo r |}.

(** *** Rating resolution *)

Definition invalid_ratings : list string := [""; "NR"; "#N/A"; "NAN"; "NONE"].

Definition _is_valid_rating (val : option string) : bool :=
  match val with
  | None => false
  | Some s => negb (mem (upper (strip s)) invalid_ratings)
  end.

(** [str(val).strip()]; the callers reach it on present cells only. *)
Definition str_strip (val : option string) : string :=
  match val with
  | Some s => strip s
  | None => strip "nan"
  end.

Definition _assign_rating_improved (r : Row) : string :=
  let c := ratings r in
  if _is_valid_rating (S_P c) then str_strip (S_P c)
  else
    let tail :=
      if _is_valid_rating (Rating c) then str_strip (Rating c) else "NR" in
    match S_P_LT c with
    | Some lt => if _is_valid_rating lt then str_strip lt else tail
    | None => tail
    end.

(** [df['S&P Ajusted'].map(self.sp_rating_to_number)] at one cell *)
Definition rating_number (s : string) : cell :=
  match List.find (fun kv => String.eqb (fst kv) s) sp_rating_to_number with
  | Some kv => Some (inject_Z (snd kv))
  | None => None
  end.

(** The lambda that fills "Credit Category". *)
Definition credit_category (sec : option string) (adj : string) : string :=
  if cell_is sec "Cash" then "Cash"
  else if mem adj ig_ratings then "Investment Grade"
  else if negb (mem adj ["NR"; "D"]) then "High Yield"
  else "Not Rated".

(** The three column assignments of [_calculate_ratings] at one row. *)
Definition ratings_row (r : Row) : Row :=
  let c := ratings r in
  let adj := if cell_is (security_type r) "Cash" then "CASH"
             else _assign_rating_improved r in
  {| ident := ident r;
     ratings :=
       {| S_P := S_P c; S_P_LT := S_P_LT c; Rating := Rating c;
          S_P_Ajusted := Some adj;
          Rating_Chiffre := rating_number adj;
          Credit_Category := Some (credit_category (security_type r) adj) |};
     market := market r; sensi := sensi r;
     buckets := buckets r; geo := geo r |}.

(** *** Fund rating rollup *)

Definition bond_types : list string := ["Corporate Bonds"; "Convertible Bonds"].

(** The column "Contrib Rating Chiffre" of [df_filtre]. *)
Definition contrib_rating_chiffre (r : Row) : cell :=
  cdivc (cmul (Rating_Chiffre (ratings r)) (market_value r)) 100.

(** [rating_chiffre]: the sum of that column over the bond rows.  The sum
    is the exact one; the binary64 sum of the source can differ from it in
    the last place, and then depends on the order of the rows. *)
Definition rating_chiffre (df : DataFrame) : Q :=
  csum (map contrib_rating_chiffre (List.filter (type_isin bond_types) df)).

(** [{v: k for k, v in self.sp_rating_to_number.items() if v != 99}];
    the values are pairwise distinct, so every item gives one entry. *)
Definition number_to_sp_rating : list (Z * string) :=
  map (fun kv => (snd kv, fst kv))
      (List.filter (fun kv => negb (Z.eqb (snd kv) 99)) sp_rating_to_number).

(** Python's [min(xs, key=key)] on a non-empty sequence: the running
    minimum is replaced only by a strictly smaller key. *)
Fixpoint py_min_from (key : Z -> Q) (best : Z) (xs : list Z) : Z :=
  match xs with
  | [] => best
  | x :: xs' => py_min_from key (if Qltb (key x) (key best) then x else best) xs'
  end.

Definition closest_number (rc : Q) : option Z :=
  match map fst number_to_sp_rating with
  | [] => None                                  (* ValueError *)
  | k :: ks => Some (py_min_from (fun x => Qabs (inject_Z x - rc)) k ks)
  end.

(** [number_to_sp_rating[closest_number]] *)
Definition rating_of_number (n : Z) : option string :=
  option_map snd (List.find (fun kv => Z.eqb (fst kv) n) number_to_sp_rating).

(** The value stored in [self.rating_final], computed on the table that
    already carries "Rating Chiffre". *)
Definition rating_final_of (df : DataFrame) : option string :=
  match closest_number (rating_chiffre df) with
  | Some n => rating_of_number n
  | None => None
  end.

(** The table written by [_calculate_ratings]. *)
Definition ratings_frame (df : DataFrame) : DataFrame := map ratings_row df.

(** *** Sensitivities *)

(** [self.delta_par_defaut.get(type, delta) if pd.isna(delta) else delta] *)
Definition delta_or_default (sec : option string) (delta : cell) : cell :=
  match delta with
  | Some _ => delta
  | None =>
      match map_dict delta_par_defaut sec with
      | Some d => Some d
      | None => delta
      end
  end.

(** [delta / (1 + (prem / 100))] *)
Definition sensi_equity (delta prem : cell) : fnum :=
  cdiv delta (option_map (fun p => 1 + p / 100) prem).

(** [sensi.fillna(0) * mv.fillna(0)] *)
Definition contrib_sensi (s : fnum) (mv : cell) : fnum :=
  fmulq (fillna0 s) (cfillna0 mv).

Definition not_convertible (r : Row) : bool :=
  negb (cell_is (security_type r) "Convertible Bonds").

Definition sensitivities_row (r : Row) : Row :=
  let m := market r in
  let mv := Market_Value m in
  let delta := delta_or_default (security_type r) (Delta m) in
  let delta_pct := delta_or_default (security_type r) (Delta_pct m) in
  let eff := if not_convertible r then Mod_Dur_to_Worst m
             else Effective_Duration m in
  let isens := if not_convertible r then cscale (OAD m) (-1)
               else Interest_Sensitivity m in
  let csens := if not_convertible r then cscale (OAC m) (-1)
               else Credit_Sensitivity m in
  let se := sensi_equity delta (Prem m) in
  let sx := sensi_equity delta_pct (Premium_pct m) in
  {| ident := ident r; ratings := ratings r;
     market :=
       {| Market_Value := mv; Delta := delta; Prem := Prem m;
          Delta_pct := delta_pct; Premium_pct := Premium_pct m;
          Mod_Dur_to_Worst := Mod_Dur_to_Worst m;
          Effective_Duration := eff; OAD := OAD m;
          Interest_Sensitivity := isens; OAC := OAC m;
          Credit_Sensitivity := csens;
          Implied_Spread := Implied_Spread m;
          Implied_Volatility := Implied_Volatility m;
          Years_to_Mat := Years_to_Mat m |};
     sensi :=
       {| SENSI_EQUITY := se;
          CONTRIB_SENSI_EQUITY := contrib_sensi se mv;
          SENSI_EQUITY_XCV := sx;
          CONTRIB_SENSI_EQUITY_XCV := contrib_sensi sx mv;
          contrib_modified_duration := cdivc (cmul (Mod_Dur_to_Worst m) mv) 100;
          contrib_effective_duration := cdivc (cmul eff mv) 100;
          contrib_taux_sensi := cdivc (cmul isens mv) 100;
          contrib_credit_sensi := cdivc (cmul csens mv) 100;
          contrib_implied_spread := cdivc (cmul (Implied_Spread m) mv) 100 |};
     buckets := buckets r; geo := geo r |}.

(** *** Buckets *)

(** The literal [1.1] is the binary64 number nearest to 11/10. *)
Definition float_1_1 : Q := 4953959590107546 # 4503599627370496.

Definition bins_equity : list fnum :=
  [Fin 0; Fin (1 # 4); Fin (1 # 2); Fin (3 # 4); Fin float_1_1].
Definition labels_equity : list string :=
  ["Bucket 0-25"; "Bucket 25-50"; "Bucket 50-75"; "Bucket 75-100"].

Definition bins_vol : list fnum := [NInf; Fin 20; Fin 30; Fin 40; PInf].
Definition labels_vol : list string := ["<20%"; "20-30%"; "30-40%"; ">40%"].

Definition bins_mat : list fnum := [NInf; Fin 1; Fin 3; Fin 5; PInf].
Definition labels_mat : list string :=
  ["<1 An"; "1 à 3 Ans"; "3 à 5 Ans"; ">5 Ans"].

(** [pd.cut(..., bins_equity, labels_equity, include_lowest=True)];
    [right] keeps its default, [True]. *)
Definition sensi_bucket (x : fnum) : option string :=
  cut x bins_equity labels_equity true true.

(** [pd.cut(..., bins_vol, labels_vol, right=False)] *)
Definition vol_bucket (x : fnum) : option string :=
  cut x bins_vol labels_vol false false.

(** [pd.cut(..., bins_mat, labels_mat, right=False)] *)
Definition maturity_bucket (x : fnum) : option string :=
  cut x bins_mat labels_mat false false.

Definition buckets_row (r : Row) : Row :=
  {| ident := ident r; ratings := ratings r; market := market r;
     sensi := sensi r;
     buckets :=
       {| SENSI_BUCKET := sensi_bucket (SENSI_EQUITY (sensi r));
          Vol_Bucket := vol_bucket (of_cell (Implied_Volatility (market r)));
          Maturity_Bucket := maturity_bucket (of_cell (Years_to_Mat (market r))) |};
     geo := geo r |}.

(** *** Regions and styles *)

Definition regions_row (r : Row) : Row :=
  {| ident := ident r; ratings := ratings r; market := market r;
     sensi := sensi r; buckets := buckets r;
     geo := {| REGION := map_dict pays_vers_region (Cntry_Risk (ident r));
               Style := Style (geo r) |} |}.

Definition style_row (r : Row) : Row :=
  {| ident := ident r; ratings := ratings r; market := market r;
     sensi := sensi r; buckets := buckets r;
     geo := {| REGION := REGION (geo r);
               Style := map_dict Sector_vers_Style (Industry_Sector (ident r)) |} |}.

(** *** [_calculate_maturity_buckets] *)

(** Cash rows get the maturity [0.003]; the model takes 3/1000 for that
    literal. *)
Definition maturity_row (r : Row) : Row :=
  let m := market r in
  let ytm := if cell_is (security_type r) "Cash" then Some (3 # 1000)
             else Years_to_Mat m in
  {| ident := ident r; ratings := ratings r;
     market :=
       {| Market_Value := Market_Value m; Delta := Delta m; Prem := Prem m;
          Delta_pct := Delta_pct m; Premium_pct := Premium_pct m;
          Mod_Dur_to_Worst := Mod_Dur_to_Worst m;
          Effective_Duration := Effective_Duration m; OAD := OAD m;
          Interest_Sensitivity := Interest_Sensitivity m; OAC := OAC m;
          Credit_Sensitivity := Credit_Sensitivity m;
          Implied_Spread := Implied_Spread m;
          Implied_Volatility := Implied_Volatility m;
          Years_to_Mat := ytm |};
     sensi := sensi r;
     buckets :=
       {| SENSI_BUCKET := SENSI_BUCKET (buckets r);
          Vol_Bucket := Vol_Bucket (buckets r);
          Maturity_Bucket := maturity_bucket (of_cell ytm) |};
     geo := geo r |}.

(** The row-wise content of [calculate_all_metrics]: the stages in the
    order of the source.  [_calculate_asset] only computes a local table
    and leaves the rows as they are. *)
Definition all_metrics_row (r : Row) : Row :=
  maturity_row
    (style_row
       (regions_row
          (buckets_row
             (sensitivities_row
                (ratings_row
                   (corrections_row r)))))).

End Calculator.

(** ** PortfolioAnalyzer: top-N tables and group-by aggregations *)

Module Analyzer.
Import Text Num Frame.

(** *** Sorting and selection primitives of pandas *)

(** Stable insertion sort; [le x y] says that [x] may stand before [y]. *)
Fixpoint insert_by {A} (le : A -> A -> bool) (x : A) (l : list A) : list A :=
  match l with
  | [] => [x]
  | y :: l' => if le x y then x :: l else y :: insert_by le x l'
  end.

Definition sort_by {A} (le : A -> A -> bool) (l : list A) : list A :=
  fold_right (insert_by le) [] l.

(** Rows by decreasing value of a column, rows with a missing value last:
    the order of [sort_values(col, ascending=False)] and of [nlargest].
    Rows with equal values keep their original order. *)
Definition sort_desc {A} (col : A -> fnum) (l : list A) : list A :=
  sort_by (fun a b => fleb (col b) (col a))
          (List.filter (fun a => negb (isna (col a))) l)
  ++ List.filter (fun a => isna (col a)) l.

(** [df.nlargest(n, col)] *)
Definition nlargest {A} (n : nat) (col : A -> fnum) (l : list A) : list A :=
  firstn n (sort_desc col l).

(** [b] may follow [a] in decreasing order of [col]: its value is
    missing or not larger. *)
Definition desc_rel {A} (col : A -> fnum) (a b : A) : Prop :=
  isna (col b) = true \/ fleb (col b) (col a) = true.

(** *** Top-N tables *)

(** A row of a displayed table: two names and one value column. *)
Record TopRow := {
  top_long_name : option string;
  top_short_name : option string;
  top_value : fnum
}.

(** [df[["Long Name", "Short Name", col]]] at one row *)
Definition project (col : Row -> fnum) (r : Row) : TopRow :=
  {| top_long_name := Long_Name (ident r);
     top_short_name := Short_Name (ident r);
     top_value := col r |}.

(** The one-row frame [total_row]. *)
Definition total_row (top_10 : list TopRow) : TopRow :=
  {| top_long_name := Some "TOTAL";
     top_short_name := Some "";
     top_value := fsum (map top_value top_10) |}.

(** [DataFrame.round(2)] at one row: only the numeric column changes. *)
Definition round_row (t : TopRow) : TopRow :=
  {| top_long_name := top_long_name t;
     top_short_name := top_short_name t;
     top_value := fround2 (top_value t) |}.

Definition col_market_value (r : Row) : fnum := of_cell (market_value r).
Definition col_contrib (r : Row) : fnum := CONTRIB_SENSI_EQUITY (sensi r).

Definition types_autorises : list string :=
  ["Convertible Bonds"; "Corporate Bonds"; "Open-End Funds";
   "Warrants"; "Common Stocks"].

(** The frame [top_10] of [_get_top_holdings]. *)
Definition top_holdings_rows (top_holdings : nat) (df : DataFrame) : list Row :=
  nlargest top_holdings col_market_value
           (List.filter (type_isin types_autorises) df).

(** [top_holdings] is [self.config['settings']['top_holdings']]. *)
Definition _get_top_holdings (top_holdings : nat) (df : DataFrame)
  : list TopRow :=
  let top_10 := map (project col_market_value)
                    (top_holdings_rows top_holdings df) in
  map round_row (top_10 ++ [total_row top_10]).

(** The frame [top_10] of [_get_top_contributors]. *)
Definition top_contributors_rows (top_holdings : nat) (df : DataFrame)
  : list Row :=
  nlargest top_holdings col_contrib df.

Definition _get_top_contributors (top_holdings : nat) (df : DataFrame)
  : list TopRow :=
  let top_10 := map (project col_contrib)
                    (top_contributors_rows top_holdings df) in
  map round_row (top_10 ++ [total_row top_10]).

(** *** Group-by aggregation *)

(** The rows of one group. *)
Definition group_rows (key : Row -> option string) (k : string)
           (df : DataFrame) : list Row :=
  List.filter (fun r => cell_is (key r) k) df.

(** The group keys of [df.groupby(key)]: the distinct non-missing keys
    (rows with a missing key belong to no group, [dropna] keeps its
    default), in increasing order. *)
Definition group_keys (key : Row -> option string) (df : DataFrame)
  : list string :=
  sort_by String.leb (remove_dups (omap key df)).

(** One result row of [.agg(sum, count)].  The tables built with [.sum()]
    alone show the key and the sum only; the count is then not part of the
    table. *)
Record AggRow := {
  agg_key : string;
  agg_sum : fnum;
  agg_count : nat
}.

Definition agg_group (key : Row -> option string) (col : Row -> fnum)
           (df : DataFrame) (k : string) : AggRow :=
  let vals := map col (group_rows key k df) in
  {| agg_key := k; agg_sum := fsum vals; agg_count := fcount vals |}.

(** [df.groupby(key)[col].sum()], with the count that [.agg] adds. *)
Definition groupby_agg (key : Row -> option string) (col : Row -> fnum)
           (df : DataFrame) : list AggRow :=
  map (agg_group key col df) (group_keys key df).

(** A category is observed when some row has it as key. *)
Definition occurs (key : Row -> option string) (df : DataFrame) (c : string)
  : bool :=
  existsb (fun r => cell_is (key r) c) df.

(** Group-by on a categorical column: the groups are categories, in the
    order of the categories.  The source leaves the argument [observed] to
    its default, which is False up to pandas 2 (one group per category,
    also for a category without rows) and True from pandas 3 on (only the
    categories that occur); the sources pin no version, so the default is
    a parameter here. *)
Definition groupby_agg_categorical (observed : bool) (categories : list string)
           (key : Row -> option string) (col : Row -> fnum)
           (df : DataFrame) : list AggRow :=
  map (agg_group key col df)
      (List.filter (fun c => negb observed || occurs key df c) categories).

Definition round_agg (a : AggRow) : AggRow :=
  {| agg_key := agg_key a;
     agg_sum := fround2 (agg_sum a);
     agg_count := agg_count a |}.

(** The shape shared by [_aggregate_by_sector], [_aggregate_by_region],
    [_aggregate_by_theme] and [_aggregate_by_style]:
    [groupby(key)["CONTRIB SENSI EQUITY"].sum().reset_index().round(2)
     .sort_values("CONTRIB SENSI EQUITY", ascending=False)]. *)
Definition aggregate_by (key : Row -> option string) (df : DataFrame)
  : list AggRow :=
  sort_desc agg_sum (map round_agg (groupby_agg key col_contrib df)).

Definition _aggregate_by_sector : DataFrame -> list AggRow :=
  aggregate_by (fun r => Industry_Sector (ident r)).
Definition _aggregate_by_region : DataFrame -> list AggRow :=
  aggregate_by (fun r => REGION (geo r)).
Definition _aggregate_by_theme : DataFrame -> list AggRow :=
  aggregate_by (fun r => Theme (ident r)).
Definition _aggregate_by_style : DataFrame -> list AggRow :=
  aggregate_by (fun r => Style (geo r)).

(** *** [_calculate_credit_metrics] *)

Definition credit_types : list string :=
  ["Corporate Bonds"; "Convertible Bonds"; "Cash"].

Definition df_credit (df_complete : DataFrame) : DataFrame :=
  List.filter (type_isin credit_types) df_complete.

Definition df_credit_rated (df_complete : DataFrame) : DataFrame :=
  List.filter (fun r => negb (cell_is (security_type r) "Cash"))
              (df_credit df_complete).

(** [credit_results['by_category']] *)
Definition credit_by_category (df_complete : DataFrame) : list AggRow :=
  map round_agg
      (groupby_agg (fun r => Credit_Category (ratings r)) col_market_value
                   (df_credit df_complete)).

(** Position of a rating in [ordre_sp]: its code as a category. *)
Fixpoint index_of (s : string) (l : list string) : option nat :=
  match l with
  | [] => None
  | x :: l' => if String.eqb x s then Some 0
               else option_map S (index_of s l')
  end.

(** A line of the table by rating once its key column has been recoded as
    a categorical: the label is missing for a key that is no category. *)
Record RatingRow := {
  rating_label : option string;
  rating_sum : fnum;
  rating_count : nat
}.

(** [pd.Categorical(column, categories=categories, ordered=True)] at one
    line: a value outside the categories becomes NaN. *)
Definition recode (categories : list string) (a : AggRow) : RatingRow :=
  {| rating_label := if mem (agg_key a) categories then Some (agg_key a)
                     else None;
     rating_sum := agg_sum a;
     rating_count := agg_count a |}.

(** Order of [sort_values] on the categorical rating column: by category
    code, the lines with a missing label last, in the order they had. *)
Definition rating_le (a b : RatingRow) : bool :=
  match rating_label a, rating_label b with
  | Some x, Some y =>
      match index_of x Calculator.ordre_sp, index_of y Calculator.ordre_sp with
      | Some i, Some j => Nat.leb i j
      | Some _, None => true
      | None, Some _ => false
      | None, None => true
      end
  | Some _, None => true
  | None, Some _ => false
  | None, None => true
  end.

(** [credit_results['by_rating']]: group sums and counts by resolved
    rating, rounded; the key column recoded over [ordre_sp]; the lines
    sorted on it. *)
Definition credit_by_rating (df_complete : DataFrame) : list RatingRow :=
  sort_by rating_le
    (map (recode Calculator.ordre_sp)
         (map round_agg
              (groupby_agg sp_ajusted col_market_value
                           (df_credit_rated df_complete)))).

(** [credit_results['by_maturity']]: "Maturity_Bucket" is categorical. *)
Definition credit_by_maturity (observed : bool) (df_complete : DataFrame)
  : list AggRow :=
  map round_agg
      (groupby_agg_categorical observed Calculator.labels_mat
         (fun r => Maturity_Bucket (buckets r)) col_market_value
         (df_credit df_complete)).

End Analyzer.

(** ** Python objects: a store of tables mutated in place *)

Module Store.
Import Frame Calculator.

(** A reference to a DataFrame object. *)
Definition loc := nat.

(** The objects the calculator touches: the DataFrames that are alive,
    and the attribute [self.rating_final]. *)
Record PyState := {
  heap : gmap loc DataFrame;
  rating_final : option string
}.

(** A method: it reads and updates the state, or stops on an exception
    ([None]). *)
Definition M (A : Type) : Type := PyState -> option (A * PyState).

Definition ret {A} (a : A) : M A := fun st => Some (a, st).

Definition bind {A B} (m : M A) (k : A -> M B) : M B :=
  fun st =>
    match m st with
    | Some (a, st') => k a st'
    | None => None
    end.

Notation "x <- m ;; k" := (bind m (fun x => k))
  (at level 100, m at next level, right associativity).
Notation "m ;;; k" := (bind m (fun _ => k))
  (at level 100, right associativity).

(** Reading through a reference. *)
Definition read (df : loc) : M DataFrame :=
  fun st =>
    match heap st !! df with
    | Some rows => Some (rows, st)
    | None => None
    end.

(** [df.copy()]: a new object with the same rows. *)
Definition df_copy (df : loc) : M loc :=
  fun st =>
    match heap st !! df with
    | Some rows =>
        let new := fresh (dom (heap st)) in
        Some (new, {| heap := <[new := rows]> (heap st);
                      rating_final := rating_final st |})
    | None => None
    end.

(** Column assignments ([df[col] = ...], [df.loc[mask, col] = ...]):
    the object behind [df] is updated in place. *)
Definition assign_rows (df : loc) (f : Row -> Row) : M unit :=
  fun st =>
    match heap st !! df with
    | Some rows =>
        Some (tt, {| heap := <[df := map f rows]> (heap st);
                     rating_final := rating_final st |})
    | None => None
    end.

(** [self.rating_final = ...]; a failing lookup is an exception. *)
Definition set_rating_final (r : option string) : M unit :=
  fun st =>
    match r with
    | Some g => Some (tt, {| heap := heap st; rating_final := Some g |})
    | None => None
    end.

Definition _apply_manual_corrections (df : loc) : M loc :=
  assign_rows df corrections_row ;;;
  ret df.

Definition _calculate_ratings (df : loc) : M loc :=
  assign_rows df ratings_row ;;;
  rows <- read df ;;
  set_rating_final (rating_final_of rows) ;;;
  ret df.

Definition _calculate_sensitivities (df : loc) : M loc :=
  assign_rows df sensitivities_row ;;;
  ret df.

Definition _calculate_buckets (df : loc) : M loc :=
  assign_rows df buckets_row ;;;
  ret df.

Definition _calculate_regions (df : loc) : M loc :=
  assign_rows df regions_row ;;;
  ret df.

Definition _calculate_asset (df : loc) : M loc :=
  _ <- read df ;;
  ret df.

Definition _calculate_style (df : loc) : M loc :=
  assign_rows df style_row ;;;
  ret df.

Definition _calculate_maturity_buckets (df : loc) : M loc :=
  assign_rows df maturity_row ;;;
  ret df.

Definition calculate_all_metrics (df : loc) : M loc :=
  df <- df_copy df ;;
  df <- _apply_manual_corrections df ;;
  df <- _calculate_ratings df ;;
  df <- _calculate_sensitivities df ;;
  df <- _calculate_buckets df ;;
  df <- _calculate_regions df ;;
  df <- _calculate_asset df ;;
  df <- _calculate_style df ;;
  df <- _calculate_maturity_buckets df ;;
  ret df.

End Store.

(** ** The reference-data call and the enrichment step *)

Module Loader.
Import Text Num Frame.

(** A Python exception, with its message. *)
Inductive exn : Type := Exception (msg : string).

Inductive outcome (A : Type) : Type :=
| Ok (a : A)
| Raised (e : exn).
Arguments Ok {A} a.
Arguments Raised {A} e.

Definition obind {A B} (m : outcome A) (k : A -> outcome B) : outcome B :=
  match m with
  | Ok a => k a
  | Raised e => Raised e
  end.

Notation "'try!' x := m 'in' k" := (obind m (fun x => k))
  (at level 10, x name, m at level 100, k at level 200).

(** *** BloombergDataFetcher *)

(** What a field of the response holds: [getElementAsFloat] succeeds, or
    only [getElementAsString] does, or neither. *)
Inductive element : Type :=
| AsFloat (q : Q)
| AsString (s : string)
| Unreadable.

(** A value stored in [results[ticker][field]]; Python's None is the
    [None] of the option around it. *)
Inductive bvalue : Type :=
| BFloat (q : Q)
| BString (s : string).

(** One entry of the [securityData] array. *)
Record security_data := {
  security : string;
  fieldData : option (gmap string element)
}.

(** The session object.  [service] says whether [self.service] is set.
    [exchange securities fields] stands for [sendRequest] followed by the
    [nextEvent] loop up to the final RESPONSE event: the [securityData]
    entries of the response messages in order of arrival, or the
    exception that the API raised on the way. *)
Record Session := {
  service : bool;
  exchange : list string -> list string -> outcome (list security_data)
}.

Definition read_field (fd : gmap string element) (field : string)
  : option bvalue :=
  match fd !! field with
  | Some (AsFloat q) => Some (BFloat q)
  | Some (AsString s) => Some (BString s)
  | Some Unreadable => None
  | None => None
  end.

(** [results[ticker]] for one security. *)
Definition read_security (fields : list string) (sd : security_data)
  : gmap string (option bvalue) :=
  match fieldData sd with
  | Some fd =>
      fold_left (fun m field => <[field := read_field fd field]> m) fields ∅
  | None => ∅
  end.

(** The securities put into the request: non-empty after stripping. *)
Definition request_securities (tickers : list string) : list string :=
  omap (fun t => let t' := strip t in
                 if String.eqb t' "" then None else Some t') tickers.

Definition fetch_batch_data (s : Session) (tickers fields : list string)
  : gmap string (gmap string (option bvalue)) :=
  if negb (service s) || Nat.eqb (List.length tickers) 0 then ∅
  else
    match exchange s (request_securities tickers) fields with
    | Ok sds =>
        fold_left
          (fun results sd => <[security sd := read_security fields sd]> results)
          sds ∅
    | Raised _ => ∅          (* the handler logs the error and returns {} *)
    end.

(** *** DataLoader._enrich_with_bloomberg_data *)

Section Enrich.

(** [str(x)] for a float [x]; Python's float formatting is not part of
    the sources. *)
Variable float_str : Q -> string.

(** Two defaults of pandas that the sources rely on and that depend on
    its version, which the sources do not pin: whether a column of texts
    is given the string dtype ([future.infer_string]: False in pandas 2,
    True from pandas 3 on), and the [observed] argument of a group-by on a
    categorical column. *)
Variable infer_string : bool.
Variable observed : bool.

(** A row of the enriched table: the row of the merged table and the
    three columns added by the enrichment. *)
Record Enriched := {
  base : Row;
  EXPECTED_REPORT_DT : option bvalue;
  EXPECTED_REPORT_TIME : option bvalue;
  EARNING : string
}.

Definition set_eqty_ticker (r : Row) (t : option string) : Row :=
  let i := ident r in
  {| ident :=
       {| ISIN := ISIN i; Long_Name := Long_Name i;
          Short_Name := Short_Name i; Sector := Sector i;
          Cntry_Risk := Cntry_Risk i; Eqty_Ticker := t;
          Industry_Sector := Industry_Sector i;
          Security_Type := Security_Type i;
          Theme := Theme i; Issuer := Issuer i |};
     ratings := ratings r; market := market r; sensi := sensi r;
     buckets := buckets r; geo := geo r |}.

(** [.astype(str) + ' Equity'] on the convertible rows *)
Definition with_equity_suffix (r : Row) : Row :=
  if cell_is (security_type r) "Convertible Bonds" then
    set_eqty_ticker r
      (Some (match Eqty_Ticker (ident r) with
             | Some t => t
             | None => "nan"
             end ++ " Equity"))
  else r.

(** [Series.unique()]: first occurrences, in order. *)
Fixpoint unique (l : list string) : list string :=
  match l with
  | [] => []
  | x :: l' => x :: List.filter (fun y => negb (String.eqb y x)) (unique l')
  end.

Definition tickers_to_fetch (df : DataFrame) : list string :=
  unique
    (omap (fun r => match Eqty_Ticker (ident r) with
                    | Some t => if String.eqb t "nan Equity" then None
                                else Some t
                    | None => None
                    end) df).

(** [bloomberg_data.get(x, {}).get(field) if x in bloomberg_data
    else None] *)
Definition lookup_field (bloomberg_data : gmap string (gmap string (option bvalue)))
           (field : string) (x : option string) : option bvalue :=
  match x with
  | Some t =>
      match bloomberg_data !! t with
      | Some fields =>
          match fields !! field with
          | Some v => v
          | None => None
          end
      | None => None
      end
  | None => None
  end.

Definition holds_float (col : list (option bvalue)) : bool :=
  existsb (fun v => match v with Some (BFloat _) => true | _ => false end) col.

Definition holds_string (col : list (option bvalue)) : bool :=
  existsb (fun v => match v with Some (BString _) => true | _ => false end) col.

(** How a missing cell of a column built by [Series.map] prints.  pandas
    infers the dtype of the column from its values: floats and None give
    a float64 column, where None has become NaN; texts and None give the
    string dtype, with NaN for None, when [infer_string] is on; every
    other column (no value at all, or floats and texts together) keeps
    its Python objects, None included. *)
Definition na_text (col : list (option bvalue)) : string :=
  if holds_float col && negb (holds_string col) then "nan"
  else if infer_string && holds_string col && negb (holds_float col) then "nan"
  else "None".

(** [f"{v}"], [na] being the text of a missing cell of the column. *)
Definition fmt (na : string) (v : option bvalue) : string :=
  match v with
  | None => na
  | Some (BString s) => s
  | Some (BFloat q) => float_str q
  end.

(** [na] is the text of a missing EXPECTED_REPORT_DT; a missing
    EXPECTED_REPORT_TIME is never printed. *)
Definition _create_earning_column (na : string) (dt time : option bvalue)
  : string :=
  match time with
  | Some _ =>
      if negb (String.eqb (upper (strip (fmt na time))) "#N/A N/A")
         && negb (String.eqb (strip (fmt na time)) "")
      then fmt na dt ++ " " ++ fmt na time
      else fmt na dt
  | None => fmt na dt
  end.

(** The merged table has no column EXPECTED_REPORT_TIME of its own:
    when there is no ticker to fetch the two columns are never created
    and building EARNING raises. *)
Definition _enrich_with_bloomberg_data (s : Session) (df : DataFrame)
  : outcome (list Enriched) :=
  let df := map with_equity_suffix df in
  let tickers := tickers_to_fetch df in
  if Nat.ltb 0 (List.length tickers) then
    let bloomberg_data :=
      fetch_batch_data s tickers
                       ["EXPECTED_REPORT_DT"; "EXPECTED_REPORT_TIME"] in
    let column field :=
      map (fun r => lookup_field bloomberg_data field (Eqty_Ticker (ident r)))
          df in
    let na := na_text (column "EXPECTED_REPORT_DT") in
    Ok (map (fun r =>
               let dt := lookup_field bloomberg_data "EXPECTED_REPORT_DT"
                                      (Eqty_Ticker (ident r)) in
               let time := lookup_field bloomberg_data "EXPECTED_REPORT_TIME"
                                        (Eqty_Ticker (ident r)) in
               {| base := r;
                  EXPECTED_REPORT_DT := dt;
                  EXPECTED_REPORT_TIME := time;
                  EARNING := _create_earning_column na dt time |}) df)
  else Raised (Exception "EXPECTED_REPORT_TIME").

(** [load_portfolio_data]: [merged] is the outcome of reading the four
    files and merging them, an exception when a file cannot be read. *)
Definition load_portfolio_data (s : Session) (merged : outcome DataFrame)
  : outcome (list Enriched) :=
  try! df_merged := merged in
  _enrich_with_bloomberg_data s df_merged.

(** *** PortfolioAnalyzer.run_full_analysis *)

(** The entries of [results] that this development models. *)
Record Results := {
  holding : nat;
  rating : option string;
  top_10_holdings : list Analyzer.TopRow;
  top_10_contrib_equity : list Analyzer.TopRow;
  contrib_by_sector : list Analyzer.AggRow;
  contrib_by_region : list Analyzer.AggRow;
  contrib_by_theme : list Analyzer.AggRow;
  contrib_by_style : list Analyzer.AggRow;
  credit_by_category : list Analyzer.AggRow;
  credit_by_rating : list Analyzer.RatingRow;
  credit_by_maturity : list Analyzer.AggRow
}.

Definition analysed_types : list string :=
  ["Convertible Bonds"; "Common Stocks"; "Warrants"].

(** [_calculate_aggregated_metrics] on [self.df], [self.df_complete]
    and [self.calculator.rating_final]. *)
Definition _calculate_aggregated_metrics (top_holdings : nat)
           (df df_complete : DataFrame) (rating_final : option string)
  : Results :=
  {| holding := List.length (List.filter (fun r => match security_type r with
                                                   | Some _ => true
                                                   | None => false
                                                   end) df);
     rating := rating_final;
     top_10_holdings := Analyzer._get_top_holdings top_holdings df;
     top_10_contrib_equity := Analyzer._get_top_contributors top_holdings df;
     contrib_by_sector := Analyzer._aggregate_by_sector df;
     contrib_by_region := Analyzer._aggregate_by_region df;
     contrib_by_theme := Analyzer._aggregate_by_theme df;
     contrib_by_style := Analyzer._aggregate_by_style df;
     credit_by_category := Analyzer.credit_by_category df_complete;
     credit_by_rating := Analyzer.credit_by_rating df_complete;
     credit_by_maturity := Analyzer.credit_by_maturity observed df_complete |}.

(** The body of the [try] block; the handler logs and re-raises, the
    [finally] clause closes the session.  The calculator runs on the
    loaded table, whose enrichment columns it does not read. *)
Definition run_full_analysis (top_holdings : nat) (s : Session)
           (merged : outcome DataFrame) : outcome Results :=
  try! loaded := load_portfolio_data s merged in
  match Store.calculate_all_metrics 0
          {| Store.heap := {[ 0 := map base loaded ]};
             Store.rating_final := None |} with
  | Some (out, st) =>
      match Store.heap st !! out with
      | Some df_complete =>
          let df := List.filter (type_isin analysed_types) df_complete in
          Ok (_calculate_aggregated_metrics top_holdings df df_complete
                (Store.rating_final st))
      | None => Raised (Exception "calculate_all_metrics")
      end
  | None => Raised (Exception "calculate_all_metrics")
  end.

End Enrich.

End Loader.

(** ** The properties as the specification words them

    These definitions follow the text of the specification, not the code;
    the theorems of Part II compare them with the code. *)

Module Spec.
Import Text Num Frame.

Local Open Scope Q_scope.

(** A value is valid iff it is non-missing and its trimmed upper-cased
    form is none of the sentinels: the empty string, NR, #N/A, NAN, NONE. *)
Definition is_valid (v : option string) : bool :=
  match v with
  | Some s => negb (mem (upper (strip s)) [""; "NR"; "#N/A"; "NAN"; "NONE"])
  | None => false
  end.

(** The rating fields in priority order; an absent secondary column
    counts as a missing value. *)
Definition cascade (r : Row) : list (option string) :=
  [ S_P (ratings r);
    match S_P_LT (ratings r) with Some c => c | None => None end;
    Rating (ratings r) ].

(** "the first valid value in the priority cascade" *)
Definition first_valid (r : Row) : option string :=
  match List.find is_valid (cascade r) with
  | Some v => v
  | None => None
  end.

(** The resolved rating as the specification states it: the first valid
    value itself, else "NR"; "CASH" on cash rows. *)
Definition resolved_rating_as_stated (r : Row) : string :=
  if cell_is (security_type r) "Cash" then "CASH"
  else match first_valid r with
       | Some v => v
       | None => "NR"
       end.

(** The same with the value trimmed. *)
Definition resolved_rating_trimmed (r : Row) : string :=
  if cell_is (security_type r) "Cash" then "CASH"
  else match first_valid r with
       | Some v => strip v
       | None => "NR"
       end.

(** "a valid letter grade (AAA ... D)" *)
Definition letter_grades : list string :=
  map fst Calculator.sp_rating_to_number.

(** "one of {a valid letter grade, "NR", "CASH"}" and never empty *)
Definition in_stated_codomain (s : string) : Prop :=
  s <> "" /\ (In s letter_grades \/ s = "NR" \/ s = "CASH").

(** Sensitivity intervals as stated: [0,0.25), [0.25,0.50), [0.50,0.75),
    [0.75,1.1). *)
Definition sensi_bucket_as_stated (q : Q) : option string :=
  if Qltb q 0 then None
  else if Qltb q (1 # 4) then Some "Bucket 0-25"
  else if Qltb q (1 # 2) then Some "Bucket 25-50"
  else if Qltb q (3 # 4) then Some "Bucket 50-75"
  else if Qltb q Calculator.float_1_1 then Some "Bucket 75-100"
  else None.

(** The market-value-weighted average of the ranks of the rows that have
    a rank and a weight: sum of weight x rank over sum of weights. *)
Definition rank_and_weight (r : Row) : option (Q * Q) :=
  match Rating_Chiffre (ratings r), market_value r with
  | Some k, Some w => Some (k, w)
  | _, _ => None
  end.



(** A string that the cascade lets through: the trimmed form of one of
    the row's rating cells, valid in the sense of [_is_valid_rating]. *)
Definition passes_validity (r : Row) (s : string) : Prop :=
  exists v, In (Some v) (cascade r) /\
            Calculator._is_valid_rating (Some v) = true /\ s = strip v.

(** "exactly one of {Cash, Investment Grade, High Yield, Not Rated}" *)
Definition credit_categories : list string :=
  ["Cash"; "Investment Grade"; "High Yield"; "Not Rated"].

(** "Credit Category" of a row once [_calculate_ratings] has run. *)
Definition category_of (r : Row) : option string :=
  Credit_Category (ratings (Calculator.ratings_row r)).

(** The columns of a row once [_calculate_sensitivities] has run. *)
Definition delta_after (r : Row) : cell :=
  Delta (market (Calculator.sensitivities_row r)).
Definition sensi_after (r : Row) : fnum :=
  SENSI_EQUITY (sensi (Calculator.sensitivities_row r)).
Definition contrib_after (r : Row) : fnum :=
  CONTRIB_SENSI_EQUITY (sensi (Calculator.sensitivities_row r)).

(** The security types with a registered default delta. *)
Definition default_one : list string := ["Common Stocks"; "Warrants"].
Definition default_zero : list string :=
  ["Corporate Bonds"; "Currency Forwards"; "Open-End Funds"; "Cash"].

(** The row's security type is one of [types]. *)
Definition type_in (r : Row) (types : list string) : Prop :=
  exists t, security_type r = Some t /\ In t types.

(** The sum of rank x weight / 100 over the rows that have both. *)
Definition contribution_sum (rows : list Row) : Q :=
  fold_right (fun r acc => match rank_and_weight r with
                           | Some (k, w) => k * w / 100 + acc
                           | None => acc
                           end) 0 rows.


(** [m] is the first element of [l] whose key is minimal. *)
Definition first_min (key : Z -> Q) (l : list Z) (m : Z) : Prop :=
  exists pre post, l = (pre ++ m :: post)%list /\
                   (forall x, In x pre -> key m < key x) /\
                   (forall x, In x post -> key m <= key x).

(** Distance of a rank to the weighted sum. *)
Definition distance (rc : Q) (n : Z) : Q := Qabs (inject_Z n - rc).


(** The ranks 1 to 22. *)
Definition ranks : list Z :=
  [1; 2; 3; 4; 5; 6; 7; 8; 9; 10; 11; 12; 13; 14; 15; 16; 17; 18; 19; 20;
   21; 22]%Z.

(** The value shown in the last row of a displayed table, and the rows
    above it. *)
Definition shown_total (t : list Analyzer.TopRow) : fnum :=
  match List.last (map Some t) None with
  | Some row => Analyzer.top_value row
  | None => NaN
  end.
Definition shown_rows (t : list Analyzer.TopRow) : list Analyzer.TopRow :=
  List.removelast t.

(** The "TOTAL" row carrying the value [v]. *)
Definition total_of (v : fnum) : Analyzer.TopRow :=
  {| Analyzer.top_long_name := Some "TOTAL";
     Analyzer.top_short_name := Some "";
     Analyzer.top_value := v |}.

(** The rows whose group key is one of [ks]. *)
Definition key_in (key : Row -> option string) (ks : list string) (r : Row)
  : bool :=
  match key r with
  | Some k => mem k ks
  | None => false
  end.

(** The rows whose group key is not missing. *)
Definition keyed (key : Row -> option string) (df : DataFrame) : DataFrame :=
  List.filter (fun r => match key r with Some _ => true | None => false end) df.




(** "the batch reference-data call fails entirely": the service is open
    and every request raises. *)
Definition call_fails (s : Loader.Session) : Prop :=
  Loader.service s = true /\
  forall securities fields, exists e,
      Loader.exchange s securities fields = Loader.Raised e.

(** The enriched row that carries no reference data. *)
Definition without_reference_data (r : Row) : Loader.Enriched :=
  {| Loader.base := Loader.with_equity_suffix r;
     Loader.EXPECTED_REPORT_DT := None;
     Loader.EXPECTED_REPORT_TIME := None;
     Loader.EARNING := "None" |}.

End Spec.

(** ** Concrete rows and tables used by the examples *)

Module Examples.
Import Num Frame.

Local Open Scope Q_scope.

Definition blank_sensi : SensiCols :=
  {| SENSI_EQUITY := NaN; CONTRIB_SENSI_EQUITY := NaN;
     SENSI_EQUITY_XCV := NaN; CONTRIB_SENSI_EQUITY_XCV := NaN;
     contrib_modified_duration := None; contrib_effective_duration := None;
     contrib_taux_sensi := None; contrib_credit_sensi := None;
     contrib_implied_spread := None |}.

Definition blank_buckets : BucketCols :=
  {| SENSI_BUCKET := None; Vol_Bucket := None; Maturity_Bucket := None |}.

Definition blank_geo : GeoCols := {| REGION := None; Style := None |}.

(** A position with a name, a security type, a country, the three rating
    fields, a weight, a delta and a premium; every other cell is empty. *)
Definition position (name sec country : option string)
           (sp : option string) (lt : option (option string))
           (internal : option string) (mv delta prem : cell) : Row :=
  {| ident :=
       {| ISIN := None; Long_Name := name; Short_Name := name;
          Sector := None; Cntry_Risk := country; Eqty_Ticker := name;
          Industry_Sector := None; Security_Type := sec;
          Theme := None; Issuer := name |};
     ratings :=
       {| S_P := sp; S_P_LT := lt; Rating := internal;
          S_P_Ajusted := None; Rating_Chiffre := None;
          Credit_Category := None |};
     market :=
       {| Market_Value := mv; Delta := delta; Prem := prem;
          Delta_pct := None; Premium_pct := None;
          Mod_Dur_to_Worst := None; Effective_Duration := None;
          OAD := None; Interest_Sensitivity := None; OAC := None;
          Credit_Sensitivity := None; Implied_Spread := None;
          Implied_Volatility := None; Years_to_Mat := None |};
     sensi := blank_sensi; buckets := blank_buckets; geo := blank_geo |}.

(** A bond known by its rating and weight only. *)
Definition rated (sec sp : string) (mv : Q) : Row :=
  position None (Some sec) None (Some sp) None None (Some mv) None None.

(** A convertible bond whose S&P cell carries a trailing blank. *)
Definition padded_rating : Row := rated "Convertible Bonds" "BBB " 10.

(** A convertible bond rated by another agency's scale. *)
Definition foreign_scale : Row := rated "Convertible Bonds" "Baa2" 10.

(** A cash line that carries a rating. *)
Definition rated_cash : Row := rated "Cash" "AA" 5.



(** A common stock without delta, and a convertible without delta. *)
Definition stock_no_delta : Row :=
  position None (Some "Common Stocks") None None None None
           (Some 2) None (Some 25).
Definition convertible_no_delta : Row :=
  position None (Some "Convertible Bonds") None None None None
           (Some 2) None (Some 25).
Definition convertible_with_delta : Row :=
  position None (Some "Convertible Bonds") None None None None
           (Some 2) (Some (1 # 2)) (Some 25).

(** Three convertibles of 0.004 per cent each. *)
Definition three_small : DataFrame :=
  [ rated "Convertible Bonds" "A" (4 # 1000);
    rated "Convertible Bonds" "A" (4 # 1000);
    rated "Convertible Bonds" "A" (4 # 1000) ].

(** Three convertibles of 50, 30 and 20 per cent. *)
Definition three_weights : DataFrame :=
  [ rated "Convertible Bonds" "A" 30;
    rated "Convertible Bonds" "BB" 50;
    rated "Convertible Bonds" "B" 20 ].

(** Two convertibles with delta 0.5 and no premium: 10 per cent in the
    United States, 20 per cent in Brazil, a country without region. *)
Definition two_countries : DataFrame :=
  [ position (Some "ALPHA") (Some "Convertible Bonds") (Some "US")
             (Some "A") None None (Some 10) (Some (1 # 2)) (Some 0);
    position (Some "BETA") (Some "Convertible Bonds") (Some "BR")
             (Some "BB") None None (Some 20) (Some (1 # 2)) (Some 0) ].

(** A session whose service is open and whose every request raises. *)
Definition failing_session : Loader.Session :=
  {| Loader.service := true;
     Loader.exchange := fun _ _ =>
       Loader.Raised (Loader.Exception "request failed") |}.

(** A state with one table, behind the reference 0. *)
Definition one_table : Store.PyState :=
  {| Store.heap := {[ 0%nat := two_countries ]};
     Store.rating_final := None |}.

End Examples.

(** ** Further tables of the analyzer *)

Module Reports.
Import Text Num Frame Analyzer.

(** [_aggregate_by_sensi_bucket]: "SENSI BUCKET" is categorical;
    [observed] is the default of the group-by. *)
Definition _aggregate_by_sensi_bucket (observed : bool) (df : DataFrame)
  : list AggRow :=
  map round_agg
      (groupby_agg_categorical observed Calculator.labels_equity
         (fun r => SENSI_BUCKET (buckets r)) col_contrib df).

(** [_aggregate_by_vol_bucket] *)
Definition _aggregate_by_vol_bucket (observed : bool) (df : DataFrame)
  : list AggRow :=
  map round_agg
      (groupby_agg_categorical observed Calculator.labels_vol
         (fun r => Vol_Bucket (buckets r)) col_contrib df).

(** A row of the table by theme and name. *)
Record ThemeRow := {
  theme_key : string;
  theme_short_name : option string;
  theme_contrib : fnum
}.

(** [df["CONTRIB SENSI EQUITY"] > 1]; a missing value compares false. *)
Definition above_one (r : Row) : bool := fltb (Fin 1) (col_contrib r).

(** One group of [_aggregate_by_theme_name], sorted by decreasing
    contribution. *)
Definition theme_group (df_filtre : DataFrame) (k : string) : list ThemeRow :=
  map (fun r => {| theme_key := k;
                   theme_short_name := Short_Name (ident r);
                   theme_contrib := fround2 (col_contrib r) |})
      (sort_desc col_contrib (group_rows (fun r => Theme (ident r)) k df_filtre)).

(** [_aggregate_by_theme_name]: the groups follow each other in the order
    of their keys. *)
Definition _aggregate_by_theme_name (df : DataFrame) : list ThemeRow :=
  let df_filtre := List.filter above_one df in
  List.flat_map (theme_group df_filtre)
                (group_keys (fun r => Theme (ident r)) df_filtre).

(** [credit_results['by_issuer']]: the ten largest issuers. *)
Definition credit_by_issuer (df_complete : DataFrame) : list AggRow :=
  firstn 10
    (map round_agg
         (sort_desc agg_sum
            (groupby_agg (fun r => Issuer (ident r)) col_market_value
                         (df_credit_rated df_complete)))).

End Reports.

(** ** The internal ratings file *)

Module Sources.
Import Text Num Frame.

(** A line of the internal ratings file after [pd.to_datetime(...,
    errors="coerce")]: the date is a day number, [None] is NaT. *)
Record RatingLine := {
  line_ISIN : option string;
  line_Rating : option string;
  line_Date : option Z
}.

(** The order of [sort_values("Rating Date")]: increasing dates, NaT
    after every date. *)
Definition date_le (a b : RatingLine) : bool :=
  match line_Date a, line_Date b with
  | Some x, Some y => Z.leb x y
  | _, None => true
  | None, Some _ => false
  end.

(** [df.sort_values("Rating Date")].  Lines that compare equal keep their
    file order here; pandas leaves their order open. *)
Definition sort_by_date (l : list RatingLine) : list RatingLine :=
  Analyzer.sort_by date_le l.

(** Two cells hold the same key; missing keys count as equal, as
    [drop_duplicates] has it. *)
Definition same_key (a b : option string) : bool :=
  match a, b with
  | Some x, Some y => String.eqb x y
  | None, None => true
  | _, _ => false
  end.

(** [df.drop_duplicates("ISIN", keep="last")]: a line stays when no later
    line has its ISIN. *)
Fixpoint drop_duplicates_last (l : list RatingLine) : list RatingLine :=
  match l with
  | [] => []
  | x :: l' =>
      if existsb (fun y => same_key (line_ISIN x) (line_ISIN y)) l'
      then drop_duplicates_last l'
      else x :: drop_duplicates_last l'
  end.

(** [_load_internal_ratings]; [file] is the outcome of [pd.read_excel]
    restricted to the three columns, with the dates converted. *)
Definition _load_internal_ratings (file : Loader.outcome (list RatingLine))
  : Loader.outcome (list RatingLine) :=
  match file with
  | Loader.Ok lines => Loader.Ok (drop_duplicates_last (sort_by_date lines))
  | Loader.Raised e => Loader.Raised e
  end.

End Sources.

(** ** Vocabulary of the further properties *)

Module Facts.
Import Text Num Frame.

Local Open Scope Q_scope.

(** The region and style names of the two lookup tables. *)
Definition region_names : list string :=
  ["Europe"; "America"; "Asia Ex-Jap"; "Others"; "Japan"].
Definition style_names : list string := ["Growth"; "Cyclical"; "Value"].

(** The country codes and the sectors that the tables know. *)
Definition country_codes : list string :=
  ["BE"; "CA"; "CN"; "DE"; "ES"; "FR"; "GB"; "IT"; "KR"; "LU"; "MX"; "NL";
   "NZ"; "TW"; "US"; "EU"; "HK"; "JP"; "CH"].
Definition sector_names : list string :=
  ["Technology"; "HealthCare"; "Communications"; "Basic Materials";
   "Industrial"; "Energy"; "Consumer, Cyclical"; "Financial"; "Utilities";
   "Consumer, Non-cyclical"].

(** The ISINs that [_apply_manual_corrections] rewrites. *)
Definition corrected_isins : list string :=
  ["US06744EDH71"; "US29446YAC03"; "FR001400R1R6"; "FR001400M9F9"].

(** The rank of a row once [_calculate_ratings] has run. *)
Definition rank_of (r : Row) : cell :=
  Rating_Chiffre (ratings (Calculator.ratings_row r)).

(** The bucket columns of a row at the end of [calculate_all_metrics]. *)
Definition final_buckets (r : Row) : BucketCols :=
  buckets (Calculator.all_metrics_row r).

(** The sum of the position counts of an aggregation table. *)
Definition count_total (t : list Analyzer.AggRow) : nat :=
  fold_right (fun a acc => (Analyzer.agg_count a + acc)%nat) 0%nat t.

(** The lines of an ISIN in the ratings file. *)
Definition lines_of (isin : option string) (l : list Sources.RatingLine)
  : list Sources.RatingLine :=
  List.filter (fun x => Sources.same_key (Sources.line_ISIN x) isin) l.

(** [a] is dated no later than [b]; a missing date counts as the latest. *)
Definition not_later (a b : Sources.RatingLine) : Prop :=
  match Sources.line_Date a, Sources.line_Date b with
  | Some x, Some y => (x <= y)%Z
  | None, Some _ => False
  | _, None => True
  end.


(** The table that the calculator returns for the merged table [df]. *)
Definition complete_table (df : DataFrame) : DataFrame :=
  map Calculator.all_metrics_row (map Loader.with_equity_suffix df).

(** The working table of the analyzer. *)
Definition working_table (df : DataFrame) : DataFrame :=
  List.filter (type_isin Loader.analysed_types) (complete_table df).

End Facts.

(** ** Further concrete inputs *)

Module Samples.
Import Num Frame.

Local Open Scope Q_scope.

(** A session that answers every request with a dated entry for ALPHA
    and an entry without field data for GAMMA. *)
Definition answering_session : Loader.Session :=
  {| Loader.service := true;
     Loader.exchange := fun _ _ =>
       Loader.Ok
         [ {| Loader.security := "ALPHA Equity";
              Loader.fieldData :=
                Some {[ "EXPECTED_REPORT_DT" := Loader.AsString "2025-01-30" ]} |};
           {| Loader.security := "GAMMA Equity";
              Loader.fieldData := None |} ] |}.

(** A session that answers every request with a report date for ALPHA
    that reads as a float. *)
Definition float_session : Loader.Session :=
  {| Loader.service := true;
     Loader.exchange := fun _ _ =>
       Loader.Ok
         [ {| Loader.security := "ALPHA Equity";
              Loader.fieldData :=
                Some {[ "EXPECTED_REPORT_DT" := Loader.AsFloat 20250130 ]} |} ] |}.


(** Three lines of the ratings file: two for one ISIN, dated 10 and 20,
    and an undated one for another ISIN. *)
Definition rating_lines : list Sources.RatingLine :=
  [ {| Sources.line_ISIN := Some "XS1"; Sources.line_Rating := Some "BB";
       Sources.line_Date := Some 20%Z |};
    {| Sources.line_ISIN := Some "XS1"; Sources.line_Rating := Some "B";
       Sources.line_Date := Some 10%Z |};
    {| Sources.line_ISIN := Some "XS2"; Sources.line_Rating := Some "A";
       Sources.line_Date := None |} ].

(** A convertible with a theme: delta 0.5, no premium. *)
Definition themed (name theme : option string) (mv : Q) : Row :=
  let base := Examples.position name (Some "Convertible Bonds") None
                                (Some "BB") None None (Some mv)
                                (Some (1 # 2)) (Some 0) in
  {| ident :=
       {| ISIN := None; Long_Name := name; Short_Name := name;
          Sector := None; Cntry_Risk := None; Eqty_Ticker := name;
          Industry_Sector := None;
          Security_Type := Some "Convertible Bonds";
          Theme := theme; Issuer := name |};
     ratings := ratings base; market := market base; sensi := sensi base;
     buckets := buckets base; geo := geo base |}.

(** Two positions on a theme, of 10 and of 1 per cent, and one of 10 per
    cent without theme, after the calculator. *)
Definition themed_table : DataFrame :=
  map Calculator.all_metrics_row
      [ themed (Some "ALPHA") (Some "Cloud") 10;
        themed (Some "BETA") (Some "Cloud") 1;
        themed (Some "GAMMA") None 10 ].

End Samples.

(* ===================================================================== *)
(** * Part II: properties *)
(* ===================================================================== *)

Import Text Num Cut Frame Calculator Spec.

Local Open Scope Q_scope.

(** ** Booleans and comparisons *)

Lemma Qltb_spec (a b : Q) : reflect (a < b)%Q (Qltb a b).
Proof.
  unfold Qltb. destruct (Qle_bool b a) eqn:E; constructor.
  - apply Qle_bool_iff in E. lra.
  - apply Qnot_le_lt. intros Hle. apply Qle_bool_iff in Hle. congruence.
Qed.

Lemma Qleb_spec (a b : Q) : reflect (a <= b)%Q (Qle_bool a b).
Proof.
  destruct (Qle_bool a b) eqn:E; constructor.
  - now apply Qle_bool_iff.
  - intros H. apply Qle_bool_iff in H. congruence.
Qed.

Lemma Qeqb_spec (a b : Q) : reflect (a == b)%Q (Qeq_bool a b).
Proof.
  destruct (Qeq_bool a b) eqn:E; constructor.
  - now apply Qeq_bool_iff.
  - intros H. apply Qeq_bool_iff in H. congruence.
Qed.

Lemma mem_In (x : string) (l : list string) : mem x l = true <-> In x l.
Proof.
  unfold mem. rewrite existsb_exists. split.
  - intros (y & Hy & E). apply String.eqb_eq in E. now subst.
  - intros H. exists x. split; [exact H | apply String.eqb_refl].
Qed.

Lemma mem_not_In (x : string) (l : list string) : mem x l = false <-> ~ In x l.
Proof.
  rewrite <- mem_In. destruct (mem x l); split; congruence.
Qed.

(** ** Rating resolution *)

Lemma is_valid_agrees (v : option string) : _is_valid_rating v = Spec.is_valid v.
Proof. reflexivity. Qed.

Lemma valid_strip_nonempty (s : string) :
  _is_valid_rating (Some s) = true -> strip s <> "".
Proof.
  simpl. intros H E. rewrite E in H. discriminate H.
Qed.

(** The cascade of the code, row by row, is the list search of the
    specification followed by a trim. *)
Lemma assign_rating_first_valid (r : Row) :
  _assign_rating_improved r =
  match Spec.first_valid r with
  | Some v => strip v
  | None => "NR"
  end.
Proof.
  unfold _assign_rating_improved, Spec.first_valid, Spec.cascade.
  change _is_valid_rating with Spec.is_valid.
  destruct (S_P (ratings r)) as [sp|];
    destruct (S_P_LT (ratings r)) as [[lt|]|];
    destruct (Rating (ratings r)) as [rt|];
    cbn [List.find str_strip];
    change (Spec.is_valid None) with false;
    repeat match goal with
           | |- context [Spec.is_valid (Some ?x)] =>
               destruct (Spec.is_valid (Some x))
           end;
    reflexivity.
Qed.

(** C1, as amended.  For every row the resolved rating "S&P Ajusted" is the
    whitespace-trimmed form of the first valid value in the cascade S&P,
    S&P LT Foreign Currency Issuer Credit Rating, internal Rating, and "NR"
    when none is valid; on a row whose security type is "Cash" it is
    "CASH" whatever the rating fields hold. *)
Theorem resolved_rating_cascade (r : Row) :
  sp_ajusted (ratings_row r) = Some (Spec.resolved_rating_trimmed r).
Proof.
  unfold sp_ajusted, ratings_row, Spec.resolved_rating_trimmed. simpl.
  destruct (cell_is (security_type r) "Cash"); [reflexivity|].
  now rewrite assign_rating_first_valid.
Qed.

(** C1 as stated fails: the S&P cell "BBB " (trailing blank) is valid and
    is the first valid value of its row, yet the resolved rating is "BBB",
    not the cell's value. *)
Lemma resolved_rating_not_verbatim :
  Spec.first_valid Examples.padded_rating = Some "BBB " /\
  sp_ajusted (ratings_row Examples.padded_rating) = Some "BBB" /\
  sp_ajusted (ratings_row Examples.padded_rating)
  <> Some (Spec.resolved_rating_as_stated Examples.padded_rating).
Proof.
  split; [reflexivity|]. split; [reflexivity|]. discriminate.
Qed.

(** ** Codomain of the resolved rating *)

Lemma first_valid_passes (r : Row) (v : string) :
  Spec.first_valid r = Some v ->
  In (Some v) (Spec.cascade r) /\ _is_valid_rating (Some v) = true.
Proof.
  unfold Spec.first_valid.
  destruct (List.find Spec.is_valid (Spec.cascade r)) as [w|] eqn:F; [|discriminate].
  intros ->. apply List.find_some in F. exact F.
Qed.

(** C7, as amended.  For every row the resolved rating is a non-empty
    string and is "CASH", "NR", or the trimmed form of one of the row's
    rating cells that passes the validity test; the test rejects the
    sentinels only, it does not compare with the letter grades. *)
Theorem resolved_rating_codomain (r : Row) :
  exists s, sp_ajusted (ratings_row r) = Some s /\ s <> "" /\
            (s = "CASH" \/ s = "NR" \/ passes_validity r s).
Proof.
  exists (Spec.resolved_rating_trimmed r).
  split; [apply resolved_rating_cascade|].
  unfold Spec.resolved_rating_trimmed.
  destruct (cell_is (security_type r) "Cash").
  - split; [discriminate | now left].
  - destruct (Spec.first_valid r) as [v|] eqn:F.
    + apply first_valid_passes in F as [Hin Hv]. split.
      * now apply valid_strip_nonempty.
      * right; right. now exists v.
    + split; [discriminate | right; now left].
Qed.

(** C7 as stated fails: a convertible whose S&P cell holds "Baa2" resolves
    to "Baa2", which is neither a letter grade of the scale nor "NR" nor
    "CASH". *)
Lemma resolved_rating_outside_grades :
  sp_ajusted (ratings_row Examples.foreign_scale) = Some "Baa2" /\
  ~ Spec.in_stated_codomain "Baa2".
Proof.
  split; [reflexivity|].
  intros [_ [H | [H | H]]]; [|discriminate H|discriminate H].
  simpl in H.
  repeat (destruct H as [H | H]; [discriminate H|]). exact H.
Qed.

(** ** Credit category *)

Lemma category_of_unfold (r : Row) :
  exists adj, sp_ajusted (ratings_row r) = Some adj /\
              category_of r = Some (credit_category (security_type r) adj).
Proof.
  unfold category_of, sp_ajusted, ratings_row. simpl. eauto.
Qed.

Lemma cell_is_true (c : option string) (lit : string) :
  cell_is c lit = true <-> c = Some lit.
Proof.
  destruct c as [s|]; simpl; [|split; discriminate].
  rewrite String.eqb_eq. split; congruence.
Qed.

(** C9.  After [_calculate_ratings], "Credit Category" of every row is one
    of "Cash", "Investment Grade", "High Yield", "Not Rated"; a row of
    security type "Cash" is "Cash" whatever its rating; a row whose
    resolved rating is "D" is "Not Rated"; and a row that is not cash and
    whose resolved rating is outside the investment-grade list and is
    neither "NR" nor "D" is "High Yield", whatever that string is. *)
Theorem credit_category_classification (r : Row) (adj : string) :
  sp_ajusted (ratings_row r) = Some adj ->
  (exists c, category_of r = Some c /\ In c credit_categories) /\
  (security_type r = Some "Cash" -> category_of r = Some "Cash") /\
  (adj = "D" -> category_of r = Some "Not Rated") /\
  (security_type r <> Some "Cash" -> ~ In adj ig_ratings ->
   adj <> "NR" -> adj <> "D" -> category_of r = Some "High Yield").
Proof.
  intros Hadj.
  destruct (category_of_unfold r) as (adj' & H1 & Hc).
  rewrite Hadj in H1. injection H1 as <-.
  rewrite Hc. unfold credit_category.
  repeat split.
  - destruct (cell_is (security_type r) "Cash");
      [|destruct (mem adj ig_ratings);
        [|destruct (mem adj ["NR"; "D"])]];
      eexists; (split; [reflexivity|]); simpl; tauto.
  - intros Hs. apply cell_is_true in Hs. now rewrite Hs.
  - intros ->.
    destruct (cell_is (security_type r) "Cash") eqn:Ecash; [|reflexivity].
    exfalso. unfold sp_ajusted, ratings_row in Hadj. simpl in Hadj.
    rewrite Ecash in Hadj. discriminate Hadj.
  - intros Hs Hig Hnr Hd.
    destruct (cell_is (security_type r) "Cash") eqn:Ecash.
    + apply cell_is_true in Ecash. contradiction.
    + apply mem_not_In in Hig. rewrite Hig.
      assert (mem adj ["NR"; "D"] = false) as ->; [|reflexivity].
      apply mem_not_In. simpl. intros [H | [H | H]]; congruence.
Qed.

Lemma credit_category_classification_witness :
  category_of Examples.foreign_scale = Some "High Yield" /\
  category_of Examples.rated_cash = Some "Cash".
Proof.
  split.
  - apply (credit_category_classification Examples.foreign_scale "Baa2");
      [reflexivity | discriminate | | discriminate | discriminate].
    simpl. intros H.
    repeat (destruct H as [H | H]; [discriminate H|]). exact H.
  - apply (credit_category_classification Examples.rated_cash "CASH");
      reflexivity.
Defined.

(** ** Buckets *)

(** Decide every comparison of the goal and leave the arithmetic to [lra]. *)
Ltac split_comparisons :=
  repeat match goal with
         | |- context [Qltb ?a ?b] => destruct (Qltb_spec a b)
         | |- context [Qle_bool ?a ?b] => destruct (Qleb_spec a b)
         | |- context [Qeq_bool ?a ?b] => destruct (Qeqb_spec a b)
         end.

Ltac eval_cut :=
  unfold sensi_bucket, vol_bucket, maturity_bucket, cut,
         bins_equity, bins_vol, bins_mat, labels_equity, labels_vol, labels_mat;
  cbn [searchsorted fltb fleb feqb isna List.hd List.length negb andb orb].

Lemma float_1_1_bounds : (11 # 10 < float_1_1 /\ float_1_1 < 111 # 100)%Q.
Proof. unfold float_1_1. split; reflexivity. Qed.

(** Find the disjunct that holds. *)
Ltac pick_interval :=
  first [ solve [lra]
        | solve [split; [lra | reflexivity]]
        | solve [left; pick_interval]
        | solve [right; pick_interval] ].

Lemma vol_bucket_intervals (q : Q) :
  (q < 20 /\ vol_bucket (Fin q) = Some "<20%") \/
  (20 <= q < 30 /\ vol_bucket (Fin q) = Some "20-30%") \/
  (30 <= q < 40 /\ vol_bucket (Fin q) = Some "30-40%") \/
  (40 <= q /\ vol_bucket (Fin q) = Some ">40%").
Proof. eval_cut. split_comparisons; cbn; pick_interval. Qed.

Lemma maturity_bucket_intervals (q : Q) :
  (q < 1 /\ maturity_bucket (Fin q) = Some "<1 An") \/
  (1 <= q < 3 /\ maturity_bucket (Fin q) = Some "1 à 3 Ans") \/
  (3 <= q < 5 /\ maturity_bucket (Fin q) = Some "3 à 5 Ans") \/
  (5 <= q /\ maturity_bucket (Fin q) = Some ">5 Ans").
Proof. eval_cut. split_comparisons; cbn; pick_interval. Qed.

Lemma sensi_bucket_intervals (q : Q) :
  (q < 0 /\ sensi_bucket (Fin q) = None) \/
  (0 <= q <= 1 # 4 /\ sensi_bucket (Fin q) = Some "Bucket 0-25") \/
  (1 # 4 < q <= 1 # 2 /\ sensi_bucket (Fin q) = Some "Bucket 25-50") \/
  (1 # 2 < q <= 3 # 4 /\ sensi_bucket (Fin q) = Some "Bucket 50-75") \/
  (3 # 4 < q <= float_1_1 /\ sensi_bucket (Fin q) = Some "Bucket 75-100") \/
  (float_1_1 < q /\ sensi_bucket (Fin q) = None).
Proof.
  pose proof float_1_1_bounds as [Hlo Hhi].
  eval_cut. split_comparisons; cbn; pick_interval.
Qed.

(** C2, as amended.  Implied volatility and years to maturity: every
    non-missing value gets exactly one of the four labels of its dimension,
    the intervals are closed on the left and open on the right, so that a
    value on a boundary lands in the higher bucket (volatility 20 is
    "20-30%", 1.0 year is "1 à 3 Ans").  Equity sensitivity: the intervals
    are closed on the right, [0, 0.25], (0.25, 0.50], (0.50, 0.75],
    (0.75, 1.1] with 0 included, so that a value on an inner boundary lands
    in the lower bucket; a value below 0 or above 1.1, or an infinite one,
    gets no label. *)
Theorem bucket_partition (q : Q) :
  ((q < 20 /\ vol_bucket (of_cell (Some q)) = Some "<20%") \/
   (20 <= q < 30 /\ vol_bucket (of_cell (Some q)) = Some "20-30%") \/
   (30 <= q < 40 /\ vol_bucket (of_cell (Some q)) = Some "30-40%") \/
   (40 <= q /\ vol_bucket (of_cell (Some q)) = Some ">40%")) /\
  ((q < 1 /\ maturity_bucket (of_cell (Some q)) = Some "<1 An") \/
   (1 <= q < 3 /\ maturity_bucket (of_cell (Some q)) = Some "1 à 3 Ans") \/
   (3 <= q < 5 /\ maturity_bucket (of_cell (Some q)) = Some "3 à 5 Ans") \/
   (5 <= q /\ maturity_bucket (of_cell (Some q)) = Some ">5 Ans")) /\
  ((q < 0 /\ sensi_bucket (Fin q) = None) \/
   (0 <= q <= 1 # 4 /\ sensi_bucket (Fin q) = Some "Bucket 0-25") \/
   (1 # 4 < q <= 1 # 2 /\ sensi_bucket (Fin q) = Some "Bucket 25-50") \/
   (1 # 2 < q <= 3 # 4 /\ sensi_bucket (Fin q) = Some "Bucket 50-75") \/
   (3 # 4 < q <= float_1_1 /\ sensi_bucket (Fin q) = Some "Bucket 75-100") \/
   (float_1_1 < q /\ sensi_bucket (Fin q) = None)) /\
  sensi_bucket NInf = None /\ sensi_bucket PInf = None /\
  vol_bucket (of_cell (Some 20)) = Some "20-30%" /\
  maturity_bucket (of_cell (Some 1)) = Some "1 à 3 Ans" /\
  sensi_bucket (Fin 0) = Some "Bucket 0-25".
Proof.
  split; [apply vol_bucket_intervals|].
  split; [apply maturity_bucket_intervals|].
  split; [apply sensi_bucket_intervals|].
  repeat split; reflexivity.
Qed.

(** The three bucket columns of [_calculate_buckets] are these functions of
    the row's sensitivity, volatility and maturity. *)
Lemma buckets_row_columns (r : Row) :
  SENSI_BUCKET (buckets (buckets_row r)) = sensi_bucket (SENSI_EQUITY (sensi r)) /\
  Vol_Bucket (buckets (buckets_row r))
  = vol_bucket (of_cell (Implied_Volatility (market r))) /\
  Maturity_Bucket (buckets (buckets_row r))
  = maturity_bucket (of_cell (Years_to_Mat (market r))).
Proof. repeat split; reflexivity. Qed.

(** C2 as stated fails on the sensitivity dimension: 0.25 is labelled
    "Bucket 0-25", where the interval [0.25, 0.50) of the claim gives
    "Bucket 25-50"; and the non-missing value -0.1 gets no label at all. *)
Lemma sensi_bucket_right_closed :
  sensi_bucket (Fin (1 # 4)) = Some "Bucket 0-25" /\
  Spec.sensi_bucket_as_stated (1 # 4) = Some "Bucket 25-50" /\
  sensi_bucket (Fin (1 # 4)) <> Spec.sensi_bucket_as_stated (1 # 4) /\
  sensi_bucket (Fin (- (1 # 10))) = None.
Proof. repeat split; try reflexivity. discriminate. Qed.

(** ** Equity sensitivity *)

Lemma delta_default_lookup (t : string) :
  ~ In t (default_one ++ default_zero) -> delta_par_defaut !! t = None.
Proof.
  intros H. apply not_elem_of_list_to_map_1.
  intros Hin. apply H. apply list_elem_of_In in Hin.
  simpl in Hin. simpl. tauto.
Qed.

(** C4.  [_calculate_sensitivities] sets SENSI EQUITY to
    Delta / (1 + %Prem/100) and CONTRIB SENSI EQUITY to SENSI EQUITY x
    Market Value (%), a missing factor counting as 0.  A missing Delta is
    first replaced by the default of the security type: 1 for Common
    Stocks and Warrants, 0 for Corporate Bonds, Currency Forwards,
    Open-End Funds and Cash.  With no registered default the Delta stays
    missing, the sensitivity is missing and the contribution is 0. *)
Theorem equity_sensitivity (r : Row) :
  sensi_after r
  = cdiv (delta_after r) (option_map (fun p => 1 + p / 100) (Prem (market r))) /\
  contrib_after r = fmulq (fillna0 (sensi_after r)) (cfillna0 (market_value r)) /\
  (forall d p, delta_after r = Some d -> Prem (market r) = Some p ->
               ~ 1 + p / 100 == 0 ->
               sensi_after r = Fin (d / (1 + p / 100))) /\
  (forall s m, sensi_after r = Fin s -> market_value r = Some m ->
               contrib_after r = Fin (s * m)) /\
  (forall d, Delta (market r) = Some d -> delta_after r = Some d) /\
  (Delta (market r) = None -> type_in r default_one -> delta_after r = Some 1) /\
  (Delta (market r) = None -> type_in r default_zero -> delta_after r = Some 0) /\
  (Delta (market r) = None ->
   (forall t, security_type r = Some t -> ~ In t (default_one ++ default_zero)) ->
   delta_after r = None /\ sensi_after r = NaN /\ feq (contrib_after r) (Fin 0)).
Proof.
  unfold sensi_after, contrib_after, delta_after, sensitivities_row,
         sensi_equity, contrib_sensi, market_value.
  cbn [market sensi Delta SENSI_EQUITY CONTRIB_SENSI_EQUITY Market_Value Prem].
  split; [reflexivity|]. split; [reflexivity|].
  split; [|split; [|split; [|split; [|split]]]].
  - intros d p -> ->. cbn [option_map cdiv]. intros Hnz.
    destruct (Qeqb_spec (1 + p / 100) 0); [contradiction | reflexivity].
  - intros s m -> ->. reflexivity.
  - intros d ->. reflexivity.
  - intros -> (t & -> & Hin). cbn [delta_or_default map_dict].
    simpl in Hin. destruct Hin as [<- | [<- | []]]; reflexivity.
  - intros -> (t & -> & Hin). cbn [delta_or_default map_dict].
    simpl in Hin. destruct Hin as [<- | [<- | [<- | [<- | []]]]]; reflexivity.
  - intros -> Hnone. cbn [delta_or_default].
    assert (map_dict delta_par_defaut (security_type r) = None) as ->.
    { destruct (security_type r) as [t|]; [|reflexivity].
      apply delta_default_lookup. now apply Hnone. }
    cbn [cdiv fillna0 fmulq feq]. repeat split; try lra.
Qed.

Lemma equity_sensitivity_witness :
  delta_after Examples.stock_no_delta = Some 1 /\
  sensi_after Examples.stock_no_delta = Fin (1 / (1 + 25 / 100)) /\
  contrib_after Examples.stock_no_delta = Fin (1 / (1 + 25 / 100) * 2) /\
  delta_after Examples.convertible_with_delta = Some (1 # 2) /\
  delta_after Examples.convertible_no_delta = None /\
  sensi_after Examples.convertible_no_delta = NaN /\
  feq (contrib_after Examples.convertible_no_delta) (Fin 0).
Proof.
  destruct (equity_sensitivity Examples.stock_no_delta)
    as (_ & _ & Hs & Hc & _ & H1 & _ & _).
  destruct (equity_sensitivity Examples.convertible_with_delta)
    as (_ & _ & _ & _ & Hd & _ & _ & _).
  destruct (equity_sensitivity Examples.convertible_no_delta)
    as (_ & _ & _ & _ & _ & _ & _ & Hn).
  assert (D1 : delta_after Examples.stock_no_delta = Some 1).
  { apply H1; [reflexivity|]. exists "Common Stocks". split; [reflexivity|].
    simpl. tauto. }
  assert (S1 : sensi_after Examples.stock_no_delta = Fin (1 / (1 + 25 / 100))).
  { apply Hs; [exact D1 | reflexivity | discriminate]. }
  split; [exact D1|]. split; [exact S1|].
  split; [apply Hc; [exact S1 | reflexivity]|].
  split; [apply Hd; reflexivity|].
  apply Hn; [reflexivity|].
  intros t Ht. injection Ht as <-. simpl.
  intros H. repeat (destruct H as [H | H]; [discriminate H|]). exact H.
Defined.

(** ** Fund rating rollup *)

Lemma fold_left_Qplus (l : list Q) (a : Q) :
  fold_left Qplus l a == a + fold_left Qplus l 0.
Proof.
  revert a. induction l as [|x l IH]; intros a; simpl.
  - ring.
  - rewrite (IH (a + x)), (IH (0 + x)). ring.
Qed.

Lemma csum_cons (c : cell) (l : list cell) :
  csum (c :: l) == cfillna0 c + csum l.
Proof.
  unfold csum. simpl. rewrite fold_left_Qplus. ring.
Qed.

Lemma rating_chiffre_sum (rows : list Row) :
  csum (map contrib_rating_chiffre rows) == contribution_sum rows.
Proof.
  induction rows as [|r rows IH]; [reflexivity|].
  cbn [map]. rewrite csum_cons, IH. cbn [contribution_sum fold_right].
  fold (contribution_sum rows). generalize (contribution_sum rows) as c.
  intros c. unfold contrib_rating_chiffre, rank_and_weight, market_value.
  destruct (Rating_Chiffre (ratings r)) as [k|];
    destruct (Market_Value (market r)) as [w|]; cbn; ring.
Qed.

Lemma py_min_from_first_min (key : Z -> Q) (xs : list Z) :
  forall (l : list Z) (b : Z),
    first_min key l b -> first_min key (l ++ xs)%list (py_min_from key b xs).
Proof.
  induction xs as [|a xs IH]; intros l b H; cbn [py_min_from].
  - now rewrite app_nil_r.
  - replace (l ++ a :: xs)%list with ((l ++ [a]) ++ xs)%list
      by (rewrite <- app_assoc; reflexivity).
    apply IH. destruct H as (pre & post & -> & Hpre & Hpost).
    destruct (Qltb_spec (key a) (key b)) as [Hlt | Hge].
    + exists (pre ++ b :: post)%list, []. split; [reflexivity|]. split.
      * intros x Hx. apply in_app_or in Hx as [Hx | [<- | Hx]].
        -- specialize (Hpre x Hx). lra.
        -- exact Hlt.
        -- specialize (Hpost x Hx). lra.
      * intros x [].
    + exists pre, (post ++ [a])%list. split.
      * rewrite <- app_assoc. reflexivity.
      * split; [exact Hpre|].
        intros x Hx. apply in_app_or in Hx as [Hx | [<- | []]].
        -- now apply Hpost.
        -- lra.
Qed.

Lemma strongly_sorted_split (pre post : list Z) (m : Z) :
  StronglySorted Z.lt (pre ++ m :: post)%list ->
  forall x, In x post -> (m < x)%Z.
Proof.
  induction pre as [|y pre IH]; cbn [app]; intros H x Hx.
  - apply StronglySorted_inv in H as [_ H].
    rewrite List.Forall_forall in H. now apply H.
  - apply StronglySorted_inv in H as [H _]. now apply IH.
Qed.

Lemma rank_keys : map fst number_to_sp_rating = ranks.
Proof. reflexivity. Qed.

Lemma ranks_sorted : StronglySorted Z.lt ranks.
Proof. unfold ranks. repeat constructor. Qed.

Lemma ranks_range (k : Z) : In k ranks <-> (1 <= k <= 22)%Z.
Proof. unfold ranks. simpl. lia. Qed.

Lemma rating_of_rank (n : Z) :
  In n ranks ->
  exists g, rating_of_number n = Some g /\ In (g, n) sp_rating_to_number.
Proof.
  unfold ranks. simpl In at 1. intros H.
  repeat (destruct H as [<- | H];
          [eexists; split; [reflexivity|];
           unfold sp_rating_to_number;
           repeat (first [left; reflexivity | right])|]).
  destruct H.
Qed.

Lemma closest_number_first_min (rc : Q) :
  exists n, closest_number rc = Some n /\ first_min (distance rc) ranks n.
Proof.
  unfold closest_number. change (map fst number_to_sp_rating) with ranks.
  unfold ranks at 1. eexists. split; [reflexivity|].
  apply (py_min_from_first_min (distance rc) _ [1%Z] 1%Z).
  exists [], []. split; [reflexivity|]. split; intros x [].
Qed.







(** ** Sorting and selection *)

Section Sorting.
Context {A : Type}.
Variable le : A -> A -> bool.

Lemma insert_by_perm (x : A) (l : list A) :
  Permutation (Analyzer.insert_by le x l) (x :: l).
Proof.
  induction l as [|y l IH]; cbn [Analyzer.insert_by]; [reflexivity|].
  destruct (le x y); [reflexivity|].
  rewrite IH. apply perm_swap.
Qed.

Lemma sort_by_perm (l : list A) : Permutation (Analyzer.sort_by le l) l.
Proof.
  induction l as [|x l IH]; [reflexivity|].
  cbn [Analyzer.sort_by fold_right]. fold (Analyzer.sort_by le l).
  rewrite insert_by_perm. now constructor.
Qed.

(** The order is total and transitive on the elements that satisfy [P]. *)
Variable P : A -> Prop.
Hypothesis le_total : forall x y, P x -> P y -> le x y = false -> le y x = true.
Hypothesis le_trans :
  forall x y z, le x y = true -> le y z = true -> le x z = true.

Lemma insert_by_sorted (x : A) (l : list A) :
  P x -> List.Forall P l ->
  StronglySorted (fun a b => le a b = true) l ->
  StronglySorted (fun a b => le a b = true) (Analyzer.insert_by le x l).
Proof.
  intros Px Pl S. induction S as [|y l S IH Hy]; cbn [Analyzer.insert_by].
  - constructor; constructor.
  - apply List.Forall_cons_iff in Pl as [Py Pl].
    destruct (le x y) eqn:E.
    + constructor; [now constructor|].
      constructor; [exact E|].
      rewrite List.Forall_forall in Hy |- *.
      intros z Hz. apply (le_trans x y z E). now apply Hy.
    + constructor; [now apply IH|].
      rewrite List.Forall_forall in Hy |- *.
      intros z Hz.
      apply (Permutation_in _ (insert_by_perm x l)) in Hz as [<- | Hz].
      * now apply le_total.
      * now apply Hy.
Qed.

Lemma sort_by_sorted (l : list A) :
  List.Forall P l ->
  StronglySorted (fun a b => le a b = true) (Analyzer.sort_by le l).
Proof.
  induction l as [|x l IH]; intros Pl; [constructor|].
  apply List.Forall_cons_iff in Pl as [Px Pl].
  cbn [Analyzer.sort_by fold_right]. fold (Analyzer.sort_by le l).
  apply insert_by_sorted; [exact Px | | now apply IH].
  rewrite List.Forall_forall in Pl |- *. intros z Hz.
  apply Pl. now apply (Permutation_in _ (sort_by_perm l)).
Qed.

End Sorting.

Lemma strongly_sorted_impl {A} (R R' : A -> A -> Prop) (l : list A) :
  (forall x y, R x y -> R' x y) -> StronglySorted R l -> StronglySorted R' l.
Proof.
  intros H S. induction S as [|x l S IH Hx]; constructor; [exact IH|].
  rewrite List.Forall_forall in Hx |- *. intros y Hy. now apply H, Hx.
Qed.

Lemma strongly_sorted_app {A} (R : A -> A -> Prop) (l1 l2 : list A) :
  StronglySorted R l1 -> StronglySorted R l2 ->
  (forall x y, In x l1 -> In y l2 -> R x y) ->
  StronglySorted R (l1 ++ l2)%list.
Proof.
  intros S1 S2 H. induction S1 as [|x l S IH Hx]; cbn [app]; [exact S2|].
  constructor.
  - apply IH. intros a b Ha Hb. apply H; [now right | exact Hb].
  - rewrite List.Forall_forall in Hx |- *. intros y Hy.
    apply in_app_or in Hy as [Hy | Hy]; [now apply Hx|].
    apply H; [now left | exact Hy].
Qed.

Lemma strongly_sorted_app_inv {A} (R : A -> A -> Prop) (l1 l2 : list A) :
  StronglySorted R (l1 ++ l2)%list ->
  forall x y, In x l1 -> In y l2 -> R x y.
Proof.
  induction l1 as [|a l1 IH]; cbn [app]; intros S x y Hx Hy; [destruct Hx|].
  apply StronglySorted_inv in S as [S Ha]. destruct Hx as [<- | Hx].
  - rewrite List.Forall_forall in Ha. apply Ha. apply in_or_app. now right.
  - now apply IH.
Qed.

Lemma fleb_total (x y : fnum) :
  isna x = false -> isna y = false -> fleb x y = false -> fleb y x = true.
Proof.
  destruct x, y; cbn; try congruence.
  intros _ _. destruct (Qleb_spec q q0), (Qleb_spec q0 q); try reflexivity;
    intros; try discriminate; lra.
Qed.

Lemma fleb_trans (x y z : fnum) :
  fleb x y = true -> fleb y z = true -> fleb x z = true.
Proof.
  destruct x, y, z; cbn; try congruence.
  destruct (Qleb_spec q q0), (Qleb_spec q0 q1), (Qleb_spec q q1);
    try reflexivity; intros; try discriminate; lra.
Qed.

Lemma filter_perm_split {A} (f : A -> bool) (l : list A) :
  Permutation (List.filter (fun a => negb (f a)) l ++ List.filter f l)%list l.
Proof.
  induction l as [|x l IH]; [reflexivity|].
  cbn [List.filter]. destruct (f x); cbn [negb app].
  - rewrite <- Permutation_middle. now constructor.
  - now constructor.
Qed.

Lemma sort_desc_perm {A} (col : A -> fnum) (l : list A) :
  Permutation (Analyzer.sort_desc col l) l.
Proof.
  unfold Analyzer.sort_desc. rewrite sort_by_perm.
  apply (filter_perm_split (fun a => isna (col a))).
Qed.

Lemma sort_desc_sorted {A} (col : A -> fnum) (l : list A) :
  StronglySorted (Analyzer.desc_rel col) (Analyzer.sort_desc col l).
Proof.
  unfold Analyzer.sort_desc. apply strongly_sorted_app.
  - apply (strongly_sorted_impl (fun a b => fleb (col b) (col a) = true)).
    { intros x y H. now right. }
    apply (sort_by_sorted _ (fun a => isna (col a) = false)).
    + intros x y Hx Hy. now apply fleb_total.
    + intros x y z Hxy Hyz. now apply (fleb_trans _ (col y)).
    + rewrite List.Forall_forall. intros x Hx.
      apply List.filter_In in Hx as [_ Hx]. now apply negb_true_iff in Hx.
  - induction l as [|x l IH]; cbn [List.filter]; [constructor|].
    destruct (isna (col x)) eqn:E; [|exact IH].
    constructor; [exact IH|].
    rewrite List.Forall_forall. intros y Hy.
    apply List.filter_In in Hy as [_ Hy]. now left.
  - intros x y _ Hy. apply List.filter_In in Hy as [_ Hy]. now left.
Qed.

(** The rows that [nlargest] leaves out come after the selected ones in
    decreasing order: each has a missing value or a value not larger than
    that of every selected row. *)
Lemma nlargest_dominates {A} (n : nat) (col : A -> fnum) (l : list A) :
  forall x y, In x (Analyzer.nlargest n col l) ->
              In y (skipn n (Analyzer.sort_desc col l)) ->
              Analyzer.desc_rel col x y.
Proof.
  unfold Analyzer.nlargest. intros x y Hx Hy.
  apply (strongly_sorted_app_inv _ (firstn n (Analyzer.sort_desc col l))
                                 (skipn n (Analyzer.sort_desc col l)));
    [|exact Hx | exact Hy].
  rewrite firstn_skipn. apply sort_desc_sorted.
Qed.

(** ** Top-N tables *)

Lemma top_table_shape (col : Row -> fnum) (sel : list Row) :
  let top_10 := map (Analyzer.project col) sel in
  map Analyzer.round_row (top_10 ++ [Analyzer.total_row top_10])%list
  = (map (fun r => Analyzer.round_row (Analyzer.project col r)) sel
     ++ [total_of (fround2 (fsum (map col sel)))])%list.
Proof.
  cbn zeta. rewrite List.map_app, List.map_map. f_equal.
  cbn [map]. unfold Analyzer.total_row, Analyzer.round_row, total_of.
  cbn [Analyzer.top_value Analyzer.top_long_name Analyzer.top_short_name].
  now rewrite List.map_map.
Qed.

Lemma shown_total_last (rows : list Analyzer.TopRow) (t : Analyzer.TopRow) :
  shown_total (rows ++ [t])%list = Analyzer.top_value t.
Proof.
  unfold shown_total. rewrite List.map_app. cbn [map].
  now rewrite List.last_last.
Qed.

(** C5, as amended.  Both top-N tables end with a "TOTAL" row whose value
    is the sum of the values of exactly the selected rows, rounded to two
    decimals like every value of the table; the selected rows are the first
    N rows in decreasing order of the column (all rows when there are fewer
    than N), so that every row left out has a missing value or a value not
    larger than that of any selected row.  The rows that were not selected
    do not enter the total. *)
Theorem top_n_total (N : nat) (df : DataFrame) :
  let holdings := Analyzer.top_holdings_rows N df in
  let contributors := Analyzer.top_contributors_rows N df in
  let eligible := List.filter (type_isin Analyzer.types_autorises) df in
  shown_total (Analyzer._get_top_holdings N df)
  = fround2 (fsum (map Analyzer.col_market_value holdings)) /\
  shown_total (Analyzer._get_top_contributors N df)
  = fround2 (fsum (map Analyzer.col_contrib contributors)) /\
  shown_rows (Analyzer._get_top_holdings N df)
  = map (fun r => Analyzer.round_row (Analyzer.project Analyzer.col_market_value r))
        holdings /\
  shown_rows (Analyzer._get_top_contributors N df)
  = map (fun r => Analyzer.round_row (Analyzer.project Analyzer.col_contrib r))
        contributors /\
  List.length holdings = Nat.min N (List.length eligible) /\
  List.length contributors = Nat.min N (List.length df) /\
  Permutation (holdings ++ skipn N (Analyzer.sort_desc Analyzer.col_market_value eligible))%list
              eligible /\
  Permutation (contributors ++ skipn N (Analyzer.sort_desc Analyzer.col_contrib df))%list
              df /\
  (forall x y, In x holdings ->
               In y (skipn N (Analyzer.sort_desc Analyzer.col_market_value eligible)) ->
               Analyzer.desc_rel Analyzer.col_market_value x y) /\
  (forall x y, In x contributors ->
               In y (skipn N (Analyzer.sort_desc Analyzer.col_contrib df)) ->
               Analyzer.desc_rel Analyzer.col_contrib x y).
Proof.
  intros holdings contributors eligible.
  unfold Analyzer._get_top_holdings, Analyzer._get_top_contributors.
  fold holdings. fold contributors. cbn zeta. rewrite !top_table_shape.
  unfold shown_rows. rewrite !shown_total_last, !List.removelast_last.
  repeat split; try reflexivity.
  - unfold holdings, Analyzer.top_holdings_rows, Analyzer.nlargest.
    fold eligible. rewrite List.length_firstn.
    now rewrite (Permutation_length (sort_desc_perm _ eligible)).
  - unfold contributors, Analyzer.top_contributors_rows, Analyzer.nlargest.
    rewrite List.length_firstn.
    now rewrite (Permutation_length (sort_desc_perm _ df)).
  - unfold holdings, Analyzer.top_holdings_rows, Analyzer.nlargest.
    fold eligible. rewrite firstn_skipn. apply sort_desc_perm.
  - unfold contributors, Analyzer.top_contributors_rows, Analyzer.nlargest.
    rewrite firstn_skipn. apply sort_desc_perm.
  - apply nlargest_dominates.
  - apply nlargest_dominates.
Qed.

(** With N = 2 the table of the weights 30, 50, 20 shows 50, 30 and the
    total 80; the full table sums to 100. *)
Lemma top_n_total_witness :
  map Analyzer.top_value (Analyzer._get_top_holdings 2 Examples.three_weights)
  = [Fin (inject_Z 5000 / 100); Fin (inject_Z 3000 / 100);
     Fin (inject_Z 8000 / 100)] /\
  feq (fsum (map Analyzer.col_market_value Examples.three_weights)) (Fin 100) /\
  Analyzer.desc_rel Analyzer.col_market_value
    (Examples.rated "Convertible Bonds" "A" 30)
    (Examples.rated "Convertible Bonds" "B" 20).
Proof.
  split; [vm_compute; reflexivity|]. split; [vm_compute; reflexivity|].
  destruct (top_n_total 2 Examples.three_weights)
    as (_ & _ & _ & _ & _ & _ & _ & _ & H & _).
  apply H; vm_compute; tauto.
Defined.

(** C5 as stated fails: for three rows of 0.004 each and N = 3 the table
    shows three values 0.00 and the total 0.01, which is neither the sum
    0.012 of the values of the selected rows nor the sum 0 of the values
    shown. *)
Lemma top_total_is_rounded :
  let t := Analyzer._get_top_holdings 3 Examples.three_small in
  Analyzer.top_holdings_rows 3 Examples.three_small = Examples.three_small /\
  feq (shown_total t) (Fin (1 # 100)) /\
  feq (fsum (map Analyzer.col_market_value
                 (Analyzer.top_holdings_rows 3 Examples.three_small)))
      (Fin (12 # 1000)) /\
  feq (fsum (map Analyzer.top_value (shown_rows t))) (Fin 0) /\
  ~ feq (shown_total t)
        (fsum (map Analyzer.col_market_value
                   (Analyzer.top_holdings_rows 3 Examples.three_small))) /\
  ~ feq (shown_total t) (fsum (map Analyzer.top_value (shown_rows t))).
Proof.
  cbn zeta. split; [vm_compute; reflexivity|].
  repeat split; vm_compute; try reflexivity; intros H; discriminate H.
Qed.

(** ** Group-by aggregation *)










Lemma group_keys_NoDup (key : Row -> option string) (df : DataFrame) :
  List.NoDup (Analyzer.group_keys key df).
Proof.
  unfold Analyzer.group_keys.
  apply (Permutation_NoDup (Permutation_sym (sort_by_perm _ _))).
  apply NoDup_ListNoDup, NoDup_remove_dups.
Qed.

Lemma group_keys_In (key : Row -> option string) (df : DataFrame) (k : string) :
  In k (Analyzer.group_keys key df) <-> exists r, In r df /\ key r = Some k.
Proof.
  unfold Analyzer.group_keys. split.
  - intros H. apply (Permutation_in _ (sort_by_perm _ _)) in H.
    apply list_elem_of_In, elem_of_remove_dups, list_elem_of_omap in H
      as (r & Hr & E).
    exists r. split; [now apply list_elem_of_In | exact E].
  - intros (r & Hr & E).
    apply (Permutation_in _ (Permutation_sym (sort_by_perm _ _))).
    apply list_elem_of_In, elem_of_remove_dups, list_elem_of_omap.
    exists r. split; [now apply list_elem_of_In | exact E].
Qed.




(** Every label that [_calculate_maturity_buckets] writes is a category of
    the maturity column, so the rows counted by the maturity table are the
    rows with a bucket. *)
Lemma maturity_rows_keyed (df : DataFrame) :
  List.filter (key_in (fun r => Maturity_Bucket (buckets r)) labels_mat)
              (map maturity_row df)
  = keyed (fun r => Maturity_Bucket (buckets r)) (map maturity_row df).
Proof.
  unfold keyed. apply List.filter_ext_in. intros r Hr.
  apply List.in_map_iff in Hr as (r0 & <- & _).
  unfold key_in, maturity_row. cbn [buckets Maturity_Bucket].
  destruct (if cell_is (security_type r0) "Cash" then Some (3 # 1000)
            else Years_to_Mat (market r0)) as [q|]; [|reflexivity].
  cbn [of_cell].
  destruct (maturity_bucket_intervals q) as [[_ ->] | [[_ ->] | [[_ ->] | [_ ->]]]];
    reflexivity.
Qed.

(** The rows whose key is an observed category are the rows whose key is
    a category. *)
Lemma observed_rows (observed : bool) (key : Row -> option string)
      (categories : list string) (df : DataFrame) :
  List.filter
    (key_in key (List.filter (fun c => negb observed || Analyzer.occurs key df c)
                             categories)) df
  = List.filter (key_in key categories) df.
Proof.
  apply List.filter_ext_in. intros r Hr. unfold key_in.
  destruct (key r) as [k|] eqn:E; [|reflexivity].
  apply eq_true_iff_eq. rewrite !mem_In, List.filter_In.
  split; [now intros [H _] | intros H; split; [exact H|]].
  apply orb_true_iff. right. unfold Analyzer.occurs.
  apply existsb_exists. exists r. split; [exact Hr|].
  rewrite E. cbn. apply String.eqb_refl.
Qed.





(** ** The calculator works on a copy *)

Lemma rating_final_defined (df : DataFrame) :
  exists g, rating_final_of df = Some g.
Proof.
  unfold rating_final_of.
  destruct (closest_number_first_min (rating_chiffre df)) as (n & Hn & Hmin).
  rewrite Hn.
  destruct (rating_of_rank n) as (g & Hg & _); [|now exists g].
  destruct Hmin as (pre & post & E & _). rewrite E.
  apply in_or_app. right. now left.
Qed.

Section InPlace.
Import Store.

Variables (new : loc) (h : gmap loc DataFrame) (final : option string).

(** A state in which the object behind [new] holds the rows [X]. *)
Let at_new (X : DataFrame) (r : option string) : PyState :=
  {| heap := <[new := X]> h; rating_final := r |}.

Lemma assign_rows_at (f : Row -> Row) (X : DataFrame) :
  assign_rows new f (at_new X final) = Some (tt, at_new (map f X) final).
Proof.
  unfold assign_rows, at_new. cbn [heap rating_final].
  now rewrite lookup_insert_eq, insert_insert_eq.
Qed.

Lemma read_at (X : DataFrame) (r : option string) :
  read new (at_new X r) = Some (X, at_new X r).
Proof.
  unfold read, at_new. cbn [heap]. now rewrite lookup_insert_eq.
Qed.

(** A stage that assigns columns and returns its argument. *)
Lemma assign_stage_at (f : Row -> Row) (X : DataFrame) :
  (assign_rows new f ;;; ret new) (at_new X final)
  = Some (new, at_new (map f X) final).
Proof. unfold bind. now rewrite assign_rows_at. Qed.

Lemma calculate_ratings_at (X : DataFrame) :
  exists g, rating_final_of (map ratings_row X) = Some g /\
            _calculate_ratings new (at_new X final)
            = Some (new, at_new (map ratings_row X) (Some g)).
Proof.
  destruct (rating_final_defined (map ratings_row X)) as [g Hg].
  exists g. split; [exact Hg|].
  unfold _calculate_ratings, bind.
  rewrite assign_rows_at, read_at, Hg. reflexivity.
Qed.

Lemma calculate_asset_at (X : DataFrame) (r : option string) :
  _calculate_asset new (at_new X r) = Some (new, at_new X r).
Proof. unfold _calculate_asset, bind. now rewrite read_at. Qed.

End InPlace.

(** Without the copy a stage changes the table it is given: the object
    behind its argument holds the new columns afterwards. *)
Lemma stage_mutates_its_argument (st : Store.PyState) (df : Store.loc)
      (rows : DataFrame) :
  Store.heap st !! df = Some rows ->
  exists st', Store._calculate_sensitivities df st = Some (df, st') /\
              Store.heap st' !! df = Some (map sensitivities_row rows).
Proof.
  intros H. eexists. split.
  - unfold Store._calculate_sensitivities, Store.bind, Store.assign_rows.
    rewrite H. reflexivity.
  - cbn [Store.heap]. apply lookup_insert_eq.
Qed.

(** [calculate_all_metrics] runs to the end on every table: the result is
    the reference made by [df.copy()], and the only object written is the
    one behind it. *)
Lemma calculate_all_metrics_run (st : Store.PyState) (df : Store.loc)
      (rows : DataFrame) :
  Store.heap st !! df = Some rows ->
  exists g,
    Store.calculate_all_metrics df st
    = Some (fresh (dom (Store.heap st)),
            {| Store.heap := <[fresh (dom (Store.heap st))
                               := map all_metrics_row rows]> (Store.heap st);
               Store.rating_final := Some g |}).
Proof.
  intros H.
  set (new := fresh (dom (Store.heap st))).
  destruct (calculate_ratings_at new (Store.heap st) (Store.rating_final st)
              (map corrections_row rows)) as (g & _ & Hr).
  exists g.
  unfold Store.calculate_all_metrics.
  unfold Store.bind at 1. unfold Store.df_copy. rewrite H. fold new.
  unfold Store.bind at 1. unfold Store._apply_manual_corrections.
  rewrite assign_stage_at.
  unfold Store.bind at 1. rewrite Hr.
  unfold Store.bind at 1. unfold Store._calculate_sensitivities.
  rewrite assign_stage_at.
  unfold Store.bind at 1. unfold Store._calculate_buckets.
  rewrite assign_stage_at.
  unfold Store.bind at 1. unfold Store._calculate_regions.
  rewrite assign_stage_at.
  unfold Store.bind at 1. rewrite calculate_asset_at.
  unfold Store.bind at 1. unfold Store._calculate_style.
  rewrite assign_stage_at.
  unfold Store.bind at 1. unfold Store._calculate_maturity_buckets.
  rewrite assign_stage_at.
  unfold Store.bind, Store.ret. rewrite !List.map_map. reflexivity.
Qed.

(** C10.  [calculate_all_metrics] copies its input before any
    transformation: it returns a new table, different from the input, that
    holds the metrics of the input rows; the object behind the input holds
    the same rows as before, and so does every other table. *)
Theorem input_table_not_mutated (st : Store.PyState) (df : Store.loc)
        (rows : DataFrame) :
  Store.heap st !! df = Some rows ->
  exists out st',
    Store.calculate_all_metrics df st = Some (out, st') /\
    out <> df /\
    Store.heap st !! out = None /\
    Store.heap st' !! df = Some rows /\
    Store.heap st' !! out = Some (map all_metrics_row rows) /\
    (forall l, l <> out -> Store.heap st' !! l = Store.heap st !! l).
Proof.
  intros H.
  destruct (calculate_all_metrics_run st df rows H) as [g Hrun].
  assert (Hnew : Store.heap st !! fresh (dom (Store.heap st)) = None)
    by (apply not_elem_of_dom, is_fresh).
  assert (Hne : fresh (dom (Store.heap st)) <> df).
  { intros E. rewrite E in Hnew. congruence. }
  eexists. eexists. split; [exact Hrun|].
  split; [exact Hne|]. split; [exact Hnew|].
  cbn [Store.heap]. split; [|split].
  - rewrite lookup_insert_ne; [exact H | exact Hne].
  - apply lookup_insert_eq.
  - intros l Hl. rewrite lookup_insert_ne; [reflexivity|].
    intros E. apply Hl. now rewrite E.
Qed.

Lemma input_table_not_mutated_witness :
  exists out st',
    Store.calculate_all_metrics 0%nat Examples.one_table = Some (out, st') /\
    out <> 0%nat /\
    Store.heap st' !! 0%nat = Some Examples.two_countries /\
    Store.heap st' !! out = Some (map all_metrics_row Examples.two_countries).
Proof.
  destruct (input_table_not_mutated Examples.one_table 0%nat
              Examples.two_countries)
    as (out & st' & Hrun & Hne & _ & Hin & Hout & _); [reflexivity|].
  exists out, st'. repeat split; assumption.
Defined.

(** ** A failed reference-data call *)

Lemma fetch_failure_is_empty (s : Loader.Session) (tickers fields : list string) :
  (forall securities fs, exists e,
      Loader.exchange s securities fs = Loader.Raised e) ->
  Loader.fetch_batch_data s tickers fields = ∅.
Proof.
  intros Hfail. unfold Loader.fetch_batch_data.
  destruct (negb (Loader.service s) || Nat.eqb (List.length tickers) 0);
    [reflexivity|].
  destruct (Hfail (Loader.request_securities tickers) fields) as [e ->].
  reflexivity.
Qed.

Lemma lookup_field_empty (field : string) (x : option string) :
  Loader.lookup_field ∅ field x = None.
Proof.
  unfold Loader.lookup_field. destruct x as [t|]; [|reflexivity].
  now rewrite lookup_empty.
Qed.

(** A column without any value keeps its None cells, which print as
    "None". *)
Lemma na_text_no_value (infer_string : bool) (col : list (option Loader.bvalue)) :
  (forall v, In v col -> v = None) ->
  Loader.na_text infer_string col = "None".
Proof.
  intros H. unfold Loader.na_text.
  assert (Hf : Loader.holds_float col = false).
  { apply not_true_is_false. unfold Loader.holds_float.
    rewrite existsb_exists. intros (v & Hv & E).
    rewrite (H v Hv) in E. discriminate E. }
  assert (Hs : Loader.holds_string col = false).
  { apply not_true_is_false. unfold Loader.holds_string.
    rewrite existsb_exists. intros (v & Hv & E).
    rewrite (H v Hv) in E. discriminate E. }
  rewrite Hf, Hs. cbn. now rewrite andb_false_r.
Qed.

Lemma enrich_after_failure (float_str : Q -> string) (infer_string : bool)
      (s : Loader.Session) (df : DataFrame) :
  call_fails s ->
  Loader.tickers_to_fetch (map Loader.with_equity_suffix df) <> [] ->
  Loader._enrich_with_bloomberg_data float_str infer_string s df
  = Loader.Ok (map without_reference_data df).
Proof.
  intros [_ Hfail] Hne. unfold Loader._enrich_with_bloomberg_data.
  destruct (Loader.tickers_to_fetch (map Loader.with_equity_suffix df))
    as [|t ts] eqn:E; [contradiction|].
  cbn [List.length Nat.ltb Nat.leb].
  rewrite fetch_failure_is_empty by exact Hfail.
  rewrite na_text_no_value.
  - f_equal. rewrite List.map_map. apply List.map_ext. intros r.
    now rewrite !lookup_field_empty.
  - intros v Hv. apply List.in_map_iff in Hv as (r & <- & _).
    apply lookup_field_empty.
Qed.

(** C8, as amended.  When the batch reference-data call fails, the fetcher
    returns an empty mapping (its handler logs the error and does not
    raise); the enrichment goes on with that mapping, every row gets
    missing report fields and the EARNING text "None", and the analysis run
    ends with results: the failure is absorbed, not fatal.  This holds at
    either setting of the two pandas defaults. *)
Theorem failed_fetch_is_absorbed (float_str : Q -> string)
        (infer_string observed : bool) (top_holdings : nat)
        (s : Loader.Session) (df : DataFrame) :
  call_fails s ->
  Loader.tickers_to_fetch (map Loader.with_equity_suffix df) <> [] ->
  (forall tickers fields, Loader.fetch_batch_data s tickers fields = ∅) /\
  Loader._enrich_with_bloomberg_data float_str infer_string s df
  = Loader.Ok (map without_reference_data df) /\
  exists results,
    Loader.run_full_analysis float_str infer_string observed top_holdings s
                             (Loader.Ok df)
    = Loader.Ok results.
Proof.
  intros Hfail Hne. split; [|split].
  - intros tickers fields. apply fetch_failure_is_empty. apply Hfail.
  - now apply enrich_after_failure.
  - unfold Loader.run_full_analysis, Loader.load_portfolio_data.
    cbn [Loader.obind].
    rewrite (enrich_after_failure float_str infer_string s df Hfail Hne).
    cbn [Loader.obind].
    destruct (calculate_all_metrics_run
                {| Store.heap := {[ 0%nat := map Loader.base
                                               (map without_reference_data df) ]};
                   Store.rating_final := None |} 0%nat
                (map Loader.base (map without_reference_data df)))
      as (g & Hrun).
    { cbn [Store.heap]. apply lookup_singleton_eq. }
    rewrite Hrun. cbn [Store.heap]. rewrite lookup_insert_eq.
    eexists. reflexivity.
Qed.

Lemma failed_fetch_is_absorbed_witness :
  Loader._enrich_with_bloomberg_data (fun _ => "") false
                                     Examples.failing_session
                                     Examples.two_countries
  = Loader.Ok (map without_reference_data Examples.two_countries) /\
  exists results,
    Loader.run_full_analysis (fun _ => "") false false 10
                             Examples.failing_session
                             (Loader.Ok Examples.two_countries)
    = Loader.Ok results.
Proof.
  apply (failed_fetch_is_absorbed (fun _ => "") false false 10
                                  Examples.failing_session
                                  Examples.two_countries).
  - split; [reflexivity|]. intros securities fields. eexists. reflexivity.
  - vm_compute. discriminate.
Defined.

(** C8 as stated fails: with a session whose every request raises, the run
    over a table of two convertibles does not abort; it returns results,
    and no exception reaches the caller, at either setting of the two
    pandas defaults. *)
Lemma failed_fetch_does_not_abort :
  call_fails Examples.failing_session /\
  Loader.tickers_to_fetch (map Loader.with_equity_suffix Examples.two_countries)
  = ["ALPHA Equity"; "BETA Equity"] /\
  (forall infer_string observed,
      exists results,
        Loader.run_full_analysis (fun _ => "") infer_string observed 10
                                 Examples.failing_session
                                 (Loader.Ok Examples.two_countries)
        = Loader.Ok results) /\
  (forall infer_string observed,
      ~ (exists e,
            Loader.run_full_analysis (fun _ => "") infer_string observed 10
                                     Examples.failing_session
                                     (Loader.Ok Examples.two_countries)
            = Loader.Raised e)).
Proof.
  assert (Hfail : call_fails Examples.failing_session).
  { split; [reflexivity|]. intros securities fields. eexists. reflexivity. }
  assert (Hok : forall infer_string observed, exists results,
             Loader.run_full_analysis (fun _ => "") infer_string observed 10
                                      Examples.failing_session
                                      (Loader.Ok Examples.two_countries)
             = Loader.Ok results).
  { intros infer_string observed.
    unfold Loader.run_full_analysis, Loader.load_portfolio_data.
    cbn [Loader.obind].
    rewrite (enrich_after_failure _ _ _ _ Hfail)
      by (vm_compute; discriminate).
    cbn [Loader.obind].
    destruct (calculate_all_metrics_run
                {| Store.heap := {[ 0%nat := map Loader.base
                     (map without_reference_data Examples.two_countries) ]};
                   Store.rating_final := None |} 0%nat
                (map Loader.base
                     (map without_reference_data Examples.two_countries)))
      as (g & Hrun).
    { cbn [Store.heap]. apply lookup_singleton_eq. }
    rewrite Hrun. cbn [Store.heap]. rewrite lookup_insert_eq.
    eexists. reflexivity. }
  split; [exact Hfail|]. split; [vm_compute; reflexivity|].
  split; [exact Hok|].
  intros infer_string observed [e He].
  destruct (Hok infer_string observed) as [results Hr].
  rewrite Hr in He. discriminate He.
Qed.

(* ===================================================================== *)
(** * Part III: further properties of the code *)
(* ===================================================================== *)

Import Facts.

(** ** Trimming and upper-casing *)

Lemma lstrip_head (s t : string) (c : ascii) :
  lstrip s = String c t -> is_space c = false.
Proof.
  induction s as [|d s IH]; cbn [lstrip]; [discriminate|].
  destruct (is_space d) eqn:E; [exact IH|].
  intros H. injection H as <- _. exact E.
Qed.

Lemma rstrip_cons (c : ascii) (s : string) :
  is_space c = false -> rstrip (String c s) = String c (rstrip s).
Proof.
  intros E. cbn [rstrip]. rewrite E. now destruct (rstrip s).
Qed.

Lemma rstrip_step (c : ascii) (s : string) :
  rstrip (String c s)
  = match rstrip s with
    | EmptyString => if is_space c then EmptyString else String c EmptyString
    | t => String c t
    end.
Proof. reflexivity. Qed.

Lemma rstrip_idem (s : string) : rstrip (rstrip s) = rstrip s.
Proof.
  induction s as [|c s IH]; [reflexivity|].
  rewrite rstrip_step. destruct (rstrip s) as [|d t] eqn:E.
  - destruct (is_space c) eqn:Ec; [reflexivity|].
    rewrite rstrip_step. cbn [rstrip]. now rewrite Ec.
  - rewrite rstrip_step, IH. reflexivity.
Qed.

Lemma strip_idem (s : string) : strip (strip s) = strip s.
Proof.
  unfold strip. destruct (lstrip s) as [|c t] eqn:E; [reflexivity|].
  pose proof (lstrip_head s t c E) as Hc.
  rewrite (rstrip_cons c t Hc). cbn [lstrip]. rewrite Hc.
  rewrite (rstrip_cons c _ Hc). now rewrite rstrip_idem.
Qed.

Lemma is_space_upper (c : ascii) : is_space (upper_char c) = is_space c.
Proof.
  destruct c as [[] [] [] [] [] [] [] []]; reflexivity.
Qed.

Lemma upper_char_idem (c : ascii) : upper_char (upper_char c) = upper_char c.
Proof.
  destruct c as [[] [] [] [] [] [] [] []]; reflexivity.
Qed.

Lemma upper_idem (s : string) : upper (upper s) = upper s.
Proof.
  induction s as [|c s IH]; [reflexivity|].
  cbn [upper]. now rewrite upper_char_idem, IH.
Qed.

Lemma lstrip_upper (s : string) : lstrip (upper s) = upper (lstrip s).
Proof.
  induction s as [|c s IH]; [reflexivity|].
  cbn [upper lstrip]. rewrite is_space_upper.
  destruct (is_space c); [exact IH | reflexivity].
Qed.

Lemma rstrip_upper (s : string) : rstrip (upper s) = upper (rstrip s).
Proof.
  induction s as [|c s IH]; [reflexivity|].
  cbn [upper rstrip]. rewrite IH, is_space_upper.
  destruct (rstrip s); cbn [upper]; [destruct (is_space c)|]; reflexivity.
Qed.

Lemma strip_upper (s : string) : strip (upper s) = upper (strip s).
Proof. unfold strip. now rewrite lstrip_upper, rstrip_upper. Qed.

Lemma rstrip_pad (s : string) : rstrip (s ++ " ") = rstrip s.
Proof.
  induction s as [|c s IH]; [reflexivity|].
  change (String c s ++ " ") with (String c (s ++ " ")).
  now rewrite !rstrip_step, IH.
Qed.

Lemma strip_pad (s : string) : strip (" " ++ s ++ " ") = strip s.
Proof.
  unfold strip. change (" " ++ s ++ " ") with (String " " (s ++ " ")).
  cbn [lstrip]. change (is_space " ") with true. cbn iota.
  induction s as [|c s IH]; [reflexivity|].
  change (String c s ++ " ") with (String c (s ++ " ")).
  cbn [lstrip]. destruct (is_space c); [exact IH|].
  apply (rstrip_pad (String c s)).
Qed.

(** X1.  The validity test of a rating looks at the trimmed, upper-cased
    text only: padding a value with blanks or changing its case never
    changes whether it is valid. *)
Theorem validity_ignores_case_and_padding (s : string) :
  _is_valid_rating (Some (strip s)) = _is_valid_rating (Some s) /\
  _is_valid_rating (Some (upper s)) = _is_valid_rating (Some s) /\
  _is_valid_rating (Some (" " ++ s ++ " ")) = _is_valid_rating (Some s).
Proof.
  unfold _is_valid_rating. split; [|split].
  - now rewrite strip_idem.
  - now rewrite strip_upper, upper_idem.
  - now rewrite strip_pad.
Qed.

(** X2.  The resolved rating never starts or ends with a blank, whatever
    the rating cells hold: trimming it again changes nothing. *)
Theorem resolved_rating_is_trimmed (r : Row) (s : string) :
  sp_ajusted (ratings_row r) = Some s -> strip s = s.
Proof.
  unfold sp_ajusted, ratings_row. cbn [ratings S_P_Ajusted].
  intros H. injection H as <-.
  destruct (cell_is (security_type r) "Cash"); [reflexivity|].
  rewrite assign_rating_first_valid.
  destruct (first_valid r); [apply strip_idem | reflexivity].
Qed.

Lemma resolved_rating_is_trimmed_witness :
  sp_ajusted (ratings_row Examples.padded_rating) = Some "BBB" /\
  strip "BBB" = "BBB".
Proof.
  split; [reflexivity|].
  apply (resolved_rating_is_trimmed Examples.padded_rating "BBB").
  reflexivity.
Defined.

(** ** Regions and styles *)

Lemma region_lookup (c : string) :
  (In c country_codes ->
   exists g, pays_vers_region !! c = Some g /\ In g region_names) /\
  (~ In c country_codes -> pays_vers_region !! c = None).
Proof.
  split.
  - unfold country_codes. intros H.
    repeat (destruct H as [<- | H];
            [eexists; split; [vm_compute; reflexivity|];
             unfold region_names; simpl; tauto|]).
    destruct H.
  - intros H. apply not_elem_of_list_to_map_1.
    intros Hin. apply H. apply list_elem_of_In in Hin. exact Hin.
Qed.

Lemma style_lookup (c : string) :
  (In c sector_names ->
   exists g, Sector_vers_Style !! c = Some g /\ In g style_names) /\
  (~ In c sector_names -> Sector_vers_Style !! c = None).
Proof.
  split.
  - unfold sector_names. intros H.
    repeat (destruct H as [<- | H];
            [eexists; split; [vm_compute; reflexivity|];
             unfold style_names; simpl; tauto|]).
    destruct H.
  - intros H. apply not_elem_of_list_to_map_1.
    intros Hin. apply H. apply list_elem_of_In in Hin. exact Hin.
Qed.

(** X3.  [_calculate_regions] and [_calculate_style] never invent a label:
    REGION is one of the five region names and is present exactly when the
    country code is one of the nineteen codes of the table, compared as
    written; Style is one of Growth, Cyclical, Value and is present exactly
    when the sector is one of the ten sectors of the table.  Any other
    code, and a missing one, gives a missing value. *)
Theorem region_and_style_mapping (r : Row) :
  (forall g, REGION (geo (regions_row r)) = Some g ->
             In g region_names /\
             exists c, Cntry_Risk (ident r) = Some c /\ In c country_codes) /\
  (REGION (geo (regions_row r)) = None <->
   forall c, Cntry_Risk (ident r) = Some c -> ~ In c country_codes) /\
  (forall g, Style (geo (style_row r)) = Some g ->
             In g style_names /\
             exists c, Industry_Sector (ident r) = Some c /\ In c sector_names) /\
  (Style (geo (style_row r)) = None <->
   forall c, Industry_Sector (ident r) = Some c -> ~ In c sector_names).
Proof.
  unfold regions_row, style_row. cbn [geo REGION Style]. unfold map_dict.
  split; [|split; [|split]].
  - destruct (Cntry_Risk (ident r)) as [c|]; [|discriminate].
    intros g Hg. destruct (in_dec string_dec c country_codes) as [Hin | Hout].
    + destruct (proj1 (region_lookup c) Hin) as (g' & E & Hg').
      rewrite E in Hg. injection Hg as <-. split; [exact Hg' | now exists c].
    + rewrite (proj2 (region_lookup c) Hout) in Hg. discriminate Hg.
  - destruct (Cntry_Risk (ident r)) as [c|].
    + split.
      * intros Hn c' E Hin. injection E as <-.
        destruct (proj1 (region_lookup c) Hin) as (g & E & _). congruence.
      * intros H. apply region_lookup. now apply H.
    + split; [intros _ c E; discriminate E | reflexivity].
  - destruct (Industry_Sector (ident r)) as [c|]; [|discriminate].
    intros g Hg. destruct (in_dec string_dec c sector_names) as [Hin | Hout].
    + destruct (proj1 (style_lookup c) Hin) as (g' & E & Hg').
      rewrite E in Hg. injection Hg as <-. split; [exact Hg' | now exists c].
    + rewrite (proj2 (style_lookup c) Hout) in Hg. discriminate Hg.
  - destruct (Industry_Sector (ident r)) as [c|].
    + split.
      * intros Hn c' E Hin. injection E as <-.
        destruct (proj1 (style_lookup c) Hin) as (g & E & _). congruence.
      * intros H. apply style_lookup. now apply H.
    + split; [intros _ c E; discriminate E | reflexivity].
Qed.

(** A convertible in the United States, and the same with the code in
    lower case. *)
Lemma region_and_style_mapping_witness :
  In "America" region_names /\
  REGION (geo (regions_row
                 (Examples.position None None (Some "us") None None None
                                    None None None))) = None.
Proof.
  split.
  - destruct (region_and_style_mapping
                (Examples.position None None (Some "US") None None None
                                   None None None)) as (H & _).
    apply (H "America"). vm_compute. reflexivity.
  - destruct (region_and_style_mapping
                (Examples.position None None (Some "us") None None None
                                   None None None)) as (_ & H & _).
    apply H. intros c E. injection E as <-. simpl.
    intros Hin. repeat (destruct Hin as [Hin | Hin]; [discriminate Hin|]).
    exact Hin.
Defined.

(** ** Manual corrections *)

(** X4.  [_apply_manual_corrections] is idempotent, and a row whose ISIN
    is none of the four corrected ISINs (or is missing) is left exactly as
    it is; no row changes its ISIN, security type, ratings or numbers. *)
Theorem corrections_idempotent (r : Row) :
  corrections_row (corrections_row r) = corrections_row r /\
  ((forall s, ISIN (ident r) = Some s -> ~ In s corrected_isins) ->
   corrections_row r = r) /\
  ISIN (ident (corrections_row r)) = ISIN (ident r) /\
  security_type (corrections_row r) = security_type r /\
  ratings (corrections_row r) = ratings r /\
  market (corrections_row r) = market r.
Proof.
  split; [|split; [|repeat split]].
  - unfold corrections_row. cbn [ident ISIN Short_Name Sector Cntry_Risk
      Eqty_Ticker Long_Name Industry_Sector Security_Type Theme Issuer
      ratings market sensi buckets geo].
    destruct (cell_is (ISIN (ident r)) "US06744EDH71"),
             (cell_is (ISIN (ident r)) "US29446YAC03"),
             (match ISIN (ident r) with
              | Some s => mem s ["FR001400R1R6"; "FR001400M9F9"]
              | None => false
              end); reflexivity.
  - intros H. destruct r as [i rt m se b g]. destruct i as [isin ln sn sec cn et ins st th iss].
    unfold corrections_row. cbn [ident ISIN Short_Name Sector Cntry_Risk
      Eqty_Ticker Long_Name Industry_Sector Security_Type Theme Issuer
      ratings market sensi buckets geo] in *.
    destruct isin as [s|]; [|reflexivity].
    specialize (H s eq_refl). unfold corrected_isins in H. cbn [In] in H.
    unfold cell_is, mem. cbn [existsb].
    destruct (String.eqb_spec s "US06744EDH71") as [-> | _]; [exfalso; tauto|].
    destruct (String.eqb_spec s "US29446YAC03") as [-> | _]; [exfalso; tauto|].
    destruct (String.eqb_spec s "FR001400R1R6") as [-> | _]; [exfalso; tauto|].
    destruct (String.eqb_spec s "FR001400M9F9") as [-> | _]; [exfalso; tauto|].
    reflexivity.
Qed.

Lemma corrections_idempotent_witness :
  corrections_row Examples.padded_rating = Examples.padded_rating.
Proof.
  destruct (corrections_idempotent Examples.padded_rating) as (_ & H & _).
  apply H. intros s E. discriminate E.
Defined.

(** ** Ranks and grades *)

Lemma rating_number_grade (g : string) (q : Q) :
  rating_number g = Some q ->
  exists n, q = inject_Z n /\ In (g, n) sp_rating_to_number.
Proof.
  unfold rating_number, sp_rating_to_number. cbn [List.find fst snd].
  repeat (match goal with
          | |- context [String.eqb ?a g] =>
              destruct (String.eqb_spec a g) as [<- | _]
          end;
          [cbn; intros H; injection H as <-; eexists;
           split; [reflexivity|];
           repeat (first [left; reflexivity | right])|]).
  discriminate.
Qed.

Lemma grade_of_table (g : string) (n : Z) :
  In (g, n) sp_rating_to_number ->
  rating_number g = Some (inject_Z n) /\ rating_of_number n = Some g.
Proof.
  unfold sp_rating_to_number. intros H.
  repeat (destruct H as [H | H];
          [injection H as <- <-; split; reflexivity|]).
  destruct H.
Qed.

Lemma rating_of_number_grade (n : Z) (g : string) :
  rating_of_number n = Some g -> In (g, n) sp_rating_to_number.
Proof.
  unfold rating_of_number.
  set (l := number_to_sp_rating). vm_compute in l. subst l.
  cbn [List.find fst snd].
  repeat (match goal with
          | |- context [Z.eqb ?a n] =>
              destruct (Z.eqb_spec a n) as [<- | _]
          end;
          [cbn; intros H; injection H as <-;
           unfold sp_rating_to_number;
           repeat (first [left; reflexivity | right])|]).
  discriminate.
Qed.

(** X5.  The two rank tables are inverse to each other: a resolved rating
    has the rank [n] exactly when the grade looked up for [n] is that
    rating; the ranks run from 1 to 22, and a rating outside the scale
    (such as "NR", "CASH", "AAA-" or a lower-case grade) has no rank. *)
Theorem rank_round_trip (g : string) (n : Z) :
  (rating_number g = Some (inject_Z n) <-> rating_of_number n = Some g) /\
  (rating_of_number n = Some g -> (1 <= n <= 22)%Z) /\
  (forall q, rating_number g = Some q -> exists m, q = inject_Z m /\
                                                   rating_of_number m = Some g).
Proof.
  split; [split|split].
  - intros H. apply rating_number_grade in H as (m & E & Hin).
    assert (m = n) as <-.
    { unfold inject_Z in E. injection E as E. congruence. }
    now apply grade_of_table.
  - intros H. now apply grade_of_table, rating_of_number_grade.
  - intros H. apply rating_of_number_grade in H.
    unfold sp_rating_to_number in H.
    repeat (destruct H as [H | H]; [injection H as <- <-; lia|]).
    destruct H.
  - intros q H. apply rating_number_grade in H as (m & E & Hin).
    exists m. split; [exact E | now apply grade_of_table].
Qed.

Lemma rank_round_trip_witness :
  rating_of_number 9 = Some "BBB" /\ (1 <= 9 <= 22)%Z /\
  rating_number "AAA-" = None /\ rating_number "bbb" = None.
Proof.
  destruct (rank_round_trip "BBB" 9) as ((H & _) & Hr & _).
  split; [apply H; reflexivity|].
  split; [apply Hr, H; reflexivity|].
  split; reflexivity.
Defined.

(** Closed comparisons of rationals, as goals or as absurd hypotheses. *)
Ltac closed_Q :=
  first
    [ reflexivity
    | discriminate
    | apply Qle_bool_iff; vm_compute; reflexivity
    | apply Qeq_bool_iff; vm_compute; reflexivity
    | match goal with
      | H : _ /\ _ |- _ => destruct H; closed_Q
      | H : (_ <= _)%Q |- _ => apply Qle_bool_iff in H; vm_compute in H; discriminate H
      | H : (_ == _)%Q |- _ => apply Qeq_bool_iff in H; vm_compute in H; discriminate H
      end ].

(** X6.  Credit category and rank agree on every row that has a rank:
    such a row is never "Cash"; it is "Investment Grade" exactly for the
    ranks 1 to 10, "High Yield" for 11 to 21 and "Not Rated" for 22. *)
Theorem category_follows_rank (r : Row) (k : Q) :
  rank_of r = Some k ->
  category_of r <> Some "Cash" /\
  (category_of r = Some "Investment Grade" <-> k <= 10) /\
  (category_of r = Some "High Yield" <-> 11 <= k <= 21) /\
  (category_of r = Some "Not Rated" <-> k == 22).
Proof.
  unfold rank_of, category_of, ratings_row.
  cbn [ratings Rating_Chiffre Credit_Category].
  destruct (cell_is (security_type r) "Cash") eqn:Ecash.
  - intros H. discriminate H.
  - generalize (_assign_rating_improved r) as a. intros a H.
    apply rating_number_grade in H as (n & -> & Hin).
    unfold credit_category. rewrite Ecash.
    unfold sp_rating_to_number in Hin.
    repeat (destruct Hin as [Hin | Hin];
            [injection Hin as <- <-; cbn;
             repeat split; intros; repeat split; closed_Q|]).
    destruct Hin.
Qed.

Lemma category_follows_rank_witness :
  rank_of Examples.foreign_scale = None /\
  rank_of (Examples.rated "Corporate Bonds" "BB+" 10) = Some 11 /\
  category_of (Examples.rated "Corporate Bonds" "BB+" 10) = Some "High Yield".
Proof.
  split; [reflexivity|]. split; [reflexivity|].
  destruct (category_follows_rank (Examples.rated "Corporate Bonds" "BB+" 10) 11)
    as (_ & _ & H & _); [reflexivity|].
  apply H. split; vm_compute; discriminate.
Defined.

(** ** The rank nearest to a sum *)

Lemma abs_cases (x : Q) :
  (0 <= x /\ Qabs x == x) \/ (x <= 0 /\ Qabs x == - x).
Proof.
  apply (Qabs_case x (fun a => (0 <= x /\ a == x) \/ (x <= 0 /\ a == - x))).
  - intros H. left. split; [exact H | reflexivity].
  - intros H. right. split; [exact H | reflexivity].
Qed.

Lemma inject_Z_shift (n k : Z) :
  (n + 1 <= k)%Z -> inject_Z n + 1 <= inject_Z k.
Proof.
  intros H. rewrite Zle_Qle, inject_Z_plus in H. exact H.
Qed.

Lemma inject_Z_pred (k : Z) : inject_Z (k - 1) == inject_Z k - 1.
Proof. unfold Z.sub. rewrite inject_Z_plus. reflexivity. Qed.

Lemma inject_Z_succ (k : Z) : inject_Z (k + 1) == inject_Z k + 1.
Proof. rewrite inject_Z_plus. reflexivity. Qed.

(** The rank returned is nearest to the sum, and the lowest of the nearest
    ranks. *)
Lemma closest_number_nearest (rc : Q) :
  exists n, closest_number rc = Some n /\ (1 <= n <= 22)%Z /\
            (forall k, (1 <= k <= 22)%Z -> distance rc n <= distance rc k) /\
            (forall k, (1 <= k <= 22)%Z ->
                       distance rc k == distance rc n -> (n <= k)%Z).
Proof.
  destruct (closest_number_first_min rc) as (n & Hn & pre & post & E & Hpre & Hpost).
  exists n. split; [exact Hn|]. split.
  { apply ranks_range. rewrite E. apply in_or_app. right. now left. }
  split.
  - intros k Hk. apply ranks_range in Hk. rewrite E in Hk.
    apply in_app_or in Hk as [Hk | [<- | Hk]].
    + specialize (Hpre k Hk). lra.
    + lra.
    + now apply Hpost.
  - intros k Hk Htie. apply ranks_range in Hk. rewrite E in Hk.
    apply in_app_or in Hk as [Hk | [<- | Hk]].
    + specialize (Hpre k Hk). lra.
    + lia.
    + pose proof ranks_sorted as S. rewrite E in S.
      pose proof (strongly_sorted_split pre post n S k Hk). lia.
Qed.

(** Both distances of a comparison, split by sign. *)
Ltac split_distances n k rc :=
  unfold distance in *;
  destruct (abs_cases (inject_Z n - rc)) as [[? ?] | [? ?]];
  destruct (abs_cases (inject_Z k - rc)) as [[? ?] | [? ?]].

Lemma closest_number_in_interval (rc : Q) (k : Z) :
  (1 <= k <= 22)%Z ->
  (k = 1%Z \/ inject_Z k - (1 # 2) < rc) ->
  (k = 22%Z \/ rc <= inject_Z k + (1 # 2)) ->
  closest_number rc = Some k.
Proof.
  intros Hk Hlo Hhi.
  destruct (closest_number_nearest rc) as (n & Hn & Hrange & Hnear & Htie).
  rewrite Hn. f_equal.
  specialize (Hnear k Hk). specialize (Htie k Hk).
  destruct (Z.lt_trichotomy n k) as [Hlt | [Heq | Hgt]]; [|exact Heq|].
  - exfalso. destruct Hlo as [-> | Hlo]; [lia|].
    assert (Hs := inject_Z_shift n k ltac:(lia)).
    split_distances n k rc; lra.
  - exfalso. destruct Hhi as [-> | Hhi]; [lia|].
    assert (Hs := inject_Z_shift k n ltac:(lia)).
    assert (distance rc k == distance rc n -> False) as Hne
        by (intros Ht; specialize (Htie Ht); lia).
    apply Hne. split_distances n k rc; lra.
Qed.

Lemma closest_number_interval_inv (rc : Q) (k : Z) :
  closest_number rc = Some k ->
  (1 <= k <= 22)%Z /\
  (k = 1%Z \/ inject_Z k - (1 # 2) < rc) /\
  (k = 22%Z \/ rc <= inject_Z k + (1 # 2)).
Proof.
  intros H.
  destruct (closest_number_nearest rc) as (n & Hn & Hrange & Hnear & Htie).
  rewrite Hn in H. injection H as ->.
  split; [exact Hrange|]. split.
  - destruct (Z.eq_dec k 1%Z) as [-> | Hk]; [now left | right].
    assert (Hj : (1 <= k - 1 <= 22)%Z) by lia.
    pose proof (Hnear _ Hj) as H1. pose proof (Htie _ Hj) as H2.
    assert (Hs := inject_Z_pred k).
    assert (~ distance rc (k - 1)%Z == distance rc k) as Hne
        by (intros Ht; specialize (H2 Ht); lia).
    apply Qnot_le_lt. intros Hle. apply Hne.
    split_distances k (k - 1)%Z rc; lra.
  - destruct (Z.eq_dec k 22%Z) as [-> | Hk]; [now left | right].
    assert (Hj : (1 <= k + 1 <= 22)%Z) by lia.
    pose proof (Hnear _ Hj) as H1.
    assert (Hs := inject_Z_succ k).
    split_distances k (k + 1)%Z rc; lra.
Qed.

(** X7.  [closest_number] rounds the weighted sum to a rank with halves
    going down, and clamps it to the scale: the result is [k] exactly when
    the sum lies in (k - 1/2, k + 1/2], the lowest interval being
    unbounded below (rank 1) and the highest unbounded above (rank 22). *)
Theorem closest_number_rounds_half_down (rc : Q) (k : Z) :
  closest_number rc = Some k <->
  (1 <= k <= 22)%Z /\
  (k = 1%Z \/ inject_Z k - (1 # 2) < rc) /\
  (k = 22%Z \/ rc <= inject_Z k + (1 # 2)).
Proof.
  split.
  - apply closest_number_interval_inv.
  - intros (Hk & Hlo & Hhi). now apply closest_number_in_interval.
Qed.

(** A sum of exactly 9.5 gives rank 9; 9.51 gives 10; 40 gives 22. *)
Lemma closest_number_rounds_half_down_witness :
  closest_number (19 # 2) = Some 9%Z /\
  closest_number (951 # 100) = Some 10%Z /\
  closest_number 40 = Some 22%Z.
Proof.
  split; [|split]; apply closest_number_rounds_half_down.
  - split; [lia|]. split; right; vm_compute; [reflexivity | discriminate].
  - split; [lia|]. split; right; vm_compute; [reflexivity | discriminate].
  - split; [lia|]. split; [right; vm_compute; reflexivity | now left].
Defined.

(** ** The fund rating *)

Lemma contribution_sum_cons (r : Row) (rows : list Row) :
  contribution_sum (r :: rows)
  == match rank_and_weight r with
     | Some (k, w) => k * w / 100
     | None => 0
     end + contribution_sum rows.
Proof.
  cbn [contribution_sum fold_right]. fold (contribution_sum rows).
  destruct (rank_and_weight r) as [[k w]|]; ring.
Qed.

Lemma rating_chiffre_contributions (df : DataFrame) :
  rating_chiffre df
  == contribution_sum (List.filter (type_isin bond_types) df).
Proof. apply rating_chiffre_sum. Qed.

(** X8.  A table without rated bonds gets the best grade: when no row of
    the bond types has both a rank and a weight (no bond at all, an empty
    table, or bonds that all resolve to "NR"), the weighted sum is 0 and
    the fund rating is "AAA". *)
Theorem fund_rating_without_rated_bonds (df : DataFrame) :
  (forall r, In r df -> type_isin bond_types r = true ->
             rank_of r = None \/ market_value r = None) ->
  rating_chiffre (ratings_frame df) == 0 /\
  rating_final_of (ratings_frame df) = Some "AAA".
Proof.
  intros H.
  assert (Hz : rating_chiffre (ratings_frame df) == 0).
  { rewrite rating_chiffre_contributions. unfold ratings_frame.
    induction df as [|r df IH]; [reflexivity|].
    cbn [map List.filter].
    change (type_isin bond_types (ratings_row r)) with (type_isin bond_types r).
    assert (IH' := IH (fun r' Hr' => H r' (or_intror Hr'))).
    destruct (type_isin bond_types r) eqn:Eb; [|exact IH'].
    rewrite contribution_sum_cons, IH'.
    change (rank_and_weight (ratings_row r))
      with (match rank_of r, market_value r with
            | Some k, Some w => Some (k, w)
            | _, _ => None
            end).
    destruct (H r (or_introl eq_refl) Eb) as [-> | ->];
      [|destruct (rank_of r)]; ring. }
  split; [exact Hz|].
  unfold rating_final_of.
  rewrite (closest_number_in_interval _ 1%Z); [reflexivity | lia | now left |].
  right. rewrite Hz. vm_compute. discriminate.
Qed.

Lemma fund_rating_without_rated_bonds_witness :
  rating_final_of (ratings_frame []) = Some "AAA" /\
  rating_final_of
    (ratings_frame [Examples.rated "Convertible Bonds" "NR" 60;
                    Examples.rated "Common Stocks" "B" 40]) = Some "AAA".
Proof.
  split.
  - apply (fund_rating_without_rated_bonds []). intros r [].
  - apply (fund_rating_without_rated_bonds
             [Examples.rated "Convertible Bonds" "NR" 60;
              Examples.rated "Common Stocks" "B" 40]).
    intros r [<- | [<- | []]] Hb; [now left | discriminate Hb].
Defined.

(** ** The stages of the calculator, composed *)

(** Reduce the stages and the projections, sharing the common parts. *)
Ltac reduce_stages :=
  lazy beta iota zeta delta
    [all_metrics_row maturity_row style_row regions_row buckets_row
     sensitivities_row ratings_row corrections_row not_convertible
     ident ratings market sensi buckets geo
     ISIN Long_Name Short_Name Sector Cntry_Risk Eqty_Ticker
     Industry_Sector Security_Type Theme Issuer
     S_P S_P_LT Rating S_P_Ajusted Rating_Chiffre Credit_Category
     Market_Value Delta Prem Delta_pct Premium_pct Mod_Dur_to_Worst
     Effective_Duration OAD Interest_Sensitivity OAC Credit_Sensitivity
     Implied_Spread Implied_Volatility Years_to_Mat
     SENSI_EQUITY CONTRIB_SENSI_EQUITY SENSI_EQUITY_XCV
     CONTRIB_SENSI_EQUITY_XCV contrib_modified_duration
     contrib_effective_duration contrib_taux_sensi contrib_credit_sensi
     contrib_implied_spread SENSI_BUCKET Vol_Bucket Maturity_Bucket
     REGION Style security_type market_value sp_ajusted].

Lemma delta_or_default_idem (sec : option string) (d : cell) :
  delta_or_default sec (delta_or_default sec d) = delta_or_default sec d.
Proof.
  unfold delta_or_default. destruct d as [q|]; [reflexivity|].
  destruct (map_dict delta_par_defaut sec) as [q|] eqn:E; cbn; now rewrite ?E.
Qed.

(** X10.  Running the metric stages twice gives the same table as running
    them once: the row function of [calculate_all_metrics] is idempotent,
    the columns it overwrites (Delta, Effective Duration, the
    sensitivities, Years to Mat) included. *)
Theorem all_metrics_idempotent (r : Row) :
  all_metrics_row (all_metrics_row r) = all_metrics_row r.
Proof.
  destruct r as [[isin ln sn sec cn et ins st th iss] [sp lt rt adj rc cc]
                 [mv d p dp pp md ed oad isn oac csn imp iv ytm] s b g].
  reduce_stages.
  rewrite !delta_or_default_idem.
  destruct (cell_is st "Cash"), (cell_is st "Convertible Bonds"),
    (cell_is isin "US06744EDH71"), (cell_is isin "US29446YAC03"),
    (match isin with
     | Some s => mem s ["FR001400R1R6"; "FR001400M9F9"]
     | None => false
     end); reflexivity.
Qed.

(** The bucket columns at the end of the pipeline, from the source
    columns. *)
Lemma final_bucket_columns (r : Row) :
  SENSI_BUCKET (final_buckets r)
  = sensi_bucket (sensi_equity (delta_or_default (security_type r)
                                                 (Delta (market r)))
                               (Prem (market r))) /\
  Vol_Bucket (final_buckets r)
  = vol_bucket (of_cell (Implied_Volatility (market r))) /\
  Maturity_Bucket (final_buckets r)
  = maturity_bucket
      (of_cell (if cell_is (security_type r) "Cash" then Some (3 # 1000)
                else Years_to_Mat (market r))).
Proof.
  destruct r as [[isin ln sn sec cn et ins st th iss] [sp lt rt adj rc cc]
                 [mv d p dp pp md ed oad isn oac csn imp iv ytm] s b g].
  unfold final_buckets. reduce_stages. repeat split.
Qed.

(** X11.  Sensitivity and bucket compose: a row whose delta (given, or
    the default of its type) lies in [0, 1] and whose premium is not
    negative always gets one of the four sensitivity labels; a row without
    premium, or without delta and default, gets none and so is absent from
    the table by sensitivity bucket. *)
Theorem sensi_bucket_of_pipeline (r : Row) :
  (forall d p,
      delta_or_default (security_type r) (Delta (market r)) = Some d ->
      Prem (market r) = Some p -> 0 <= d <= 1 -> 0 <= p ->
      exists label, SENSI_BUCKET (final_buckets r) = Some label /\
                    In label labels_equity) /\
  (Prem (market r) = None \/
   delta_or_default (security_type r) (Delta (market r)) = None ->
   SENSI_BUCKET (final_buckets r) = None).
Proof.
  destruct (final_bucket_columns r) as (-> & _). split.
  - intros d p -> -> [Hd0 Hd1] Hp. unfold sensi_equity. cbn [option_map cdiv].
    assert (Hden : 1 <= 1 + p / 100).
    { assert (0 <= p / 100) by (apply Qle_shift_div_l; lra). lra. }
    destruct (Qeqb_spec (1 + p / 100) 0) as [E | _]; [lra|].
    assert (H0 : 0 <= d / (1 + p / 100)) by (apply Qle_shift_div_l; lra).
    assert (H1 : d / (1 + p / 100) <= 1) by (apply Qle_shift_div_r; lra).
    pose proof float_1_1_bounds as [Hlo _].
    destruct (sensi_bucket_intervals (d / (1 + p / 100)))
      as [[H _] | [[_ ->] | [[_ ->] | [[_ ->] | [[_ ->] | [H _]]]]]];
      try lra; eexists; (split; [reflexivity|]); simpl; tauto.
  - intros [-> | ->]; unfold sensi_equity; cbn [option_map cdiv].
    + now destruct (delta_or_default (security_type r) (Delta (market r))).
    + reflexivity.
Qed.

Lemma sensi_bucket_of_pipeline_witness :
  (exists label, SENSI_BUCKET (final_buckets Examples.stock_no_delta) = Some label
                 /\ In label labels_equity) /\
  SENSI_BUCKET (final_buckets Examples.convertible_no_delta) = None.
Proof.
  split.
  - destruct (sensi_bucket_of_pipeline Examples.stock_no_delta) as (H & _).
    apply (H 1 25); [reflexivity | reflexivity | |]; vm_compute;
      try split; discriminate.
  - destruct (sensi_bucket_of_pipeline Examples.convertible_no_delta) as (_ & H).
    apply H. right. reflexivity.
Defined.

(** X12.  Cash lines end the pipeline the same way whatever their cells
    hold: resolved rating "CASH", credit category "Cash", no rank, years to
    maturity 0.003 and maturity bucket "<1 An"; a missing delta becomes
    0. *)
Theorem cash_rows_final (r : Row) :
  security_type r = Some "Cash" ->
  sp_ajusted (all_metrics_row r) = Some "CASH" /\
  Credit_Category (ratings (all_metrics_row r)) = Some "Cash" /\
  Rating_Chiffre (ratings (all_metrics_row r)) = None /\
  Years_to_Mat (market (all_metrics_row r)) = Some (3 # 1000) /\
  Maturity_Bucket (final_buckets r) = Some "<1 An" /\
  (Delta (market r) = None -> Delta (market (all_metrics_row r)) = Some 0).
Proof.
  destruct r as [[isin ln sn sec cn et ins st th iss] [sp lt rt adj rc cc]
                 [mv d p dp pp md ed oad isn oac csn imp iv ytm] s b g].
  unfold final_buckets. reduce_stages. intros ->.
  repeat split. intros ->. reflexivity.
Qed.

Lemma cash_rows_final_witness :
  sp_ajusted (all_metrics_row Examples.rated_cash) = Some "CASH" /\
  Maturity_Bucket (final_buckets Examples.rated_cash) = Some "<1 An".
Proof.
  destruct (cash_rows_final Examples.rated_cash) as (H1 & _ & _ & _ & H2 & _);
    [reflexivity|].
  split; assumption.
Defined.

(** ** The reference-data fetcher *)

Lemma fold_insert_lookup {V} (g : string -> V) (fields : list string) :
  forall (m : gmap string V) (f : string),
    fold_left (fun m x => <[x := g x]> m) fields m !! f
    = if mem f fields then Some (g f) else m !! f.
Proof.
  induction fields as [|x fields IH]; intros m f; [reflexivity|].
  cbn [fold_left]. rewrite IH. unfold mem. cbn [existsb]. fold (mem f fields).
  destruct (mem f fields); [now rewrite orb_true_r|]. rewrite orb_false_r.
  destruct (String.eqb_spec f x) as [-> | Hne].
  - apply lookup_insert_eq.
  - now rewrite lookup_insert_ne by congruence.
Qed.

Lemma fold_insert_securities {V} (h : Loader.security_data -> V)
      (sds : list Loader.security_data) :
  forall (m : gmap string V) (t : string),
    (forall v, fold_left (fun res sd => <[Loader.security sd := h sd]> res) sds m
               !! t = Some v ->
               (exists sd, In sd sds /\ Loader.security sd = t /\ v = h sd) \/
               m !! t = Some v) /\
    ((exists sd, In sd sds /\ Loader.security sd = t) ->
     exists v, fold_left (fun res sd => <[Loader.security sd := h sd]> res) sds m
               !! t = Some v) /\
    (m !! t <> None ->
     fold_left (fun res sd => <[Loader.security sd := h sd]> res) sds m !! t
     <> None).
Proof.
  induction sds as [|sd sds IH]; intros m t; cbn [fold_left].
  - split; [intros v H; now right|]. split; [intros (sd & [] & _) | tauto].
  - destruct (IH (<[Loader.security sd := h sd]> m) t) as (IH1 & IH2 & IH3).
    split; [|split].
    + intros v Hv. destruct (IH1 v Hv) as [(sd' & Hin & E & ->) | Hm].
      * left. exists sd'. split; [now right | now split].
      * destruct (String.eqb_spec (Loader.security sd) t) as [E | Hne].
        -- rewrite E, lookup_insert_eq in Hm. injection Hm as <-.
           left. exists sd. split; [now left | now split].
        -- rewrite lookup_insert_ne in Hm by exact Hne. now right.
    + intros (sd' & [<- | Hin] & E).
      * assert (H : <[Loader.security sd := h sd]> m !! t <> None)
          by (rewrite E, lookup_insert_eq; discriminate).
        specialize (IH3 H).
        destruct (fold_left _ sds _ !! t) as [v|]; [now exists v | contradiction].
      * apply IH2. now exists sd'.
    + intros Hm. apply IH3.
      destruct (String.eqb_spec (Loader.security sd) t) as [E | Hne].
      * rewrite E, lookup_insert_eq. discriminate.
      * now rewrite lookup_insert_ne by exact Hne.
Qed.

(** X13.  A successful batch request gives one entry per security that the
    response names, whether it was requested or not, and none for a
    requested ticker that the response leaves out.  An entry with field
    data holds every requested field and nothing else, a field that is
    absent or unreadable being stored as None; an entry without field data
    is empty. *)
Theorem fetch_batch_data_contract (s : Loader.Session)
        (tickers fields : list string) (sds : list Loader.security_data) :
  Loader.service s = true -> tickers <> [] ->
  Loader.exchange s (Loader.request_securities tickers) fields = Loader.Ok sds ->
  (forall t, (exists m, Loader.fetch_batch_data s tickers fields !! t = Some m)
             <-> exists sd, In sd sds /\ Loader.security sd = t) /\
  (forall t m, Loader.fetch_batch_data s tickers fields !! t = Some m ->
               exists sd, In sd sds /\ Loader.security sd = t /\
                          m = Loader.read_security fields sd) /\
  (forall sd fd f, Loader.fieldData sd = Some fd ->
                   Loader.read_security fields sd !! f
                   = if mem f fields then Some (Loader.read_field fd f) else None) /\
  (forall sd, Loader.fieldData sd = None -> Loader.read_security fields sd = ∅).
Proof.
  intros Hs Ht Hex.
  assert (E : Loader.fetch_batch_data s tickers fields
              = fold_left (fun res sd => <[Loader.security sd
                                          := Loader.read_security fields sd]> res)
                          sds ∅).
  { unfold Loader.fetch_batch_data. rewrite Hs, Hex.
    destruct tickers; [contradiction | reflexivity]. }
  rewrite E. split; [|split; [|split]].
  - intros t.
    destruct (fold_insert_securities (Loader.read_security fields) sds ∅ t)
      as (H1 & H2 & _).
    split.
    + intros (m & Hm). destruct (H1 m Hm) as [(sd & Hin & Hsd & _) | Hm'].
      * now exists sd.
      * rewrite lookup_empty in Hm'. discriminate Hm'.
    + exact H2.
  - intros t m Hm.
    destruct (fold_insert_securities (Loader.read_security fields) sds ∅ t)
      as (H1 & _).
    destruct (H1 m Hm) as [H | Hm']; [exact H|].
    rewrite lookup_empty in Hm'. discriminate Hm'.
  - intros sd fd f Hfd. unfold Loader.read_security. rewrite Hfd.
    rewrite (fold_insert_lookup (Loader.read_field fd)).
    now rewrite lookup_empty.
  - intros sd Hfd. unfold Loader.read_security. now rewrite Hfd.
Qed.

Lemma fetch_batch_data_contract_witness :
  exists m, Loader.fetch_batch_data Samples.answering_session ["ALPHA Equity"]
              ["EXPECTED_REPORT_DT"; "EXPECTED_REPORT_TIME"]
            !! "ALPHA Equity" = Some m /\
            m !! "EXPECTED_REPORT_DT" = Some (Some (Loader.BString "2025-01-30")) /\
            m !! "EXPECTED_REPORT_TIME" = Some None /\
            m !! "PX_LAST" = None.
Proof.
  destruct (fetch_batch_data_contract Samples.answering_session ["ALPHA Equity"]
              ["EXPECTED_REPORT_DT"; "EXPECTED_REPORT_TIME"] _
              eq_refl ltac:(discriminate) eq_refl) as (H1 & H2 & H3 & _).
  destruct (proj2 (H1 "ALPHA Equity")) as [m Hm].
  { eexists. split; [left; reflexivity | reflexivity]. }
  exists m. split; [exact Hm|].
  destruct (H2 _ _ Hm) as (sd & [<- | [<- | []]] & Esd & ->);
    [|discriminate Esd].
  repeat split; erewrite H3 by reflexivity; reflexivity.
Defined.

(** ** Tickers *)

(** X14.  The securities put into the request are exactly the trimmed
    forms of the tickers that are not blank: each is non-empty, carries no
    blank at either end, and every non-blank ticker is represented. *)
Theorem request_securities_trimmed (tickers : list string) (t : string) :
  In t (Loader.request_securities tickers) <->
  t <> "" /\ strip t = t /\ exists t0, In t0 tickers /\ t = strip t0.
Proof.
  unfold Loader.request_securities.
  rewrite <- list_elem_of_In, list_elem_of_omap. split.
  - intros (t0 & Hin & H). apply list_elem_of_In in Hin.
    destruct (String.eqb_spec (strip t0) "") as [_ | Hne]; [discriminate H|].
    injection H as <-. split; [exact Hne|]. split; [apply strip_idem|].
    now exists t0.
  - intros (Hne & _ & t0 & Hin & ->). exists t0.
    split; [now apply list_elem_of_In|].
    destruct (String.eqb_spec (strip t0) "") as [E | _]; [contradiction | reflexivity].
Qed.

Lemma request_securities_trimmed_witness :
  Loader.request_securities [" MSFT US Equity "; "   "; ""] = ["MSFT US Equity"] /\
  strip "MSFT US Equity" = "MSFT US Equity".
Proof.
  split; [reflexivity|].
  apply (request_securities_trimmed [" MSFT US Equity "; "   "; ""]).
  left. reflexivity.
Defined.

Lemma unique_In (l : list string) (x : string) :
  In x (Loader.unique l) <-> In x l.
Proof.
  induction l as [|y l IH]; [reflexivity|].
  cbn [Loader.unique In]. rewrite List.filter_In, IH.
  rewrite negb_true_iff, String.eqb_neq.
  destruct (string_dec y x) as [-> | Hne]; [tauto|].
  split; [tauto|]. intros [H | H]; [tauto|]. right. split; [exact H | congruence].
Qed.

Lemma unique_NoDup (l : list string) : List.NoDup (Loader.unique l).
Proof.
  induction l as [|y l IH]; [constructor|].
  cbn [Loader.unique]. constructor.
  - rewrite List.filter_In, negb_true_iff, String.eqb_neq. tauto.
  - now apply List.NoDup_filter.
Qed.

(** X15.  The tickers handed to the fetcher: every ticker occurs once;
    they are exactly the tickers of the rows after the suffix step, the
    text "nan Equity" of a convertible without ticker left out; and the
    ticker of a convertible always ends in " Equity" while that of any
    other row is fetched as it stands. *)
Theorem tickers_to_fetch_spec (df : DataFrame) :
  List.NoDup (Loader.tickers_to_fetch (map Loader.with_equity_suffix df)) /\
  (forall t, In t (Loader.tickers_to_fetch (map Loader.with_equity_suffix df)) <->
             t <> "nan Equity" /\
             exists r, In r df /\
                       Eqty_Ticker (ident (Loader.with_equity_suffix r)) = Some t) /\
  (forall r, security_type r = Some "Convertible Bonds" ->
             exists t, Eqty_Ticker (ident (Loader.with_equity_suffix r))
                       = Some (t ++ " Equity") /\
                       (Eqty_Ticker (ident r) = Some t \/
                        Eqty_Ticker (ident r) = None /\ t = "nan")) /\
  (forall r, security_type r <> Some "Convertible Bonds" ->
             Loader.with_equity_suffix r = r).
Proof.
  split; [apply unique_NoDup|]. split; [|split].
  - intros t. unfold Loader.tickers_to_fetch.
    rewrite unique_In, <- list_elem_of_In, list_elem_of_omap. split.
    + intros (r' & Hin & H). apply list_elem_of_In, List.in_map_iff in Hin
        as (r & <- & Hin).
      destruct (Eqty_Ticker (ident (Loader.with_equity_suffix r))) as [t'|] eqn:E;
        [|discriminate H].
      destruct (String.eqb_spec t' "nan Equity") as [_ | Hne]; [discriminate H|].
      injection H as <-. split; [exact Hne | now exists r].
    + intros (Hne & r & Hin & E). exists (Loader.with_equity_suffix r).
      split; [apply list_elem_of_In, List.in_map; exact Hin|].
      rewrite E.
      destruct (String.eqb_spec t "nan Equity"); [contradiction | reflexivity].
  - intros r Hr. unfold Loader.with_equity_suffix.
    apply cell_is_true in Hr. rewrite Hr. cbn [Loader.set_eqty_ticker ident Eqty_Ticker].
    destruct (Eqty_Ticker (ident r)) as [t|]; eexists; split; eauto.
  - intros r Hr. unfold Loader.with_equity_suffix.
    destruct (cell_is (security_type r) "Convertible Bonds") eqn:E; [|reflexivity].
    apply cell_is_true in E. contradiction.
Qed.

Lemma tickers_to_fetch_spec_witness :
  Loader.tickers_to_fetch
    (map Loader.with_equity_suffix
         (Examples.two_countries ++ Examples.two_countries))
  = ["ALPHA Equity"; "BETA Equity"] /\
  Loader.with_equity_suffix Examples.rated_cash = Examples.rated_cash.
Proof.
  split; [vm_compute; reflexivity|].
  destruct (tickers_to_fetch_spec []) as (_ & _ & _ & H).
  apply H. discriminate.
Defined.

(** ** Outcomes of a run *)



Lemma filter_all {A} (f : A -> bool) (l : list A) :
  (forall x, In x l -> f x = true) -> List.filter f l = l.
Proof.
  induction l as [|x l IH]; intros H; [reflexivity|].
  cbn [List.filter]. rewrite (H x (or_introl eq_refl)). f_equal.
  apply IH. intros y Hy. apply H. now right.
Qed.



(** ** The working table *)

(** X17.  Within a run the top-holdings table is drawn from the working
    table, which holds Convertible Bonds, Common Stocks and Warrants only:
    the type filter of [_get_top_holdings] then removes nothing, and no
    Corporate Bond or Open-End Fund is ever selected although both are in
    its list of types. *)
Theorem top_holdings_within_run (N : nat) (df : DataFrame) :
  List.filter (type_isin Analyzer.types_autorises) (working_table df)
  = working_table df /\
  Analyzer.top_holdings_rows N (working_table df)
  = Analyzer.nlargest N Analyzer.col_market_value (working_table df) /\
  (forall r, In r (Analyzer.top_holdings_rows N (working_table df)) ->
             In r (complete_table df) /\ type_in r Loader.analysed_types).
Proof.
  assert (H : List.filter (type_isin Analyzer.types_autorises) (working_table df)
              = working_table df).
  { apply filter_all. intros r Hr. unfold working_table in Hr.
    apply List.filter_In in Hr as [_ Hr]. unfold type_isin in *.
    destruct (security_type r) as [t|]; [|discriminate Hr].
    apply mem_In in Hr. apply mem_In. simpl in *. tauto. }
  split; [exact H|]. split.
  - unfold Analyzer.top_holdings_rows. now rewrite H.
  - intros r Hr. unfold Analyzer.top_holdings_rows in Hr. rewrite H in Hr.
    unfold Analyzer.nlargest in Hr.
    assert (Hs : In r (Analyzer.sort_desc Analyzer.col_market_value
                                          (working_table df))).
    { rewrite <- (firstn_skipn N). apply in_or_app. now left. }
    clear Hr. rename Hs into Hr.
    apply (Permutation_in _ (sort_desc_perm _ _)) in Hr.
    unfold working_table in Hr. apply List.filter_In in Hr as [Hin Ht].
    split; [exact Hin|]. unfold type_isin in Ht.
    destruct (security_type r) as [t|] eqn:E; [|discriminate Ht].
    exists t. split; [exact E | now apply mem_In].
Qed.

Lemma top_holdings_within_run_witness :
  Analyzer.top_holdings_rows 1
    (working_table [Examples.rated "Corporate Bonds" "A" 90;
                    Examples.rated "Convertible Bonds" "B" 10])
  = [all_metrics_row
       (Loader.with_equity_suffix (Examples.rated "Convertible Bonds" "B" 10))] /\
  type_in (all_metrics_row
             (Loader.with_equity_suffix
                (Examples.rated "Convertible Bonds" "B" 10)))
          Loader.analysed_types.
Proof.
  assert (E : Analyzer.top_holdings_rows 1
                (working_table [Examples.rated "Corporate Bonds" "A" 90;
                                Examples.rated "Convertible Bonds" "B" 10])
              = [all_metrics_row
                   (Loader.with_equity_suffix
                      (Examples.rated "Convertible Bonds" "B" 10))])
    by (vm_compute; reflexivity).
  split; [exact E|].
  destruct (top_holdings_within_run 1
              [Examples.rated "Corporate Bonds" "A" 90;
               Examples.rated "Convertible Bonds" "B" 10]) as (_ & _ & H).
  apply H. rewrite E. now left.
Defined.

(** ** Position counts of the bucket tables *)

Lemma fcount_filter_or (col : Row -> fnum) (f g : Row -> bool) (df : DataFrame) :
  (forall r, In r df -> f r = true -> g r = true -> False) ->
  fcount (map col (List.filter (fun r => f r || g r) df))
  = (fcount (map col (List.filter f df)) + fcount (map col (List.filter g df)))%nat.
Proof.
  unfold fcount. induction df as [|r df IH]; intros Hd; [reflexivity|].
  assert (IH' := IH (fun r' Hr' => Hd r' (or_intror Hr'))).
  assert (Hr := Hd r (or_introl eq_refl)).
  cbn [List.filter].
  destruct (f r) eqn:Ef, (g r) eqn:Eg; cbn [orb map List.filter].
  - exfalso. now apply Hr.
  - destruct (negb (isna (col r))); cbn [List.length]; lia.
  - destruct (negb (isna (col r))); cbn [List.length]; lia.
  - exact IH'.
Qed.

Lemma count_total_partition (key : Row -> option string) (col : Row -> fnum)
      (df : DataFrame) (ks : list string) :
  List.NoDup ks ->
  count_total (map Analyzer.round_agg (map (Analyzer.agg_group key col df) ks))
  = fcount (map col (List.filter (key_in key ks) df)).
Proof.
  induction 1 as [|k ks Hk Hks IH]; cbn [map count_total fold_right].
  - induction df as [|r df IHdf]; [reflexivity|].
    cbn [List.filter]. unfold key_in at 1. cbn [mem existsb].
    destruct (key r); exact IHdf.
  - fold (count_total (map Analyzer.round_agg
                           (map (Analyzer.agg_group key col df) ks))).
    rewrite IH. cbn [Analyzer.round_agg Analyzer.agg_group Analyzer.agg_count].
    assert (E : List.filter (key_in key (k :: ks)) df
                = List.filter (fun r => cell_is (key r) k || key_in key ks r) df).
    { apply List.filter_ext. intros r. unfold key_in, cell_is.
      destruct (key r) as [s|]; [|reflexivity].
      cbn [mem existsb]. now rewrite String.eqb_sym. }
    rewrite E, fcount_filter_or; [reflexivity|].
    intros r _ H1 H2. apply cell_is_true in H1.
    unfold key_in in H2. rewrite H1 in H2. apply mem_In in H2.
    contradiction.
Qed.

Lemma sensi_bucket_label (x : fnum) (l : string) :
  sensi_bucket x = Some l -> In l labels_equity.
Proof.
  destruct x as [| |q|]; try discriminate.
  destruct (sensi_bucket_intervals q)
    as [[_ ->] | [[_ ->] | [[_ ->] | [[_ ->] | [[_ ->] | [_ ->]]]]]];
    intros H; try discriminate H; injection H as <-; simpl; tauto.
Qed.

Lemma vol_bucket_label (x : fnum) (l : string) :
  vol_bucket x = Some l -> In l labels_vol.
Proof.
  destruct x as [| |q|]; try discriminate.
  - intros H. vm_compute in H. injection H as <-. simpl. tauto.
  - destruct (vol_bucket_intervals q) as [[_ ->] | [[_ ->] | [[_ ->] | [_ ->]]]];
      intros H; injection H as <-; simpl; tauto.
Qed.

Lemma keyed_by_labels (key : Row -> option string) (labels : list string)
      (df : DataFrame) :
  (forall r l, In r df -> key r = Some l -> In l labels) ->
  List.filter (key_in key labels) df = keyed key df.
Proof.
  intros H. unfold keyed. apply List.filter_ext_in. intros r Hr.
  unfold key_in. destruct (key r) as [l|] eqn:E; [|reflexivity].
  apply mem_In. now apply (H r).
Qed.

Lemma filter_sublist {A} (f : A -> bool) (l : list A) :
  sublist (List.filter f l) l.
Proof.
  induction l as [|x l IH]; cbn [List.filter]; [constructor|].
  destruct (f x); now constructor.
Qed.

Lemma labels_equity_NoDup : List.NoDup labels_equity.
Proof.
  unfold labels_equity.
  repeat (constructor; [cbn; intuition discriminate|]). constructor.
Qed.

Lemma labels_vol_NoDup : List.NoDup labels_vol.
Proof.
  unfold labels_vol.
  repeat (constructor; [cbn; intuition discriminate|]). constructor.
Qed.

(** The lines of a table grouped on a categorical key. *)
Lemma categorical_lines (observed : bool) (categories : list string)
      (key : Row -> option string) (col : Row -> fnum) (df : DataFrame) :
  let t := map Analyzer.round_agg
               (Analyzer.groupby_agg_categorical observed categories key col df) in
  sublist (map Analyzer.agg_key t) categories /\
  (forall l, In l (map Analyzer.agg_key t) <->
             In l categories /\
             (observed = false \/ exists r, In r df /\ key r = Some l)) /\
  (List.NoDup categories ->
   count_total t = fcount (map col (List.filter (key_in key categories) df))).
Proof.
  cbn zeta. unfold Analyzer.groupby_agg_categorical.
  rewrite !List.map_map.
  cbn [Analyzer.round_agg Analyzer.agg_group Analyzer.agg_key].
  rewrite List.map_id. split; [apply filter_sublist|]. split.
  - intros l. rewrite List.filter_In, orb_true_iff, negb_true_iff.
    unfold Analyzer.occurs. rewrite existsb_exists.
    split; intros [Hl H]; (split; [exact Hl|]);
      (destruct H as [H | (r & Hr & E)]; [now left | right]);
      exists r; (split; [exact Hr|]); now apply cell_is_true.
  - intros Hnd. rewrite <- List.map_map, count_total_partition
      by now apply List.NoDup_filter.
    now rewrite observed_rows.
Qed.

(** X19.  The tables by sensitivity bucket and by volatility bucket, at
    either default of the categorical group-by: the lines follow the order
    of the labels, each label at most once; a label is shown exactly when
    the default keeps the empty groups or some row has it as bucket; and
    on a table that went through the calculator the position counts add
    up to the number of rows that have a bucket and a contribution, a row
    without bucket being counted nowhere. *)
Theorem bucket_table_counts (observed : bool) (df : DataFrame) :
  let sensi := fun r => SENSI_BUCKET (buckets r) in
  let vol := fun r => Vol_Bucket (buckets r) in
  sublist (map Analyzer.agg_key (Reports._aggregate_by_sensi_bucket observed df))
          labels_equity /\
  sublist (map Analyzer.agg_key (Reports._aggregate_by_vol_bucket observed df))
          labels_vol /\
  (forall l,
      In l (map Analyzer.agg_key (Reports._aggregate_by_sensi_bucket observed df))
      <-> In l labels_equity /\
          (observed = false \/ exists r, In r df /\ sensi r = Some l)) /\
  (forall l,
      In l (map Analyzer.agg_key (Reports._aggregate_by_vol_bucket observed df))
      <-> In l labels_vol /\
          (observed = false \/ exists r, In r df /\ vol r = Some l)) /\
  count_total (Reports._aggregate_by_sensi_bucket observed (map all_metrics_row df))
  = fcount (map Analyzer.col_contrib (keyed sensi (map all_metrics_row df))) /\
  count_total (Reports._aggregate_by_vol_bucket observed (map all_metrics_row df))
  = fcount (map Analyzer.col_contrib (keyed vol (map all_metrics_row df))).
Proof.
  cbn zeta.
  unfold Reports._aggregate_by_sensi_bucket, Reports._aggregate_by_vol_bucket.
  destruct (categorical_lines observed labels_equity
              (fun r => SENSI_BUCKET (buckets r)) Analyzer.col_contrib df)
    as (Hs1 & Hs2 & _).
  destruct (categorical_lines observed labels_vol
              (fun r => Vol_Bucket (buckets r)) Analyzer.col_contrib df)
    as (Hv1 & Hv2 & _).
  destruct (categorical_lines observed labels_equity
              (fun r => SENSI_BUCKET (buckets r)) Analyzer.col_contrib
              (map all_metrics_row df)) as (_ & _ & Hs3).
  destruct (categorical_lines observed labels_vol
              (fun r => Vol_Bucket (buckets r)) Analyzer.col_contrib
              (map all_metrics_row df)) as (_ & _ & Hv3).
  split; [exact Hs1|]. split; [exact Hv1|].
  split; [exact Hs2|]. split; [exact Hv2|]. split.
  - rewrite (Hs3 labels_equity_NoDup). f_equal. f_equal. apply keyed_by_labels.
    intros r l Hr E. apply List.in_map_iff in Hr as (r0 & <- & _).
    destruct (final_bucket_columns r0) as (Hs & _).
    unfold final_buckets in Hs. rewrite Hs in E.
    now apply sensi_bucket_label in E.
  - rewrite (Hv3 labels_vol_NoDup). f_equal. f_equal. apply keyed_by_labels.
    intros r l Hr E. apply List.in_map_iff in Hr as (r0 & <- & _).
    destruct (final_bucket_columns r0) as (_ & Hv & _).
    unfold final_buckets in Hv. rewrite Hv in E.
    now apply vol_bucket_label in E.
Qed.

(** Two convertibles in the bucket 25-50: with the empty groups kept the
    table has its four lines, without them the one line of that bucket. *)
Lemma bucket_table_counts_witness :
  let df := map all_metrics_row Examples.two_countries in
  map Analyzer.agg_key (Reports._aggregate_by_sensi_bucket false df)
  = labels_equity /\
  map Analyzer.agg_key (Reports._aggregate_by_sensi_bucket true df)
  = ["Bucket 25-50"] /\
  count_total (Reports._aggregate_by_sensi_bucket true df) = 2%nat /\
  ~ In "Bucket 0-25"
       (map Analyzer.agg_key (Reports._aggregate_by_sensi_bucket true df)).
Proof.
  cbn zeta. split; [vm_compute; reflexivity|].
  split; [vm_compute; reflexivity|].
  destruct (bucket_table_counts true Examples.two_countries)
    as (_ & _ & _ & _ & Hcount & _).
  split; [rewrite Hcount; vm_compute; reflexivity|].
  destruct (bucket_table_counts true (map all_metrics_row Examples.two_countries))
    as (_ & _ & Hshown & _).
  intros H. apply Hshown in H as [_ [H | (r & Hr & E)]]; [discriminate H|].
  destruct Hr as [<- | [<- | []]]; vm_compute in E; discriminate E.
Defined.

(** ** The internal ratings file *)

Lemma same_key_eq (a b : option string) : Sources.same_key a b = true <-> a = b.
Proof.
  destruct a as [x|], b as [y|]; cbn; try (split; [discriminate | congruence]).
  - rewrite String.eqb_eq. split; congruence.
  - tauto.
Qed.

Lemma drop_duplicates_last_In (l : list Sources.RatingLine) (x : Sources.RatingLine) :
  In x (Sources.drop_duplicates_last l) -> In x l.
Proof.
  induction l as [|a l IH]; cbn [Sources.drop_duplicates_last]; [tauto|].
  destruct (existsb _ l).
  - intros H. right. now apply IH.
  - intros [<- | H]; [now left | right; now apply IH].
Qed.

Lemma drop_duplicates_last_NoDup (l : list Sources.RatingLine) :
  List.NoDup (map Sources.line_ISIN (Sources.drop_duplicates_last l)).
Proof.
  induction l as [|a l IH]; cbn [Sources.drop_duplicates_last]; [constructor|].
  destruct (existsb _ l) eqn:E; [exact IH|].
  cbn [map]. constructor; [|exact IH].
  intros Hin. apply List.in_map_iff in Hin as (y & Hy & Hin).
  apply drop_duplicates_last_In in Hin.
  assert (existsb (fun y => Sources.same_key (Sources.line_ISIN a)
                                             (Sources.line_ISIN y)) l = true).
  { apply existsb_exists. exists y. split; [exact Hin|].
    apply same_key_eq. congruence. }
  congruence.
Qed.

Lemma not_later_refl (a : Sources.RatingLine) : not_later a a.
Proof. unfold not_later. destruct (Sources.line_Date a); [lia | exact I]. Qed.

Lemma drop_duplicates_last_keeps_latest (l : list Sources.RatingLine) :
  StronglySorted not_later l ->
  forall x, In x l ->
            exists y, In y (Sources.drop_duplicates_last l) /\
                      Sources.line_ISIN y = Sources.line_ISIN x /\
                      not_later x y.
Proof.
  induction 1 as [|a l S IH Ha]; intros x Hx; [destruct Hx|].
  rewrite List.Forall_forall in Ha.
  cbn [Sources.drop_duplicates_last].
  destruct (existsb _ l) eqn:E.
  - destruct Hx as [<- | Hx]; [|now apply IH].
    apply existsb_exists in E as (z & Hz & Ez). apply same_key_eq in Ez.
    destruct (IH z Hz) as (y & Hy & Ey & _).
    exists y. split; [exact Hy|]. split; [congruence|].
    apply Ha. now apply drop_duplicates_last_In.
  - destruct Hx as [<- | Hx].
    + exists a. split; [now left|]. split; [reflexivity | apply not_later_refl].
    + destruct (IH x Hx) as (y & Hy & Ey & Hxy).
      exists y. split; [now right | now split].
Qed.

Lemma date_le_not_later (a b : Sources.RatingLine) :
  Sources.date_le a b = true <-> not_later a b.
Proof.
  unfold Sources.date_le, not_later.
  destruct (Sources.line_Date a), (Sources.line_Date b);
    rewrite ?Z.leb_le; intuition discriminate.
Qed.

Lemma sort_by_date_sorted (l : list Sources.RatingLine) :
  StronglySorted not_later (Sources.sort_by_date l).
Proof.
  apply (strongly_sorted_impl (fun a b => Sources.date_le a b = true)).
  { intros x y. apply date_le_not_later. }
  apply (sort_by_sorted _ (fun _ => True)).
  - intros x y _ _. unfold Sources.date_le.
    destruct (Sources.line_Date x), (Sources.line_Date y); try congruence.
    rewrite Z.leb_gt, Z.leb_le. lia.
  - intros x y z. rewrite !date_le_not_later. unfold not_later.
    destruct (Sources.line_Date x), (Sources.line_Date y),
             (Sources.line_Date z); try tauto. lia.
  - now apply List.Forall_forall.
Qed.

(** X20.  [_load_internal_ratings] keeps one line per ISIN, the latest:
    every line kept comes from the file, no ISIN is kept twice, and for
    every line of the file the line kept for its ISIN is dated no earlier.
    A line whose date could not be read counts as the latest, so it is the
    one kept for its ISIN.  A file that cannot be read is an error. *)
Theorem internal_ratings_latest (lines : list Sources.RatingLine) :
  exists kept,
    Sources._load_internal_ratings (Loader.Ok lines) = Loader.Ok kept /\
    (forall y, In y kept -> In y lines) /\
    List.NoDup (map Sources.line_ISIN kept) /\
    (forall x, In x lines ->
               exists y, In y kept /\
                         Sources.line_ISIN y = Sources.line_ISIN x /\
                         not_later x y) /\
    (forall e, Sources._load_internal_ratings (Loader.Raised e) = Loader.Raised e).
Proof.
  eexists. split; [reflexivity|]. split; [|split; [|split]].
  - intros y Hy. apply drop_duplicates_last_In in Hy.
    now apply (Permutation_in _ (sort_by_perm _ _)) in Hy.
  - apply drop_duplicates_last_NoDup.
  - intros x Hx.
    apply drop_duplicates_last_keeps_latest; [apply sort_by_date_sorted|].
    now apply (Permutation_in _ (Permutation_sym (sort_by_perm _ _))).
  - reflexivity.
Qed.

(** Of two lines for XS1 dated 20 and 10 the first is kept; the undated
    line of XS2 is kept. *)
Lemma internal_ratings_latest_witness :
  Sources._load_internal_ratings (Loader.Ok Samples.rating_lines)
  = Loader.Ok
      [ {| Sources.line_ISIN := Some "XS1"; Sources.line_Rating := Some "BB";
           Sources.line_Date := Some 20%Z |};
        {| Sources.line_ISIN := Some "XS2"; Sources.line_Rating := Some "A";
           Sources.line_Date := None |} ] /\
  exists y, In y Samples.rating_lines /\ Sources.line_Rating y = Some "BB".
Proof.
  split; [reflexivity|].
  destruct (internal_ratings_latest Samples.rating_lines)
    as (kept & E & Hin & _).
  injection E as <-.
  eexists. split; [apply Hin; left; reflexivity | reflexivity].
Defined.

(** ** The table by theme and name *)

(** X21.  The table by theme and name shows exactly the rows whose equity
    contribution is above 1 and whose theme is not missing, each under its
    theme with its short name and its contribution rounded to two
    decimals; a row with a contribution of 1 or less, or without theme, is
    never shown. *)
Theorem theme_name_rows (df : DataFrame) (t : Reports.ThemeRow) :
  In t (Reports._aggregate_by_theme_name df) <->
  exists r, In r df /\
            fltb (Fin 1) (Analyzer.col_contrib r) = true /\
            Theme (ident r) = Some (Reports.theme_key t) /\
            Reports.theme_short_name t = Short_Name (ident r) /\
            Reports.theme_contrib t = fround2 (Analyzer.col_contrib r).
Proof.
  unfold Reports._aggregate_by_theme_name. cbn zeta.
  rewrite List.in_flat_map. split.
  - intros (k & Hk & Ht). unfold Reports.theme_group in Ht.
    apply List.in_map_iff in Ht as (r & <- & Hr).
    apply (Permutation_in _ (sort_desc_perm _ _)) in Hr.
    unfold Analyzer.group_rows in Hr.
    apply List.filter_In in Hr as [Hr Hkey]. apply cell_is_true in Hkey.
    apply List.filter_In in Hr as [Hr Habove].
    exists r. cbn [Reports.theme_key Reports.theme_short_name Reports.theme_contrib].
    repeat split; assumption.
  - intros (r & Hr & Habove & Hkey & Hname & Hval).
    exists (Reports.theme_key t). split.
    + apply group_keys_In. exists r. split; [|exact Hkey].
      apply List.filter_In. split; [exact Hr | exact Habove].
    + unfold Reports.theme_group. apply List.in_map_iff. exists r. split.
      * destruct t as [k n v]. cbn in *. congruence.
      * apply (Permutation_in _ (Permutation_sym (sort_desc_perm _ _))).
        unfold Analyzer.group_rows. apply List.filter_In. split.
        -- apply List.filter_In. split; [exact Hr | exact Habove].
        -- now apply cell_is_true.
Qed.

Lemma theme_name_rows_witness :
  map Reports.theme_short_name (Reports._aggregate_by_theme_name Samples.themed_table)
  = [Some "ALPHA"] /\
  In {| Reports.theme_key := "Cloud";
        Reports.theme_short_name := Some "ALPHA";
        Reports.theme_contrib :=
          fround2 (Analyzer.col_contrib
                     (all_metrics_row
                        (Samples.themed (Some "ALPHA") (Some "Cloud") 10))) |}
     (Reports._aggregate_by_theme_name Samples.themed_table).
Proof.
  split; [vm_compute; reflexivity|].
  apply (theme_name_rows Samples.themed_table).
  exists (all_metrics_row (Samples.themed (Some "ALPHA") (Some "Cloud") 10)).
  split; [left; reflexivity|]. repeat split; vm_compute; reflexivity.
Defined.

(** ** Credit tables *)

(** The rows of the table by rating: the bonds of the complete table. *)
Lemma credit_rated_rows (df_complete : DataFrame) (r : Row) :
  In r (Analyzer.df_credit_rated df_complete)
  <-> In r df_complete /\ type_in r bond_types.
Proof.
  unfold Analyzer.df_credit_rated, Analyzer.df_credit.
  rewrite !List.filter_In. unfold type_isin, type_in, cell_is. split.
  - intros [[Hr Htype] Hcash]. split; [exact Hr|].
    destruct (security_type r) as [t|]; [|discriminate Htype].
    exists t. split; [reflexivity|]. apply mem_In in Htype.
    simpl in Htype. destruct Htype as [<- | [<- | [<- | []]]];
      [simpl; tauto | simpl; tauto | discriminate Hcash].
  - intros [Hr (t & Et & Ht)]. rewrite Et. split; [split; [exact Hr|]|].
    + apply mem_In. simpl in Ht. simpl. tauto.
    + simpl in Ht. destruct Ht as [<- | [<- | []]]; reflexivity.
Qed.

(** The labels of the table by rating are the recoded group keys. *)
Lemma credit_rating_labels (df_complete : DataFrame) :
  Permutation
    (map Analyzer.rating_label (Analyzer.credit_by_rating df_complete))
    (map (fun g => if mem g ordre_sp then Some g else None)
         (Analyzer.group_keys sp_ajusted (Analyzer.df_credit_rated df_complete))).
Proof.
  unfold Analyzer.credit_by_rating. rewrite sort_by_perm.
  unfold Analyzer.groupby_agg. rewrite !List.map_map.
  cbn [Analyzer.recode Analyzer.round_agg Analyzer.agg_group
       Analyzer.agg_key Analyzer.rating_label].
  reflexivity.
Qed.

(** X22.  The table by rating of the credit analysis has one line for
    each resolved rating of the Corporate Bonds and Convertible Bonds of
    the complete table; cash lines and other security types never add a
    line to it.  A rating of the scale [ordre_sp] labels its line; a
    rating outside the scale (the grade of another agency, a lower-case
    grade) keeps its line but not its label, which is shown missing.  The
    table by issuer has ten lines at most. *)
Theorem credit_rating_keys (df_complete : DataFrame) :
  let labels :=
    map Analyzer.rating_label (Analyzer.credit_by_rating df_complete) in
  (forall g, In (Some g) labels <->
             In g ordre_sp /\
             exists r, In r df_complete /\ type_in r bond_types /\
                       sp_ajusted r = Some g) /\
  (In None labels <->
   exists r g, In r df_complete /\ type_in r bond_types /\
               sp_ajusted r = Some g /\ ~ In g ordre_sp) /\
  List.length (Analyzer.credit_by_rating df_complete)
  = List.length (Analyzer.group_keys sp_ajusted
                                     (Analyzer.df_credit_rated df_complete)) /\
  (List.length (Reports.credit_by_issuer df_complete) <= 10)%nat.
Proof.
  cbn zeta. pose proof (credit_rating_labels df_complete) as HP.
  assert (Hkey : forall g,
             In g (Analyzer.group_keys sp_ajusted
                                       (Analyzer.df_credit_rated df_complete))
             <-> exists r, In r df_complete /\ type_in r bond_types /\
                           sp_ajusted r = Some g).
  { intros g. rewrite group_keys_In. split.
    - intros (r & Hr & E). apply credit_rated_rows in Hr as [Hr Ht].
      now exists r.
    - intros (r & Hr & Ht & E). exists r. split; [|exact E].
      now apply credit_rated_rows. }
  split; [|split; [|split]].
  - intros g. split.
    + intros H. apply (Permutation_in _ HP) in H.
      apply List.in_map_iff in H as (g' & E & Hg').
      destruct (mem g' ordre_sp) eqn:M; [|discriminate E].
      injection E as ->. split; [now apply mem_In | now apply Hkey].
    + intros [Hg Hr]. apply (Permutation_in _ (Permutation_sym HP)).
      apply List.in_map_iff. exists g. split; [|now apply Hkey].
      apply mem_In in Hg. now rewrite Hg.
  - split.
    + intros H. apply (Permutation_in _ HP) in H.
      apply List.in_map_iff in H as (g & E & Hg).
      destruct (mem g ordre_sp) eqn:M; [discriminate E|].
      apply Hkey in Hg as (r & Hr & Ht & Er).
      exists r, g. repeat split; try assumption.
      intros Hin. apply mem_In in Hin. congruence.
    + intros (r & g & Hr & Ht & Er & Hout).
      apply (Permutation_in _ (Permutation_sym HP)).
      apply List.in_map_iff. exists g. split.
      * destruct (mem g ordre_sp) eqn:M; [|reflexivity].
        apply mem_In in M. contradiction.
      * apply Hkey. now exists r.
  - rewrite <- (List.length_map Analyzer.rating_label).
    rewrite (Permutation_length HP). apply List.length_map.
  - unfold Reports.credit_by_issuer. rewrite List.length_firstn. lia.
Qed.

Lemma credit_rating_keys_witness :
  let df_complete :=
    map all_metrics_row
        (Examples.rated_cash :: Examples.foreign_scale :: Examples.two_countries) in
  map Analyzer.rating_label (Analyzer.credit_by_rating df_complete)
  = [Some "A"; Some "BB"; None] /\
  In (Some "BB") (map Analyzer.rating_label (Analyzer.credit_by_rating df_complete)) /\
  In None (map Analyzer.rating_label (Analyzer.credit_by_rating df_complete)).
Proof.
  cbn zeta. split; [vm_compute; reflexivity|].
  destruct (credit_rating_keys
              (map all_metrics_row
                   (Examples.rated_cash :: Examples.foreign_scale
                                        :: Examples.two_countries)))
    as (Hlabel & Hnone & _).
  split.
  - apply Hlabel. split; [vm_compute; tauto|].
    eexists. split; [right; right; right; left; reflexivity|].
    split; [|vm_compute; reflexivity].
    exists "Convertible Bonds". split; [reflexivity | simpl; tauto].
  - apply Hnone.
    exists (all_metrics_row Examples.foreign_scale), "Baa2".
    split; [right; left; reflexivity|].
    split; [exists "Convertible Bonds"; split; [reflexivity | simpl; tauto]|].
    split; [vm_compute; reflexivity|].
    vm_compute. intros H.
    repeat (destruct H as [H | H]; [discriminate H|]). exact H.
Defined.

(** ** Lines of the contribution tables *)

Lemma aggregate_by_keys (key : Row -> option string) (df : DataFrame) :
  Permutation (map Analyzer.agg_key (Analyzer.aggregate_by key df))
              (Analyzer.group_keys key df).
Proof.
  unfold Analyzer.aggregate_by. rewrite sort_desc_perm.
  unfold Analyzer.groupby_agg. rewrite !List.map_map.
  cbn [Analyzer.round_agg Analyzer.agg_group Analyzer.agg_key].
  now rewrite List.map_id.
Qed.

(** X23.  The tables by sector, region, theme and style have one line per
    key that occurs in the working table and no other line; the line of a
    key shows the sum of the contributions of its rows rounded to two
    decimals; and the lines stand in decreasing order of the value
    shown. *)
Theorem aggregate_by_lines (key : Row -> option string) (df : DataFrame) :
  List.NoDup (map Analyzer.agg_key (Analyzer.aggregate_by key df)) /\
  (forall k, In k (map Analyzer.agg_key (Analyzer.aggregate_by key df)) <->
             exists r, In r df /\ key r = Some k) /\
  (forall a, In a (Analyzer.aggregate_by key df) ->
             Analyzer.agg_sum a
             = fround2 (fsum (map Analyzer.col_contrib
                                  (Analyzer.group_rows key (Analyzer.agg_key a) df)))) /\
  StronglySorted (Analyzer.desc_rel Analyzer.agg_sum) (Analyzer.aggregate_by key df).
Proof.
  split; [|split; [|split]].
  - apply (Permutation_NoDup (Permutation_sym (aggregate_by_keys key df))).
    apply group_keys_NoDup.
  - intros k. rewrite <- group_keys_In. split; intros H.
    + now apply (Permutation_in _ (aggregate_by_keys key df)).
    + now apply (Permutation_in _ (Permutation_sym (aggregate_by_keys key df))).
  - intros a Ha. unfold Analyzer.aggregate_by in Ha.
    apply (Permutation_in _ (sort_desc_perm _ _)) in Ha.
    apply List.in_map_iff in Ha as (b & <- & Hb).
    unfold Analyzer.groupby_agg in Hb.
    apply List.in_map_iff in Hb as (k & <- & _). reflexivity.
  - apply sort_desc_sorted.
Qed.

Lemma aggregate_by_lines_witness :
  map Analyzer.agg_key
      (Analyzer._aggregate_by_region (map all_metrics_row Examples.two_countries))
  = ["America"] /\
  In "America"
     (map Analyzer.agg_key
          (Analyzer._aggregate_by_region
             (map all_metrics_row Examples.two_countries))).
Proof.
  split; [vm_compute; reflexivity|].
  destruct (aggregate_by_lines (fun r => REGION (geo r))
              (map all_metrics_row Examples.two_countries)) as (_ & H & _).
  apply H. eexists. split; [left; reflexivity | vm_compute; reflexivity].
Defined.

(** ** What the calculator reads *)

(** X24.  The calculator reads the source columns only: two rows with the
    same descriptive cells, the same three rating cells and the same
    numeric cells give the same result, whatever their derived columns
    held before.  In particular the preliminary "S&P Ajusted" written by
    the loader never reaches the output. *)
Theorem derived_columns_overwritten (r r' : Row) :
  ident r = ident r' -> market r = market r' ->
  S_P (ratings r) = S_P (ratings r') ->
  S_P_LT (ratings r) = S_P_LT (ratings r') ->
  Rating (ratings r) = Rating (ratings r') ->
  all_metrics_row r = all_metrics_row r'.
Proof.
  destruct r as [i [sp lt rt adj rc cc] m s b g].
  destruct r' as [i' [sp' lt' rt' adj' rc' cc'] m' s' b' g'].
  cbn [ident market ratings S_P S_P_LT Rating].
  intros <- <- <- <- <-.
  destruct i as [isin ln sn sec cn et ins st th iss].
  destruct m as [mv d p dp pp md ed oad isn oac csn imp iv ytm].
  reduce_stages. unfold _assign_rating_improved. reduce_stages. reflexivity.
Qed.

Lemma derived_columns_overwritten_witness :
  all_metrics_row (all_metrics_row Examples.padded_rating)
  = all_metrics_row (ratings_row Examples.padded_rating).
Proof.
  apply derived_columns_overwritten; vm_compute; reflexivity.
Defined.

(** ** Rows of the enriched table *)

(** X25.  When the enrichment returns, it returns one row per row of the
    merged table, in the same order, each being the merged row after the
    suffix step.  A row whose ticker is missing, or is not a key of the
    fetched data, has both report fields missing, and its EARNING is the
    text of a missing report date, which depends on the other rows: "None"
    when no row has a report date, "nan" when the report dates that exist
    are all floats, and one of the two in every case. *)
Theorem enrichment_keeps_rows (float_str : Q -> string) (infer_string : bool)
        (s : Loader.Session) (df : DataFrame) (rows : list Loader.Enriched) :
  Loader._enrich_with_bloomberg_data float_str infer_string s df
  = Loader.Ok rows ->
  let dates := map Loader.EXPECTED_REPORT_DT rows in
  let na := Loader.na_text infer_string dates in
  map Loader.base rows = map Loader.with_equity_suffix df /\
  List.length rows = List.length df /\
  (forall e, In e rows ->
     match Eqty_Ticker (ident (Loader.base e)) with
     | Some t =>
         Loader.fetch_batch_data s
           (Loader.tickers_to_fetch (map Loader.with_equity_suffix df))
           ["EXPECTED_REPORT_DT"; "EXPECTED_REPORT_TIME"] !! t = None
     | None => True
     end ->
     Loader.EXPECTED_REPORT_DT e = None /\
     Loader.EXPECTED_REPORT_TIME e = None /\
     Loader.EARNING e = na) /\
  (na = "None" \/ na = "nan") /\
  ((forall v, In v dates -> v = None) -> na = "None") /\
  (Loader.holds_float dates = true -> Loader.holds_string dates = false ->
   na = "nan").
Proof.
  unfold Loader._enrich_with_bloomberg_data.
  destruct (Nat.ltb 0 _); [|discriminate].
  intros H. injection H as <-. cbn zeta.
  set (df' := map Loader.with_equity_suffix df).
  rewrite !(List.map_map _ Loader.EXPECTED_REPORT_DT).
  cbn [Loader.EXPECTED_REPORT_DT].
  split; [rewrite List.map_map; cbn [Loader.base]; apply List.map_id|].
  split; [unfold df'; now rewrite !List.length_map|].
  split; [|split; [|split]].
  - set (na := Loader.na_text _ _).
    intros e He. apply List.in_map_iff in He as (r & <- & _).
    cbn [Loader.base Loader.EXPECTED_REPORT_DT Loader.EXPECTED_REPORT_TIME
         Loader.EARNING].
    unfold Loader.lookup_field.
    destruct (Eqty_Ticker (ident r)) as [t|].
    + intros ->. repeat split; reflexivity.
    + intros _. repeat split; reflexivity.
  - unfold Loader.na_text.
    destruct (Loader.holds_float _ && negb (Loader.holds_string _));
      [now right|].
    destruct (infer_string && Loader.holds_string _ && negb (Loader.holds_float _));
      [now right | now left].
  - apply na_text_no_value.
  - intros Hf Hs. unfold Loader.na_text. now rewrite Hf, Hs.
Qed.

(** Two convertibles, a float report date for the first and nothing for
    the second: the second row shows "nan". *)
Lemma enrichment_keeps_rows_witness :
  exists rows,
    Loader._enrich_with_bloomberg_data (fun _ => "20250130.0") false
      Samples.float_session Examples.two_countries = Loader.Ok rows /\
    List.length rows = List.length Examples.two_countries /\
    map Loader.EARNING rows = ["20250130.0"; "nan"] /\
    Loader.na_text false (map Loader.EXPECTED_REPORT_DT rows) = "nan".
Proof.
  eexists. split; [vm_compute; reflexivity|].
  split; [|split; [vm_compute; reflexivity|]].
  - refine (proj1 (proj2 (enrichment_keeps_rows (fun _ => "20250130.0") false
                            Samples.float_session Examples.two_countries
                            _ _))).
    vm_compute; reflexivity.
  - refine (proj2 (proj2 (proj2 (proj2 (proj2
              (enrichment_keeps_rows (fun _ => "20250130.0") false
                 Samples.float_session Examples.two_countries _ _))))) _ _);
      vm_compute; reflexivity.
Defined.
